(** * WhisperWire: channel registry, client registry, permission evaluator
      and signaling handlers

    A shallow embedding of the server core of WhisperWire
    ([server/src/models/ChannelManager.js], [ClientManager],
    [server/src/media/mediasoupManager.js], [server/src/utils/auth.js] and
    [server/src/socket/socketHandler.js]) together with the properties the
    specification states about it.

    Modelling conventions.
    - Identifiers (uuids, socket ids, mediasoup ids) are strings.  The values
      produced by [uuidv4()], by [new Date().toISOString()] and by the
      mediasoup library are inputs of the operations that obtain them.
    - A JavaScript [Map] whose iteration order is observed (the client
      registry, scanned by [getClientBySocketId]) is an insertion-ordered
      association list ([JsMap]); the other [Map]s, the [Set]s and the plain
      objects used as dictionaries are [gmap]s and [gset]s.
    - Numbers are IEEE 754 binary64 values ([spec_float]); [Math.min] and
      [Math.max] follow ECMAScript.
    - A JavaScript exception is the [Throw] outcome of a [completion].
    - Payload fields are typed as the JSDoc and Swagger annotations of the
      source type them; a field that may be missing is an [option]. *)

From Stdlib Require Import ZArith.
From Stdlib Require Import Floats.SpecFloat.
From stdpp Require Import gmap strings list.

Local Open Scope string_scope.
Local Open Scope list_scope.

(** ** JavaScript values and completions *)

(** Number values.  [SFcompare] is the IEEE comparison: it has no answer on
    NaN and identifies the two zeros. *)
Definition number := spec_float.

Definition pos_zero : number := S754_zero false.
Definition neg_zero : number := S754_zero true.
Definition pos_inf : number := S754_infinity false.
Definition neg_inf : number := S754_infinity true.
(** [1], [-0.5], [0.5] and [1.5] in binary64 (53-bit mantissa). *)
Definition num_one : number := S754_finite false 4503599627370496 (-52).
Definition num_minus_half : number := S754_finite true 4503599627370496 (-53).
Definition num_half : number := S754_finite false 4503599627370496 (-53).
Definition num_three_halves : number :=
  S754_finite false 6755399441055744 (-52).

Definition is_nan (x : number) : bool :=
  match x with S754_nan => true | _ => false end.
Definition is_pos_zero (x : number) : bool :=
  match x with S754_zero false => true | _ => false end.
Definition is_neg_zero (x : number) : bool :=
  match x with S754_zero true => true | _ => false end.

(** [x < y], [x <= y] and [x == y] on numbers. *)
Definition num_lt (x y : number) : bool := SFltb x y.
Definition num_le (x y : number) : bool := SFleb x y.

(** [Math.max(...)]: start from -Infinity; a NaN argument gives NaN; +0 is
    larger than -0. *)
Fixpoint max_loop (highest : number) (args : list number) : number :=
  match args with
  | [] => highest
  | n :: rest =>
      if is_nan n then S754_nan
      else
        let highest :=
          if is_pos_zero n && is_neg_zero highest then pos_zero else highest in
        let highest := if num_lt highest n then n else highest in
        max_loop highest rest
  end.
Definition Math_max (args : list number) : number := max_loop neg_inf args.

(** [Math.min(...)]: start from +Infinity; a NaN argument gives NaN; -0 is
    smaller than +0. *)
Fixpoint min_loop (lowest : number) (args : list number) : number :=
  match args with
  | [] => lowest
  | n :: rest =>
      if is_nan n then S754_nan
      else
        let lowest :=
          if is_neg_zero n && is_pos_zero lowest then neg_zero else lowest in
        let lowest := if num_lt n lowest then n else lowest in
        min_loop lowest rest
  end.
Definition Math_min (args : list number) : number := min_loop pos_inf args.

(** A value received in a JSON payload where the source does not fix its
    type. *)
Inductive jsval :=
| JUndefined
| JNull
| JBool (b : bool)
| JNumber (x : number)
| JString (s : string).

(** [ToBoolean]. *)
Definition truthy (v : jsval) : bool :=
  match v with
  | JUndefined | JNull => false
  | JBool b => b
  | JNumber x =>
      match x with
      | S754_zero _ | S754_nan => false
      | _ => true
      end
  | JString s => negb (String.eqb s "")
  end.

(** [process.env.X]: unset ([undefined]) or a string. *)
Definition env_var := option string.

(** [v !== process.env.X]. *)
Definition strict_neq_env (v : jsval) (e : env_var) : bool :=
  match v, e with
  | JUndefined, None => false
  | JString s, Some t => negb (String.eqb s t)
  | _, _ => true
  end.

(** Outcome of a call that may throw. *)
Inductive completion (A : Type) :=
| Return (a : A)
| Throw (message : string).
Arguments Return {A} a.
Arguments Throw {A} message.

(** ** Insertion-ordered maps (JavaScript [Map]) *)

Module JsMap.
Section Defs.
Context {V : Type}.

Fixpoint get (k : string) (m : list (string * V)) : option V :=
  match m with
  | [] => None
  | (k', v) :: rest => if decide (k' = k) then Some v else get k rest
  end.

Definition has (k : string) (m : list (string * V)) : bool :=
  match get k m with Some _ => true | None => false end.

(** [set] overwrites an existing entry in place and appends a new entry. *)
Fixpoint set (k : string) (v : V) (m : list (string * V)) : list (string * V) :=
  match m with
  | [] => [(k, v)]
  | (k', v') :: rest =>
      if decide (k' = k) then (k, v) :: rest else (k', v') :: set k v rest
  end.

Fixpoint delete (k : string) (m : list (string * V)) : list (string * V) :=
  match m with
  | [] => []
  | (k', v') :: rest =>
      if decide (k' = k) then rest else (k', v') :: delete k rest
  end.

Definition keys (m : list (string * V)) : list string := m.*1.

End Defs.
End JsMap.

(** ** Channel registry ([ChannelManager]) *)

Record Channel := {
  channel_id : string;
  channel_name : string;
  channel_description : string;
  channel_clients : gset string;
  channel_producers : gset string;
  channel_createdAt : string
}.

(** What [getChannelInfo] exposes. *)
Record ChannelInfo := {
  info_id : string;
  info_name : string;
  info_description : string;
  info_clientCount : nat;
  info_createdAt : string
}.

(** The properties [updateChannel] reads from its [updates] argument. *)
Record ChannelUpdates := {
  updates_name : option string;
  updates_description : option string
}.

(** Truthiness of a possibly missing string: missing and [''] are falsy. *)
Definition truthy_string (o : option string) : option string :=
  match o with
  | Some s => if String.eqb s "" then None else Some s
  | None => None
  end.

Module ChannelManager.

Record t := { channels : gmap string Channel }.

Definition getChannelInfo (channelId : string) (cm : t) : option ChannelInfo :=
  match channels cm !! channelId with
  | None => None
  | Some channel =>
      Some {| info_id := channel_id channel;
              info_name := channel_name channel;
              info_description := channel_description channel;
              info_clientCount := size (channel_clients channel);
              info_createdAt := channel_createdAt channel |}
  end.

(** [channelId] is the [uuidv4()] drawn by the call, [now] its timestamp;
    a missing [description] defaults to ['']. *)
Definition createChannel (channelId now : string)
    (name : string) (description : option string) (cm : t)
    : option ChannelInfo * t :=
  let channel := {| channel_id := channelId;
                    channel_name := name;
                    channel_description := default "" description;
                    channel_clients := ∅;
                    channel_producers := ∅;
                    channel_createdAt := now |} in
  let cm' := {| channels := <[channelId := channel]> (channels cm) |} in
  (getChannelInfo channelId cm', cm').

(** The constructor: an empty map, then the default channel. *)
Definition new (channelId now : string) : t :=
  (createChannel channelId now "System"
     (Some "System-wide announcements and notifications")
     {| channels := ∅ |}).2.

Definition getChannel (channelId : string) (cm : t) : option ChannelInfo :=
  match channels cm !! channelId with
  | None => None
  | Some _ => getChannelInfo channelId cm
  end.

Definition updateChannel (channelId : string) (updates : ChannelUpdates)
    (cm : t) : option ChannelInfo * t :=
  match channels cm !! channelId with
  | None => (None, cm)
  | Some channel =>
      let channel :=
        match truthy_string (updates_name updates) with
        | Some n =>
            {| channel_id := channel_id channel;
               channel_name := n;
               channel_description := channel_description channel;
               channel_clients := channel_clients channel;
               channel_producers := channel_producers channel;
               channel_createdAt := channel_createdAt channel |}
        | None => channel
        end in
      let channel :=
        match truthy_string (updates_description updates) with
        | Some d =>
            {| channel_id := channel_id channel;
               channel_name := channel_name channel;
               channel_description := d;
               channel_clients := channel_clients channel;
               channel_producers := channel_producers channel;
               channel_createdAt := channel_createdAt channel |}
        | None => channel
        end in
      let cm' := {| channels := <[channelId := channel]> (channels cm) |} in
      (getChannelInfo channelId cm', cm')
  end.

(** [this.channels.get(channelId)?.name === 'System'] *)
Definition is_named_System (channelId : string) (cm : t) : bool :=
  match channels cm !! channelId with
  | Some channel => String.eqb (channel_name channel) "System"
  | None => false
  end.

Definition deleteChannel (channelId : string) (cm : t) : bool * t :=
  if is_named_System channelId cm then (false, cm)
  else
    match channels cm !! channelId with
    | Some _ => (true, {| channels := delete channelId (channels cm) |})
    | None => (false, cm)
    end.

Definition addClientToChannel (channelId clientId : string) (cm : t)
    : bool * t :=
  match channels cm !! channelId with
  | None => (false, cm)
  | Some channel =>
      let channel :=
        {| channel_id := channel_id channel;
           channel_name := channel_name channel;
           channel_description := channel_description channel;
           channel_clients := {[clientId]} ∪ channel_clients channel;
           channel_producers := channel_producers channel;
           channel_createdAt := channel_createdAt channel |} in
      (true, {| channels := <[channelId := channel]> (channels cm) |})
  end.

Definition removeClientFromChannel (channelId clientId : string) (cm : t)
    : bool * t :=
  match channels cm !! channelId with
  | None => (false, cm)
  | Some channel =>
      let success := bool_decide (clientId ∈ channel_clients channel) in
      let channel :=
        {| channel_id := channel_id channel;
           channel_name := channel_name channel;
           channel_description := channel_description channel;
           channel_clients := channel_clients channel ∖ {[clientId]};
           channel_producers := channel_producers channel;
           channel_createdAt := channel_createdAt channel |} in
      (success, {| channels := <[channelId := channel]> (channels cm) |})
  end.

Definition addProducerToChannel (channelId producerId : string) (cm : t)
    : bool * t :=
  match channels cm !! channelId with
  | None => (false, cm)
  | Some channel =>
      let channel :=
        {| channel_id := channel_id channel;
           channel_name := channel_name channel;
           channel_description := channel_description channel;
           channel_clients := channel_clients channel;
           channel_producers := {[producerId]} ∪ channel_producers channel;
           channel_createdAt := channel_createdAt channel |} in
      (true, {| channels := <[channelId := channel]> (channels cm) |})
  end.

Definition removeProducerFromChannel (channelId producerId : string) (cm : t)
    : bool * t :=
  match channels cm !! channelId with
  | None => (false, cm)
  | Some channel =>
      let success := bool_decide (producerId ∈ channel_producers channel) in
      let channel :=
        {| channel_id := channel_id channel;
           channel_name := channel_name channel;
           channel_description := channel_description channel;
           channel_clients := channel_clients channel;
           channel_producers := channel_producers channel ∖ {[producerId]};
           channel_createdAt := channel_createdAt channel |} in
      (success, {| channels := <[channelId := channel]> (channels cm) |})
  end.

(** The producers of a channel, as a set ([Array.from(channel.producers)]
    up to order); empty for an unknown channel. *)
Definition getChannelProducers (channelId : string) (cm : t) : gset string :=
  match channels cm !! channelId with
  | None => ∅
  | Some channel => channel_producers channel
  end.

Definition getChannelClients (channelId : string) (cm : t) : gset string :=
  match channels cm !! channelId with
  | None => ∅
  | Some channel => channel_clients channel
  end.

(** The mutating operations of the registry API, with the values drawn by
    [createChannel] made explicit. *)
Inductive op :=
| Create (channelId now name : string) (description : option string)
| Update (channelId : string) (updates : ChannelUpdates)
| Delete (channelId : string).

Definition apply (cm : t) (o : op) : t :=
  match o with
  | Create channelId now name description =>
      (createChannel channelId now name description cm).2
  | Update channelId updates => (updateChannel channelId updates cm).2
  | Delete channelId => (deleteChannel channelId cm).2
  end.

Definition run (ops : list op) (cm : t) : t := foldl apply cm ops.

End ChannelManager.

(** ** Client registry ([ClientManager]) *)

Record ChannelSettings := {
  muted : bool;
  volume : number
}.

(** [{ muted: false, volume: 1.0 }] *)
Definition default_settings : ChannelSettings :=
  {| muted := false; volume := num_one |}.

(** The permission matrix of a client.  [createAdminClient] builds it
    without [speakTo] and [listenTo], hence the options. *)
Record Permissions := {
  speakToAll : bool;
  listenToAll : bool;
  speakTo : option (gmap string bool);
  listenTo : option (gmap string bool)
}.

(** The [permissions] argument of [authorizeClient] and
    [updateClientPermissions]: every property may be missing. *)
Record PermissionsInput := {
  in_isAdmin : option bool;
  in_speakToAll : option bool;
  in_listenToAll : option bool;
  in_speakTo : option (gmap string bool);
  in_listenTo : option (gmap string bool)
}.

Record Client := {
  client_id : string;
  client_name : string;
  client_socketId : option string;
  client_isAdmin : bool;
  client_authorized : bool;
  client_channels : list string;
  client_permissions : Permissions;
  client_channelSettings : gmap string ChannelSettings;
  client_createdAt : string;
  client_authorizedAt : option string
}.

Record PendingClient := {
  pending_id : string;
  pending_name : string;
  pending_socketId : option string;
  pending_createdAt : string
}.

(** What [getClientInfo] exposes: the client without its socket id. *)
Record ClientInfo := {
  cinfo_id : string;
  cinfo_name : string;
  cinfo_isAdmin : bool;
  cinfo_authorized : bool;
  cinfo_channels : list string;
  cinfo_permissions : Permissions;
  cinfo_channelSettings : gmap string ChannelSettings;
  cinfo_createdAt : string;
  cinfo_authorizedAt : option string
}.

Definition with_socketId (s : option string) (c : Client) : Client :=
  {| client_id := client_id c; client_name := client_name c;
     client_socketId := s; client_isAdmin := client_isAdmin c;
     client_authorized := client_authorized c;
     client_channels := client_channels c;
     client_permissions := client_permissions c;
     client_channelSettings := client_channelSettings c;
     client_createdAt := client_createdAt c;
     client_authorizedAt := client_authorizedAt c |}.

Definition with_channels (l : list string) (c : Client) : Client :=
  {| client_id := client_id c; client_name := client_name c;
     client_socketId := client_socketId c; client_isAdmin := client_isAdmin c;
     client_authorized := client_authorized c;
     client_channels := l;
     client_permissions := client_permissions c;
     client_channelSettings := client_channelSettings c;
     client_createdAt := client_createdAt c;
     client_authorizedAt := client_authorizedAt c |}.

Definition with_channelSettings (m : gmap string ChannelSettings) (c : Client)
    : Client :=
  {| client_id := client_id c; client_name := client_name c;
     client_socketId := client_socketId c; client_isAdmin := client_isAdmin c;
     client_authorized := client_authorized c;
     client_channels := client_channels c;
     client_permissions := client_permissions c;
     client_channelSettings := m;
     client_createdAt := client_createdAt c;
     client_authorizedAt := client_authorizedAt c |}.

Definition with_permissions (p : Permissions) (c : Client) : Client :=
  {| client_id := client_id c; client_name := client_name c;
     client_socketId := client_socketId c; client_isAdmin := client_isAdmin c;
     client_authorized := client_authorized c;
     client_channels := client_channels c;
     client_permissions := p;
     client_channelSettings := client_channelSettings c;
     client_createdAt := client_createdAt c;
     client_authorizedAt := client_authorizedAt c |}.

(** [Array.prototype.includes] and [indexOf] on arrays of ids. *)
Definition includes (x : string) (l : list string) : bool :=
  bool_decide (x ∈ l).

Fixpoint indexOf (x : string) (l : list string) : option nat :=
  match l with
  | [] => None
  | y :: rest => if decide (y = x) then Some 0 else S <$> indexOf x rest
  end.

(** [obj[key] === true] on a dictionary that may itself be [undefined]:
    reading a property of [undefined] throws a [TypeError]. *)
Definition prop_is_true (obj : option (gmap string bool)) (key : string)
    : completion bool :=
  match obj with
  | None => Throw "Cannot read properties of undefined"
  | Some m => Return (bool_decide (m !! key = Some true))
  end.

(** [{ ...old, ...patch }]: the keys of [patch] win; spreading [undefined]
    contributes nothing. *)
Definition spread (old : option (gmap string bool)) (patch : gmap string bool)
    : gmap string bool :=
  patch ∪ default ∅ old.

Module ClientManager.

Record t := {
  clients : list (string * Client);
  pendingClients : gmap string PendingClient
}.

Definition getClientInfo (clientId : string) (cm : t) : option ClientInfo :=
  match JsMap.get clientId (clients cm) with
  | None => None
  | Some client =>
      Some {| cinfo_id := client_id client;
              cinfo_name := client_name client;
              cinfo_isAdmin := client_isAdmin client;
              cinfo_authorized := client_authorized client;
              cinfo_channels := client_channels client;
              cinfo_permissions := client_permissions client;
              cinfo_channelSettings := client_channelSettings client;
              cinfo_createdAt := client_createdAt client;
              cinfo_authorizedAt := client_authorizedAt client |}
  end.

Definition createAdminClient (adminId now : string) (name : string) (cm : t)
    : option ClientInfo * t :=
  let adminClient :=
    {| client_id := adminId;
       client_name := name;
       client_socketId := None;
       client_isAdmin := true;
       client_authorized := true;
       client_channels := [];
       client_permissions :=
         {| speakToAll := true; listenToAll := true;
            speakTo := None; listenTo := None |};
       client_channelSettings := ∅;
       client_createdAt := now;
       client_authorizedAt := None |} in
  let cm' := {| clients := JsMap.set adminId adminClient (clients cm);
                pendingClients := pendingClients cm |} in
  (getClientInfo adminId cm', cm').

(** The constructor; [create_admin] and [admin_name] are
    [process.env.CREATE_ADMIN] and [process.env.ADMIN_NAME]. *)
Definition new (create_admin admin_name : env_var) (adminId now : string)
    : t :=
  let empty := {| clients := []; pendingClients := ∅ |} in
  match truthy_string create_admin, truthy_string admin_name with
  | Some _, Some name => (createAdminClient adminId now name empty).2
  | _, _ => empty
  end.

Definition addPendingClient (clientId now : string)
    (socketId : option string) (name : string) (cm : t)
    : (string * string) * t :=
  let pendingClient :=
    {| pending_id := clientId; pending_name := name;
       pending_socketId := socketId; pending_createdAt := now |} in
  ((clientId, name),
   {| clients := clients cm;
      pendingClients := <[clientId := pendingClient]> (pendingClients cm) |}).

(** [channels.forEach(channelId => client.channelSettings.set(...))] *)
Definition seed_settings (channels : list string)
    : gmap string ChannelSettings :=
  foldl (λ m channelId, <[channelId := default_settings]> m) ∅ channels.

Definition authorizeClient (clientId now : string)
    (channels : option (list string)) (permissions : PermissionsInput)
    (cm : t) : option ClientInfo * t :=
  match pendingClients cm !! clientId with
  | None => (None, cm)
  | Some pendingClient =>
      let client :=
        {| client_id := clientId;
           client_name := pending_name pendingClient;
           client_socketId := pending_socketId pendingClient;
           client_isAdmin := default false (in_isAdmin permissions);
           client_authorized := true;
           client_channels := default [] channels;
           client_permissions :=
             {| speakToAll := default false (in_speakToAll permissions);
                listenToAll := default false (in_listenToAll permissions);
                speakTo := Some (default ∅ (in_speakTo permissions));
                listenTo := Some (default ∅ (in_listenTo permissions)) |};
           client_channelSettings := seed_settings (default [] channels);
           client_createdAt := pending_createdAt pendingClient;
           client_authorizedAt := Some now |} in
      let cm' := {| clients := JsMap.set clientId client (clients cm);
                    pendingClients := delete clientId (pendingClients cm) |} in
      (getClientInfo clientId cm', cm')
  end.

Definition rejectClient (clientId : string) (cm : t) : bool * t :=
  match pendingClients cm !! clientId with
  | Some _ =>
      (true, {| clients := clients cm;
                pendingClients := delete clientId (pendingClients cm) |})
  | None => (false, cm)
  end.

Definition getClient (clientId : string) (cm : t) : option ClientInfo :=
  if JsMap.has clientId (clients cm) then getClientInfo clientId cm else None.

(** The first entry, in insertion order, whose socket id is [socketId]. *)
Fixpoint find_by_socket (socketId : string) (l : list (string * Client))
    : option string :=
  match l with
  | [] => None
  | (clientId, client) :: rest =>
      if decide (client_socketId client = Some socketId) then Some clientId
      else find_by_socket socketId rest
  end.

Definition getClientBySocketId (socketId : string) (cm : t)
    : option ClientInfo :=
  match find_by_socket socketId (clients cm) with
  | Some clientId => getClientInfo clientId cm
  | None => None
  end.

(** [client && client.isAdmin], as a condition. *)
Definition isAdmin (socketId : string) (cm : t) : bool :=
  match getClientBySocketId socketId cm with
  | Some client => cinfo_isAdmin client
  | None => false
  end.

Definition removeClient (clientId : string) (cm : t) : bool * t :=
  (JsMap.has clientId (clients cm),
   {| clients := JsMap.delete clientId (clients cm);
      pendingClients := pendingClients cm |}).

Definition updateClientSocketId (clientId socketId : string) (cm : t)
    : bool * t :=
  match JsMap.get clientId (clients cm) with
  | None => (false, cm)
  | Some client =>
      (true, {| clients := JsMap.set clientId
                             (with_socketId (Some socketId) client)
                             (clients cm);
                pendingClients := pendingClients cm |})
  end.

Definition addClientToChannel (clientId channelId : string) (cm : t)
    : bool * t :=
  match JsMap.get clientId (clients cm) with
  | None => (false, cm)
  | Some client =>
      if negb (includes channelId (client_channels client)) then
        let client :=
          with_channels (client_channels client ++ [channelId]) client in
        let client :=
          match client_channelSettings client !! channelId with
          | None =>
              with_channelSettings
                (<[channelId := default_settings]>
                   (client_channelSettings client)) client
          | Some _ => client
          end in
        (true, {| clients := JsMap.set clientId client (clients cm);
                  pendingClients := pendingClients cm |})
      else (false, cm)
  end.

Definition removeClientFromChannel (clientId channelId : string) (cm : t)
    : bool * t :=
  match JsMap.get clientId (clients cm) with
  | None => (false, cm)
  | Some client =>
      match indexOf channelId (client_channels client) with
      | Some channelIndex =>
          let client :=
            with_channels (delete channelIndex (client_channels client))
              client in
          let client :=
            with_channelSettings
              (delete channelId (client_channelSettings client)) client in
          (true, {| clients := JsMap.set clientId client (clients cm);
                    pendingClients := pendingClients cm |})
      | None => (false, cm)
      end
  end.

Definition canSpeak (clientId channelId : string) (cm : t)
    : completion bool :=
  match JsMap.get clientId (clients cm) with
  | None => Return false
  | Some client =>
      if negb (includes channelId (client_channels client)) then Return false
      else if speakToAll (client_permissions client) then Return true
      else prop_is_true (speakTo (client_permissions client)) channelId
  end.

Definition canListen (clientId channelId : string) (cm : t)
    : completion bool :=
  match JsMap.get clientId (clients cm) with
  | None => Return false
  | Some client =>
      if negb (includes channelId (client_channels client)) then Return false
      else if listenToAll (client_permissions client) then Return true
      else prop_is_true (listenTo (client_permissions client)) channelId
  end.

Definition setChannelMuteStatus (clientId channelId : string) (m : bool)
    (cm : t) : bool * t :=
  match JsMap.get clientId (clients cm) with
  | None => (false, cm)
  | Some client =>
      match client_channelSettings client !! channelId with
      | None => (false, cm)
      | Some settings =>
          let settings := {| muted := m; volume := volume settings |} in
          let client :=
            with_channelSettings
              (<[channelId := settings]> (client_channelSettings client))
              client in
          (true, {| clients := JsMap.set clientId client (clients cm);
                    pendingClients := pendingClients cm |})
      end
  end.

Definition setChannelVolume (clientId channelId : string) (v : number)
    (cm : t) : bool * t :=
  match JsMap.get clientId (clients cm) with
  | None => (false, cm)
  | Some client =>
      match client_channelSettings client !! channelId with
      | None => (false, cm)
      | Some settings =>
          let normalizedVolume := Math_max [pos_zero; Math_min [num_one; v]] in
          let settings :=
            {| muted := muted settings; volume := normalizedVolume |} in
          let client :=
            with_channelSettings
              (<[channelId := settings]> (client_channelSettings client))
              client in
          (true, {| clients := JsMap.set clientId client (clients cm);
                    pendingClients := pendingClients cm |})
      end
  end.

Definition updateClientPermissions (clientId : string)
    (permissions : PermissionsInput) (cm : t) : bool * t :=
  match JsMap.get clientId (clients cm) with
  | None => (false, cm)
  | Some client =>
      let p := client_permissions client in
      let p :=
        match in_speakToAll permissions with
        | Some b => {| speakToAll := b; listenToAll := listenToAll p;
                       speakTo := speakTo p; listenTo := listenTo p |}
        | None => p
        end in
      let p :=
        match in_listenToAll permissions with
        | Some b => {| speakToAll := speakToAll p; listenToAll := b;
                       speakTo := speakTo p; listenTo := listenTo p |}
        | None => p
        end in
      let p :=
        match in_speakTo permissions with
        | Some patch =>
            {| speakToAll := speakToAll p; listenToAll := listenToAll p;
               speakTo := Some (spread (speakTo p) patch);
               listenTo := listenTo p |}
        | None => p
        end in
      let p :=
        match in_listenTo permissions with
        | Some patch =>
            {| speakToAll := speakToAll p; listenToAll := listenToAll p;
               speakTo := speakTo p;
               listenTo := Some (spread (listenTo p) patch) |}
        | None => p
        end in
      (true, {| clients := JsMap.set clientId (with_permissions p client)
                             (clients cm);
                pendingClients := pendingClients cm |})
  end.

End ClientManager.

(** ** Media worker ([MediasoupManager]) *)

(** The mediasoup objects kept by the manager, reduced to their ids and the
    ids they refer to. *)
Record Transport := { transport_id : string }.
Record Producer := { producer_id : string; producer_transportId : string }.
Record Consumer := {
  consumer_id : string;
  consumer_producerId : string;
  consumer_transportId : string
}.

Module MediasoupManager.

(** [router] is [null] until [initialize] has run; when set it carries the
    router's RTP capabilities. *)
Record t := {
  router : option string;
  transports : gmap string Transport;
  producers : gmap string Producer;
  consumers : gmap string Consumer
}.

Definition new : t :=
  {| router := None; transports := ∅; producers := ∅; consumers := ∅ |}.

(** [initialize], given the outcome of creating the worker and the router. *)
Definition initialize (created : completion string) (m : t)
    : completion bool * t :=
  match created with
  | Throw e => (Throw e, m)
  | Return caps =>
      (Return true,
       {| router := Some caps; transports := transports m;
          producers := producers m; consumers := consumers m |})
  end.

Definition null_router : string := "Cannot read properties of null".

Definition transport_not_found (transportId : string) : string :=
  String.append "Transport with ID "
    (String.append transportId " not found").

Definition producer_not_found (producerId : string) : string :=
  String.append "Producer with ID "
    (String.append producerId " not found").

Definition cannot_consume : string :=
  "Cannot consume this producer with provided RTP capabilities".

Definition getRtpCapabilities (m : t) : completion string :=
  match router m with
  | None => Throw null_router
  | Some caps => Return caps
  end.

(** [created] is the outcome of [router.createWebRtcTransport]: the id of
    the new transport, or the error it rejects with. *)
Definition createWebRtcTransport (created : completion string) (m : t)
    : completion string * t :=
  match router m with
  | None => (Throw null_router, m)
  | Some _ =>
      match created with
      | Throw e => (Throw e, m)
      | Return tid =>
          (Return tid,
           {| router := router m;
              transports := <[tid := {| transport_id := tid |}]> (transports m);
              producers := producers m; consumers := consumers m |})
      end
  end.

(** [connected] is the outcome of [transport.connect]. *)
Definition connectWebRtcTransport (transportId : string)
    (connected : completion unit) (m : t) : completion bool :=
  match transports m !! transportId with
  | None => Throw (transport_not_found transportId)
  | Some _ =>
      match connected with
      | Throw e => Throw e
      | Return _ => Return true
      end
  end.

(** [created] is the outcome of [transport.produce]. *)
Definition produce (transportId : string) (created : completion string)
    (m : t) : completion string * t :=
  match transports m !! transportId with
  | None => (Throw (transport_not_found transportId), m)
  | Some _ =>
      match created with
      | Throw e => (Throw e, m)
      | Return pid =>
          let producer :=
            {| producer_id := pid; producer_transportId := transportId |} in
          (Return pid,
           {| router := router m; transports := transports m;
              producers := <[pid := producer]> (producers m);
              consumers := consumers m |})
      end
  end.

(** [canConsume] is the answer of [router.canConsume], [created] the
    outcome of [transport.consume]. *)
Definition consume (transportId producerId : string) (canConsume : bool)
    (created : completion string) (m : t) : completion string * t :=
  match transports m !! transportId with
  | None => (Throw (transport_not_found transportId), m)
  | Some _ =>
      match producers m !! producerId with
      | None => (Throw (producer_not_found producerId), m)
      | Some _ =>
          match router m with
          | None => (Throw null_router, m)
          | Some _ =>
              if negb canConsume then (Throw cannot_consume, m)
              else
                match created with
                | Throw e => (Throw e, m)
                | Return kid =>
                    let consumer :=
                      {| consumer_id := kid;
                         consumer_producerId := producerId;
                         consumer_transportId := transportId |} in
                    (Return kid,
                     {| router := router m; transports := transports m;
                        producers := producers m;
                        consumers := <[kid := consumer]> (consumers m) |})
                end
          end
      end
  end.

End MediasoupManager.

(** ** Signaling handlers ([socketHandler]) *)

Record Server := {
  channelManager : ChannelManager.t;
  clientManager : ClientManager.t;
  mediasoupManager : MediasoupManager.t
}.

Definition set_channelManager (chm : ChannelManager.t) (srv : Server)
    : Server :=
  {| channelManager := chm; clientManager := clientManager srv;
     mediasoupManager := mediasoupManager srv |}.
Definition set_clientManager (cm : ClientManager.t) (srv : Server) : Server :=
  {| channelManager := channelManager srv; clientManager := cm;
     mediasoupManager := mediasoupManager srv |}.
Definition set_mediasoupManager (m : MediasoupManager.t) (srv : Server)
    : Server :=
  {| channelManager := channelManager srv; clientManager := clientManager srv;
     mediasoupManager := m |}.

(** What a handler obtains from outside the server state while it runs: the
    environment variable, the uuid and timestamp it may draw, and the
    outcomes of the mediasoup and socket.io calls it may make. *)
Record World := {
  SERVER_PASSWORD : env_var;
  uuid : string;
  now : string;
  lib_created : completion string;
  lib_connected : completion unit;
  lib_canConsume : bool;
  rooms_joined : completion unit
}.

Inductive request :=
| Authenticate (clientName : string) (serverPassword : jsval)
| AuthorizeClient (clientId : string) (authorized : bool)
    (channels : option (list string)) (permissions : PermissionsInput)
| CreateChannel (channelName : string) (description : option string)
| ToggleChannelMute (channelId : string) (muted : bool)
| AdjustChannelVolume (channelId : string) (volume : number)
| GetRouterRtpCapabilities
| CreateWebRtcTransport
| ConnectWebRtcTransport (transportId : string)
| Produce (transportId : string)
| Consume (transportId producerId : string).

Inductive payload :=
| PNone
| PPending (clientId clientName : string)
| PChannel (channel : option ChannelInfo)
| PRtpCapabilities (rtpCapabilities : string)
| PTransport (transportId : string)
| PProducer (producerId : string)
| PConsumer (producerId consumerId : string).

(** The argument of the request's callback: [{ success: true, ... }] or
    [{ success: false, error }]. *)
Inductive response :=
| Success (p : payload)
| Failure (error : string).

Definition on_authenticate (w : World) (socket_id : string)
    (clientName : string) (serverPassword : jsval) (srv : Server)
    : response * Server :=
  if negb (truthy serverPassword)
     || strict_neq_env serverPassword (SERVER_PASSWORD w)
  then (Failure "Invalid server password", srv)
  else
    let '((clientId, name), cm) :=
      ClientManager.addPendingClient (uuid w) (now w) (Some socket_id)
        clientName (clientManager srv) in
    (Success (PPending clientId name), set_clientManager cm srv).

Definition on_authorizeClient (w : World) (socket_id : string)
    (clientId : string) (authorized : bool) (channels : option (list string))
    (permissions : PermissionsInput) (srv : Server) : response * Server :=
  if negb (ClientManager.isAdmin socket_id (clientManager srv))
  then (Failure "Unauthorized", srv)
  else if authorized then
    let srv :=
      set_clientManager
        (ClientManager.authorizeClient clientId (now w) channels permissions
           (clientManager srv)).2 srv in
    match channels with
    | None => (Failure "Cannot read properties of undefined", srv)
    | Some _ =>
        match rooms_joined w with
        | Throw e => (Failure e, srv)
        | Return _ => (Success PNone, srv)
        end
    end
  else
    (Success PNone,
     set_clientManager
       (ClientManager.rejectClient clientId (clientManager srv)).2 srv).

Definition on_createChannel (w : World) (socket_id : string)
    (channelName : string) (description : option string) (srv : Server)
    : response * Server :=
  if negb (ClientManager.isAdmin socket_id (clientManager srv))
  then (Failure "Unauthorized", srv)
  else
    let '(channel, chm) :=
      ChannelManager.createChannel (uuid w) (now w) channelName description
        (channelManager srv) in
    (Success (PChannel channel), set_channelManager chm srv).

Definition on_toggleChannelMute (socket_id : string) (channelId : string)
    (m : bool) (srv : Server) : response * Server :=
  match ClientManager.getClientBySocketId socket_id (clientManager srv) with
  | None => (Failure "Client not found", srv)
  | Some client =>
      (Success PNone,
       set_clientManager
         (ClientManager.setChannelMuteStatus (cinfo_id client) channelId m
            (clientManager srv)).2 srv)
  end.

Definition on_adjustChannelVolume (socket_id : string) (channelId : string)
    (v : number) (srv : Server) : response * Server :=
  match ClientManager.getClientBySocketId socket_id (clientManager srv) with
  | None => (Failure "Client not found", srv)
  | Some client =>
      (Success PNone,
       set_clientManager
         (ClientManager.setChannelVolume (cinfo_id client) channelId v
            (clientManager srv)).2 srv)
  end.

Definition on_getRouterRtpCapabilities (srv : Server) : response * Server :=
  match MediasoupManager.getRtpCapabilities (mediasoupManager srv) with
  | Return caps => (Success (PRtpCapabilities caps), srv)
  | Throw e => (Failure e, srv)
  end.

Definition on_createWebRtcTransport (w : World) (srv : Server)
    : response * Server :=
  match MediasoupManager.createWebRtcTransport (lib_created w)
          (mediasoupManager srv) with
  | (Return tid, m) => (Success (PTransport tid), set_mediasoupManager m srv)
  | (Throw e, m) => (Failure e, set_mediasoupManager m srv)
  end.

Definition on_connectWebRtcTransport (w : World) (transportId : string)
    (srv : Server) : response * Server :=
  match MediasoupManager.connectWebRtcTransport transportId (lib_connected w)
          (mediasoupManager srv) with
  | Return _ => (Success PNone, srv)
  | Throw e => (Failure e, srv)
  end.

(** The loop of the [produce] handler over [client.channels]: the producer
    is added to each channel in which [canSpeak] answers [true]; an exception
    leaves the additions already made in place. *)
Fixpoint register_producer (clientId producerId : string)
    (channels : list string) (srv : Server) : completion unit * Server :=
  match channels with
  | [] => (Return tt, srv)
  | channelId :: rest =>
      match ClientManager.canSpeak clientId channelId (clientManager srv) with
      | Throw e => (Throw e, srv)
      | Return true =>
          register_producer clientId producerId rest
            (set_channelManager
               (ChannelManager.addProducerToChannel channelId producerId
                  (channelManager srv)).2 srv)
      | Return false => register_producer clientId producerId rest srv
      end
  end.

Definition on_produce (w : World) (socket_id : string) (transportId : string)
    (srv : Server) : response * Server :=
  match MediasoupManager.produce transportId (lib_created w)
          (mediasoupManager srv) with
  | (Throw e, m) => (Failure e, set_mediasoupManager m srv)
  | (Return pid, m) =>
      let srv := set_mediasoupManager m srv in
      match ClientManager.getClientBySocketId socket_id (clientManager srv) with
      | None => (Success (PProducer pid), srv)
      | Some client =>
          match register_producer (cinfo_id client) pid
                  (cinfo_channels client) srv with
          | (Return _, srv) => (Success (PProducer pid), srv)
          | (Throw e, srv) => (Failure e, srv)
          end
      end
  end.

Definition on_consume (w : World) (transportId producerId : string)
    (srv : Server) : response * Server :=
  match MediasoupManager.consume transportId producerId (lib_canConsume w)
          (lib_created w) (mediasoupManager srv) with
  | (Return kid, m) =>
      (Success (PConsumer producerId kid), set_mediasoupManager m srv)
  | (Throw e, m) => (Failure e, set_mediasoupManager m srv)
  end.

(** The [disconnect] handler. *)
Definition on_disconnect (socket_id : string) (srv : Server) : Server :=
  match ClientManager.getClientBySocketId socket_id (clientManager srv) with
  | None => srv
  | Some client =>
      let chm :=
        foldl (λ chm channelId,
                 (ChannelManager.removeClientFromChannel channelId
                    (cinfo_id client) chm).2)
          (channelManager srv) (cinfo_channels client) in
      set_clientManager
        (ClientManager.removeClient (cinfo_id client) (clientManager srv)).2
        (set_channelManager chm srv)
  end.

(** Dispatch of a request received on the socket [socket_id]. *)
Definition socketHandler (w : World) (socket_id : string) (req : request)
    (srv : Server) : response * Server :=
  match req with
  | Authenticate clientName serverPassword =>
      on_authenticate w socket_id clientName serverPassword srv
  | AuthorizeClient clientId authorized channels permissions =>
      on_authorizeClient w socket_id clientId authorized channels permissions
        srv
  | CreateChannel channelName description =>
      on_createChannel w socket_id channelName description srv
  | ToggleChannelMute channelId m =>
      on_toggleChannelMute socket_id channelId m srv
  | AdjustChannelVolume channelId v =>
      on_adjustChannelVolume socket_id channelId v srv
  | GetRouterRtpCapabilities => on_getRouterRtpCapabilities srv
  | CreateWebRtcTransport => on_createWebRtcTransport w srv
  | ConnectWebRtcTransport transportId =>
      on_connectWebRtcTransport w transportId srv
  | Produce transportId => on_produce w socket_id transportId srv
  | Consume transportId producerId => on_consume w transportId producerId srv
  end.

(** The state of the session behind a socket, read off the registries. *)
Inductive session_state := NEW | PENDING | ACTIVE.

Definition session_state_of (socket_id : string) (srv : Server)
    : session_state :=
  match ClientManager.getClientBySocketId socket_id (clientManager srv) with
  | Some _ => ACTIVE
  | None =>
      if decide (map_Exists
                   (λ _ p, pending_socketId p = Some socket_id)
                   (ClientManager.pendingClients (clientManager srv)))
      then PENDING else NEW
  end.

(** ** Authentication helper ([utils/auth.js]) *)

Definition authenticateClient (env : env_var) (serverPassword : jsval) : bool :=
  match truthy_string env with
  | None => false
  | Some _ => negb (strict_neq_env serverPassword env)
  end.

(** ** Shutdown of the media worker ([MediasoupManager.close]) *)

(** Every consumer, producer, transport and observer is closed and the maps
    are cleared; the router and the worker are closed and set to [null]. *)
Definition MediasoupManager_close (m : MediasoupManager.t)
    : MediasoupManager.t :=
  {| MediasoupManager.router := None;
     MediasoupManager.transports := ∅;
     MediasoupManager.producers := ∅;
     MediasoupManager.consumers := ∅ |}.

(** ** Speaking notifications ([startSpeaking], [stopSpeaking]) *)

(** An event emitted to the room of a channel. *)
Inductive room_event :=
| ClientSpeaking (clientId clientName channelId : string)
| ClientStoppedSpeaking (clientId clientName channelId : string).

(** [startSpeaking]: nothing is emitted for an unknown socket, when
    [canSpeak] answers [false], or when it throws (the handler catches and
    logs). *)
Definition on_startSpeaking (socket_id channelId : string) (srv : Server)
    : option room_event :=
  match ClientManager.getClientBySocketId socket_id (clientManager srv) with
  | None => None
  | Some client =>
      match ClientManager.canSpeak (cinfo_id client) channelId
              (clientManager srv) with
      | Return true =>
          Some (ClientSpeaking (cinfo_id client) (cinfo_name client) channelId)
      | Return false => None
      | Throw _ => None
      end
  end.

Definition on_stopSpeaking (socket_id channelId : string) (srv : Server)
    : option room_event :=
  match ClientManager.getClientBySocketId socket_id (clientManager srv) with
  | None => None
  | Some client =>
      Some (ClientStoppedSpeaking (cinfo_id client) (cinfo_name client)
              channelId)
  end.

(** ** HTTP routes on clients ([api/routes/clients.js]) *)

(** [req.user], the payload of the verified token. *)
Record User := {
  user_clientId : string;
  user_isAdmin : bool
}.

(** [requireAdmin]: whether the request is passed on to the route. *)
Definition requireAdmin (user : option User) : bool :=
  match user with
  | Some u => user_isAdmin u
  | None => false
  end.

(** The two managers the routes file constructs. *)
Record Api := {
  api_clientManager : ClientManager.t;
  api_channelManager : ChannelManager.t
}.

(** The answer of a route: a status code with a message or an error text,
    or, with status 200, the client that was authorized. *)
Inductive reply :=
| Status (code : nat) (text : string)
| ClientJson (client : ClientInfo).

Definition status_of (r : reply) : nat :=
  match r with
  | Status code _ => code
  | ClientJson _ => 200
  end.

(** [POST /:id/authorize].  [channels] and [permissions] are the body
    properties; each may be missing. *)
Definition route_authorize (user : option User) (now : string) (id : string)
    (channels : option (list string)) (permissions : option PermissionsInput)
    (st : Api) : reply * Api :=
  if negb (requireAdmin user) then (Status 403 "Admin privileges required", st)
  else
    match channels, permissions with
    | Some chans, Some perms =>
        match ClientManager.authorizeClient id now (Some chans) perms
                (api_clientManager st) with
        | (None, _) => (Status 404 "Pending client not found", st)
        | (Some client, cm) =>
            let chm :=
              foldl (λ chm channelId,
                       (ChannelManager.addClientToChannel channelId
                          (cinfo_id client) chm).2)
                (api_channelManager st) chans in
            (ClientJson client,
             {| api_clientManager := cm; api_channelManager := chm |})
        end
    | _, _ => (Status 400 "Channels and permissions are required", st)
    end.

(** [POST /:id/channels] *)
Definition route_addToChannel (user : option User) (id : string)
    (channelId : option string) (st : Api) : reply * Api :=
  if negb (requireAdmin user) then (Status 403 "Admin privileges required", st)
  else
    match truthy_string channelId with
    | None => (Status 400 "Channel ID is required", st)
    | Some channelId =>
        match ChannelManager.getChannel channelId (api_channelManager st) with
        | None => (Status 404 "Channel not found", st)
        | Some _ =>
            match ClientManager.addClientToChannel id channelId
                    (api_clientManager st) with
            | (false, _) => (Status 404 "Client not found", st)
            | (true, cm) =>
                (Status 200 "Client added to channel successfully",
                 {| api_clientManager := cm;
                    api_channelManager :=
                      (ChannelManager.addClientToChannel channelId id
                         (api_channelManager st)).2 |})
            end
        end
    end.

(** [DELETE /:id/channels/:channelId] *)
Definition route_removeFromChannel (user : option User) (id channelId : string)
    (st : Api) : reply * Api :=
  if negb (requireAdmin user) then (Status 403 "Admin privileges required", st)
  else
    match ClientManager.removeClientFromChannel id channelId
            (api_clientManager st) with
    | (false, _) => (Status 404 "Client not found or not in channel", st)
    | (true, cm) =>
        (Status 200 "Client removed from channel successfully",
         {| api_clientManager := cm;
            api_channelManager :=
              (ChannelManager.removeClientFromChannel channelId id
                 (api_channelManager st)).2 |})
    end.

(** [PUT /:id/channel-settings/:channelId].  [muted] and [volume] are the
    body properties; each may be missing. *)
Definition route_channelSettings (user : User) (id channelId : string)
    (m : option bool) (v : option number) (st : Api) : reply * Api :=
  if negb (user_isAdmin user) && negb (String.eqb (user_clientId user) id)
  then (Status 403 "Unauthorized access to client settings", st)
  else
    let '(success, cm) :=
      match m with
      | Some m =>
          ClientManager.setChannelMuteStatus id channelId m
            (api_clientManager st)
      | None => (false, api_clientManager st)
      end in
    let '(success, cm) :=
      match v with
      | Some v => ClientManager.setChannelVolume id channelId v cm
      | None => (success, cm)
      end in
    let st' := {| api_clientManager := cm;
                  api_channelManager := api_channelManager st |} in
    if negb success then (Status 404 "Client or channel not found", st')
    else (Status 200 "Channel settings updated successfully", st').

(** ** HTTP routes on channels ([api/routes/channels.js]) *)

(** The mutating requests, with the values [createChannel] draws. *)
Inductive channel_request :=
| PostChannel (uuid now : string) (name description : option string)
| PutChannel (id : string) (name description : option string)
| DeleteChannel (id : string).

(** The answer of a channel route: a status code with a message or an
    error text, or a channel as JSON with its status code. *)
Inductive channel_reply :=
| ChannelStatus (code : nat) (text : string)
| ChannelJson (code : nat) (channel : ChannelInfo).

Definition route_channels (user : option User) (req : channel_request)
    (chm : ChannelManager.t) : channel_reply * ChannelManager.t :=
  if negb (requireAdmin user)
  then (ChannelStatus 403 "Admin privileges required", chm)
  else
    match req with
    | PostChannel uuid now name description =>
        match truthy_string name with
        | None => (ChannelStatus 400 "Channel name is required", chm)
        | Some name =>
            match ChannelManager.createChannel uuid now name description
                    chm with
            | (Some channel, chm') => (ChannelJson 201 channel, chm')
            | (None, chm') =>
                (ChannelStatus 500 "Failed to create channel", chm')
            end
        end
    | PutChannel id name description =>
        let updates := {| updates_name := truthy_string name;
                          updates_description := truthy_string description |} in
        match ChannelManager.updateChannel id updates chm with
        | (None, _) => (ChannelStatus 404 "Channel not found", chm)
        | (Some channel, chm') => (ChannelJson 200 channel, chm')
        end
    | DeleteChannel id =>
        match ChannelManager.deleteChannel id chm with
        | (false, _) =>
            (ChannelStatus 404 "Channel not found or could not be deleted",
             chm)
        | (true, chm') =>
            (ChannelStatus 200 "Channel deleted successfully", chm')
        end
    end.

(** The channel registry of the routes after a sequence of requests. *)
Definition run_channel_routes
    (requests : list (option User * channel_request))
    (chm : ChannelManager.t) : ChannelManager.t :=
  foldl (λ chm '(user, req), (route_channels user req chm).2) chm requests.

(** ** HTTP routes of the mixer ([api/routes/mixer.js]) *)

(** The mixer keeps its volumes in plain objects used as maps from ids. *)
Record MixerState := {
  mixer_channels : gmap string number;
  mixer_clients : gmap string number;
  masterVolume : number;
  broadcastActive : bool
}.

(** The property names every plain object inherits from
    [Object.prototype]: [key in obj] holds for them whatever the own
    properties of [obj]. *)
Definition Object_prototype_keys : list string :=
  ["constructor"; "__defineGetter__"; "__defineSetter__"; "hasOwnProperty";
   "__lookupGetter__"; "__lookupSetter__"; "isPrototypeOf";
   "propertyIsEnumerable"; "toString"; "valueOf"; "__proto__";
   "toLocaleString"].

(** [key in obj] *)
Definition obj_in (key : string) (obj : gmap string number) : bool :=
  bool_decide (is_Some (obj !! key))
  || bool_decide (key ∈ Object_prototype_keys).

(** [obj[key] = v] for a number [v]: the inherited setter of [__proto__]
    ignores a value that is not an object. *)
Definition obj_set (key : string) (v : number) (obj : gmap string number)
    : gmap string number :=
  if String.eqb key "__proto__" then obj else <[key := v]> obj.

(** The module state: [mixerState] and the two managers the file
    constructs. *)
Record Mixer := {
  mixerState : MixerState;
  mixer_channelManager : ChannelManager.t;
  mixer_clientManager : ClientManager.t
}.

Definition set_mixerState (ms : MixerState) (mx : Mixer) : Mixer :=
  {| mixerState := ms;
     mixer_channelManager := mixer_channelManager mx;
     mixer_clientManager := mixer_clientManager mx |}.

Definition mixer_default : MixerState :=
  {| mixer_channels := ∅; mixer_clients := ∅;
     masterVolume := num_one; broadcastActive := false |}.

(** [Math.max(0, Math.min(1, volume))] *)
Definition clamp (volume : number) : number :=
  Math_max [pos_zero; Math_min [num_one; volume]].

(** The requests that change the mixer; a body property may be missing. *)
Inductive mixer_request :=
| MixerAddChannel (channelId : option string) (volume : option number)
| MixerRemoveChannel (id : string)
| MixerChannelVolume (id : string) (volume : option number)
| MixerAddClient (clientId : option string) (volume : option number)
| MixerRemoveClient (id : string)
| MixerClientVolume (id : string) (volume : option number)
| MixerMasterVolume (volume : option number)
| MixerBroadcast (active : option bool)
| MixerReset.

Definition route_mixer (user : option User) (req : mixer_request)
    (mx : Mixer) : reply * Mixer :=
  if negb (requireAdmin user) then (Status 403 "Admin privileges required", mx)
  else
    let ms := mixerState mx in
    match req with
    | MixerAddChannel channelId volume =>
        match truthy_string channelId with
        | None => (Status 400 "Channel ID is required", mx)
        | Some channelId =>
            match ChannelManager.getChannel channelId
                    (mixer_channelManager mx) with
            | None => (Status 404 "Channel not found", mx)
            | Some _ =>
                (Status 200 "Channel added to mixer",
                 set_mixerState
                   {| mixer_channels :=
                        obj_set channelId (clamp (default num_one volume))
                          (mixer_channels ms);
                      mixer_clients := mixer_clients ms;
                      masterVolume := masterVolume ms;
                      broadcastActive := broadcastActive ms |} mx)
            end
        end
    | MixerRemoveChannel id =>
        if negb (obj_in id (mixer_channels ms))
        then (Status 404 "Channel not found in mixer", mx)
        else
          (Status 200 "Channel removed from mixer",
           set_mixerState
             {| mixer_channels := delete id (mixer_channels ms);
                mixer_clients := mixer_clients ms;
                masterVolume := masterVolume ms;
                broadcastActive := broadcastActive ms |} mx)
    | MixerChannelVolume id volume =>
        match volume with
        | None => (Status 400 "Volume is required", mx)
        | Some volume =>
            if negb (obj_in id (mixer_channels ms))
            then (Status 404 "Channel not found in mixer", mx)
            else
              (Status 200 "Channel volume updated",
               set_mixerState
                 {| mixer_channels :=
                      obj_set id (clamp volume) (mixer_channels ms);
                    mixer_clients := mixer_clients ms;
                    masterVolume := masterVolume ms;
                    broadcastActive := broadcastActive ms |} mx)
        end
    | MixerAddClient clientId volume =>
        match truthy_string clientId with
        | None => (Status 400 "Client ID is required", mx)
        | Some clientId =>
            match ClientManager.getClient clientId
                    (mixer_clientManager mx) with
            | None => (Status 404 "Client not found", mx)
            | Some _ =>
                (Status 200 "Client added to mixer",
                 set_mixerState
                   {| mixer_channels := mixer_channels ms;
                      mixer_clients :=
                        obj_set clientId (clamp (default num_one volume))
                          (mixer_clients ms);
                      masterVolume := masterVolume ms;
                      broadcastActive := broadcastActive ms |} mx)
            end
        end
    | MixerRemoveClient id =>
        if negb (obj_in id (mixer_clients ms))
        then (Status 404 "Client not found in mixer", mx)
        else
          (Status 200 "Client removed from mixer",
           set_mixerState
             {| mixer_channels := mixer_channels ms;
                mixer_clients := delete id (mixer_clients ms);
                masterVolume := masterVolume ms;
                broadcastActive := broadcastActive ms |} mx)
    | MixerClientVolume id volume =>
        match volume with
        | None => (Status 400 "Volume is required", mx)
        | Some volume =>
            if negb (obj_in id (mixer_clients ms))
            then (Status 404 "Client not found in mixer", mx)
            else
              (Status 200 "Client volume updated",
               set_mixerState
                 {| mixer_channels := mixer_channels ms;
                    mixer_clients :=
                      obj_set id (clamp volume) (mixer_clients ms);
                    masterVolume := masterVolume ms;
                    broadcastActive := broadcastActive ms |} mx)
        end
    | MixerMasterVolume volume =>
        match volume with
        | None => (Status 400 "Volume is required", mx)
        | Some volume =>
            (Status 200 "Master volume updated",
             set_mixerState
               {| mixer_channels := mixer_channels ms;
                  mixer_clients := mixer_clients ms;
                  masterVolume := clamp volume;
                  broadcastActive := broadcastActive ms |} mx)
        end
    | MixerBroadcast active =>
        match active with
        | None => (Status 400 "Active status is required", mx)
        | Some active =>
            (Status 200
               (if active then "Broadcast started" else "Broadcast stopped"),
             set_mixerState
               {| mixer_channels := mixer_channels ms;
                  mixer_clients := mixer_clients ms;
                  masterVolume := masterVolume ms;
                  broadcastActive := active |} mx)
        end
    | MixerReset =>
        (Status 200 "Mixer reset to default state",
         set_mixerState mixer_default mx)
    end.

(** The module state after a sequence of requests. *)
Definition run_mixer (requests : list (option User * mixer_request))
    (mx : Mixer) : Mixer :=
  foldl (λ mx '(user, req), (route_mixer user req mx).2) mx requests.

(** ** HTTP routes of authentication ([api/routes/auth.js]) *)

(** The answer of an authentication route: an error with its status code,
    or, with status 200, a token signed for [{ clientId, isAdmin }]. *)
Inductive auth_reply :=
| AuthError (code : nat) (error : string)
| AuthToken (clientId : string) (isAdmin : bool).

(** [POST /login]; [server_password] is [process.env.SERVER_PASSWORD]. *)
Definition route_login (server_password : env_var) (uuid now : string)
    (clientName : option string) (serverPassword : jsval)
    (cm : ClientManager.t) : auth_reply * ClientManager.t :=
  match truthy_string clientName with
  | None =>
      (AuthError 400 "Client name and server password are required", cm)
  | Some name =>
      if negb (truthy serverPassword)
      then (AuthError 400 "Client name and server password are required", cm)
      else if negb (authenticateClient server_password serverPassword)
      then (AuthError 401 "Authentication failed: Invalid server password",
            cm)
      else
        let '((clientId, _), cm') :=
          ClientManager.addPendingClient uuid now None name cm in
        (AuthToken clientId false, cm')
  end.

(** [POST /admin-login]; [admin_key] is [process.env.ADMIN_KEY]. *)
Definition route_adminLogin (server_password admin_key : env_var)
    (uuid now : string) (adminName : option string)
    (serverPassword adminKey : jsval) (cm : ClientManager.t)
    : auth_reply * ClientManager.t :=
  match truthy_string adminName with
  | None =>
      (AuthError 400
         "Admin name, server password, and admin key are required", cm)
  | Some name =>
      if negb (truthy serverPassword) || negb (truthy adminKey)
      then (AuthError 400
              "Admin name, server password, and admin key are required", cm)
      else if negb (authenticateClient server_password serverPassword)
      then (AuthError 401 "Authentication failed: Invalid server password",
            cm)
      else
        match truthy_string admin_key with
        | None =>
            (AuthError 401
               "Authentication failed: Admin authentication not configured",
             cm)
        | Some _ =>
            if strict_neq_env adminKey admin_key
            then (AuthError 401 "Authentication failed: Invalid admin key",
                  cm)
            else
              match ClientManager.createAdminClient uuid now name cm with
              | (Some adminClient, cm') =>
                  (AuthToken (cinfo_id adminClient) true, cm')
              | (None, cm') =>
                  (AuthError 500 "Authentication failed: Server error", cm')
              end
        end
  end.

(** ** Events of a connection *)

(** What can happen on a socket: a request, received in a world, or the
    disconnection. *)
Inductive event :=
| Request (w : World) (req : request)
| Disconnect.

Definition handle_event (socket_id : string) (ev : event) (srv : Server)
    : Server :=
  match ev with
  | Request w req => (socketHandler w socket_id req srv).2
  | Disconnect => on_disconnect socket_id srv
  end.

(** The server after a sequence of events, each on some socket. *)
Definition run_events (events : list (string * event)) (srv : Server)
    : Server :=
  foldl (λ srv '(socket_id, ev), handle_event socket_id ev srv) srv events.

(** * Vocabulary of the properties *)

(** [Math.max(0, Math.min(1, volume))] *)
Definition normalized (v : number) : number :=
  Math_max [pos_zero; Math_min [num_one; v]].

(** The volume a client has stored for a channel, if any. *)
Definition channel_volume (clientId channelId : string)
    (cm : ClientManager.t) : option number :=
  match JsMap.get clientId (ClientManager.clients cm) with
  | None => None
  | Some client => volume <$> client_channelSettings client !! channelId
  end.

(** The domain of the per-channel settings is the membership set. *)
Definition settings_domain_ok (client : Client) : Prop :=
  dom (client_channelSettings client)
  =@{gset string} list_to_set (client_channels client).

(** Effective talk right of the permission matrix in a channel:
    [speakToAll] or [speakTo[C]] is [true]. *)
Definition speak_right (p : Permissions) (channelId : string) : Prop :=
  speakToAll p = true ∨
  ∃ m, speakTo p = Some m ∧ m !! channelId = Some true.

(** Effective listen right: [listenToAll] or [listenTo[C]] is [true]. *)
Definition listen_right (p : Permissions) (channelId : string) : Prop :=
  listenToAll p = true ∨
  ∃ m, listenTo p = Some m ∧ m !! channelId = Some true.

(** [dict[key]] on a permission dictionary that may be [undefined]. *)
Definition dict_get (d : option (gmap string bool)) (key : string)
    : option bool :=
  match d with
  | Some m => m !! key
  | None => None
  end.

(** The dictionary after merging a possibly missing patch. *)
Definition merged (old patch : option (gmap string bool)) (key : string)
    : option bool :=
  match patch with
  | None => dict_get old key
  | Some pm =>
      match pm !! key with
      | Some b => Some b
      | None => dict_get old key
      end
  end.

(** The client registry after [addClientToChannel] then
    [removeClientFromChannel] with the same arguments. *)
Definition add_then_remove (clientId channelId : string)
    (cm : ClientManager.t) : ClientManager.t :=
  (ClientManager.removeClientFromChannel clientId channelId
     (ClientManager.addClientToChannel clientId channelId cm).2).2.

(** An operation that draws a fresh id when it creates and does not rename
    a channel named ['System'] when it updates. *)
Definition keeps_System (cm : ChannelManager.t) (o : ChannelManager.op)
    : Prop :=
  match o with
  | ChannelManager.Create channelId _ _ _ =>
      ChannelManager.channels cm !! channelId = None
  | ChannelManager.Update channelId updates =>
      ChannelManager.is_named_System channelId cm = true →
      truthy_string (updates_name updates) = None
  | ChannelManager.Delete _ => True
  end.

Fixpoint all_keep_System (cm : ChannelManager.t) (ops : list ChannelManager.op)
    : Prop :=
  match ops with
  | [] => True
  | o :: rest =>
      keeps_System cm o ∧ all_keep_System (ChannelManager.apply cm o) rest
  end.

(** The Media Worker's conditions for a consumer. *)
Definition consumable (w : World) (transportId producerId : string)
    (m : MediasoupManager.t) : Prop :=
  is_Some (MediasoupManager.transports m !! transportId) ∧
  is_Some (MediasoupManager.producers m !! producerId) ∧
  is_Some (MediasoupManager.router m) ∧
  lib_canConsume w = true ∧
  ∃ consumerId, lib_created w = Return consumerId.

(** The server after the Media Worker has stored a new producer. *)
Definition with_producer (producerId transportId : string) (srv : Server)
    : Server :=
  set_mediasoupManager
    {| MediasoupManager.router :=
         MediasoupManager.router (mediasoupManager srv);
       MediasoupManager.transports :=
         MediasoupManager.transports (mediasoupManager srv);
       MediasoupManager.producers :=
         <[producerId := {| producer_id := producerId;
                            producer_transportId := transportId |}]>
           (MediasoupManager.producers (mediasoupManager srv));
       MediasoupManager.consumers :=
         MediasoupManager.consumers (mediasoupManager srv) |} srv.

Definition is_media_request (req : request) : bool :=
  match req with
  | GetRouterRtpCapabilities | CreateWebRtcTransport
  | ConnectWebRtcTransport _ | Produce _ | Consume _ _ => true
  | _ => false
  end.

(** The server after a sequence of requests, each received on a socket in
    a world. *)
Definition run_requests (events : list (World * string * request))
    (srv : Server) : Server :=
  foldl (λ srv '(w, socket_id, req), (socketHandler w socket_id req srv).2)
    srv events.

(** No client record carries a socket id. *)
Definition no_socket_bound (cm : ClientManager.t) : Prop :=
  Forall (λ entry, client_socketId entry.2 = None) (ClientManager.clients cm).

(** Every client record is stored under its own id. *)
Definition keyed_by_id (cm : ClientManager.t) : Prop :=
  Forall (λ entry, client_id entry.2 = entry.1) (ClientManager.clients cm).

(** The server as the modules of the socket handler construct it: a fresh
    channel registry, a fresh client registry (with the admin client when
    one is configured) and the Media Worker in some state [m]. *)
Definition server_at_startup (create_admin admin_name : env_var)
    (adminId sysId t0 : string) (m : MediasoupManager.t) : Server :=
  {| channelManager := ChannelManager.new sysId t0;
     clientManager := ClientManager.new create_admin admin_name adminId t0;
     mediasoupManager := m |}.

(** The server after [mediasoupManager.close()]. *)
Definition closed (srv : Server) : Server :=
  set_mediasoupManager (MediasoupManager_close (mediasoupManager srv)) srv.

(** The HTTP routes keep the two registries in step: a registered client
    lists a registered channel exactly when the channel lists the client. *)
Definition membership_consistent (st : Api) : Prop :=
  ∀ clientId client channelId channel,
    JsMap.get clientId (ClientManager.clients (api_clientManager st))
    = Some client →
    ChannelManager.channels (api_channelManager st) !! channelId
    = Some channel →
    (channelId ∈ client_channels client ↔
     clientId ∈ channel_clients channel).

(** No client lists a channel twice. *)
Definition channels_distinct (st : Api) : Prop :=
  ∀ clientId client,
    JsMap.get clientId (ClientManager.clients (api_clientManager st))
    = Some client →
    NoDup (client_channels client).

(** A volume as the mixer and the settings store it: within [[0, 1]], or
    NaN when NaN was submitted. *)
Definition stored_volume_ok (v : number) : Prop :=
  is_nan v = true ∨ (num_le pos_zero v = true ∧ num_le v num_one = true).

Definition mixer_volumes_ok (ms : MixerState) : Prop :=
  map_Forall (λ _ v, stored_volume_ok v) (mixer_channels ms) ∧
  map_Forall (λ _ v, stored_volume_ok v) (mixer_clients ms) ∧
  stored_volume_ok (masterVolume ms).

(** A channel with a name and without members or producers. *)
Definition named_and_unused (channel : Channel) : Prop :=
  channel_name channel ≠ "" ∧
  channel_clients channel = ∅ ∧
  channel_producers channel = ∅.

(** * Sample states *)

(** The client registry as the constructor leaves it when no admin client
    is configured. *)
Definition no_clients : ClientManager.t :=
  ClientManager.new None None "admin-id" "t0".

Definition bob_permissions : PermissionsInput :=
  {| in_isAdmin := None; in_speakToAll := None; in_listenToAll := None;
     in_speakTo := Some {[ "main" := true ]}; in_listenTo := None |}.

Definition carol_permissions : PermissionsInput :=
  {| in_isAdmin := None; in_speakToAll := None; in_listenToAll := Some true;
     in_speakTo := None; in_listenTo := None |}.

Definition no_permissions : PermissionsInput :=
  {| in_isAdmin := None; in_speakToAll := None; in_listenToAll := None;
     in_speakTo := None; in_listenTo := None |}.

(** Bob is enrolled and authorized into [main] with the right to speak
    there; he has no listen right. *)
Definition sample_clients : ClientManager.t :=
  (ClientManager.authorizeClient "bob-id" "t1" (Some ["main"]) bob_permissions
     (ClientManager.addPendingClient "bob-id" "t0" (Some "sock-bob") "bob"
        no_clients).2).2.

(** The record [authorizeClient] has built for bob. *)
Definition sample_bob : Client :=
  {| client_id := "bob-id";
     client_name := "bob";
     client_socketId := Some "sock-bob";
     client_isAdmin := false;
     client_authorized := true;
     client_channels := ["main"];
     client_permissions :=
       {| speakToAll := false; listenToAll := false;
          speakTo := Some {[ "main" := true ]};
          listenTo := Some ∅ |};
     client_channelSettings := {[ "main" := default_settings ]};
     client_createdAt := "t0";
     client_authorizedAt := Some "t1" |}.

(** Carol is then enrolled and authorized into [main] with the right to
    listen everywhere; she has no speak right. *)
Definition sample_two_clients : ClientManager.t :=
  (ClientManager.authorizeClient "carol-id" "t2" (Some ["main"])
     carol_permissions
     (ClientManager.addPendingClient "carol-id" "t0" (Some "sock-carol")
        "carol" sample_clients).2).2.

Definition sample_carol : Client :=
  {| client_id := "carol-id";
     client_name := "carol";
     client_socketId := Some "sock-carol";
     client_isAdmin := false;
     client_authorized := true;
     client_channels := ["main"];
     client_permissions :=
       {| speakToAll := false; listenToAll := true;
          speakTo := Some ∅; listenTo := Some ∅ |};
     client_channelSettings := {[ "main" := default_settings ]};
     client_createdAt := "t0";
     client_authorizedAt := Some "t2" |}.

Definition sample_patch : PermissionsInput :=
  {| in_isAdmin := None;
     in_speakToAll := None;
     in_listenToAll := Some true;
     in_speakTo := Some {[ "studio" := true ]};
     in_listenTo := None |}.

(** A patch that revokes the right to speak in [main]. *)
Definition revoke_speak_main : PermissionsInput :=
  {| in_isAdmin := None; in_speakToAll := None; in_listenToAll := None;
     in_speakTo := Some {[ "main" := false ]}; in_listenTo := None |}.

(** Dave is enrolled and waits for authorization. *)
Definition sample_pending : ClientManager.t :=
  (ClientManager.addPendingClient "dave-id" "t0" (Some "sock-dave") "dave"
     no_clients).2.

(** The registry after authorizing dave with the channel list
    [["main"; "main"]] and after then removing him from [main]. *)
Definition dave_authorized : ClientManager.t :=
  (ClientManager.authorizeClient "dave-id" "t1" (Some ["main"; "main"])
     no_permissions sample_pending).2.

Definition dave_removed : ClientManager.t :=
  (ClientManager.removeClientFromChannel "dave-id" "main" dave_authorized).2.

Definition rename_to_Main : ChannelUpdates :=
  {| updates_name := Some "Main"; updates_description := None |}.

(** The server once its managers are constructed and the Media Worker is
    initialized; nobody has connected yet. *)
Definition initial_server : Server :=
  {| channelManager := ChannelManager.new "sys" "t0";
     clientManager := no_clients;
     mediasoupManager :=
       (MediasoupManager.initialize (Return "caps") MediasoupManager.new).2 |}.

(** A world with the secret ["wire"] in which the mediasoup library accepts
    every call and names [id] the object it creates. *)
Definition world_creating (id : string) : World :=
  {| SERVER_PASSWORD := Some "wire";
     uuid := id;
     now := "t1";
     lib_created := Return id;
     lib_connected := Return tt;
     lib_canConsume := true;
     rooms_joined := Return tt |}.

(** A world in which no secret is configured. *)
Definition world_no_secret : World :=
  {| SERVER_PASSWORD := None;
     uuid := "u1";
     now := "t1";
     lib_created := Return "obj-1";
     lib_connected := Return tt;
     lib_canConsume := true;
     rooms_joined := Return tt |}.

(** Alice's socket, which never authenticates, creates a transport. *)
Definition alice_has_transport : Server :=
  run_requests
    [(world_creating "t-alice", "sock-alice", CreateWebRtcTransport)]
    initial_server.

(** Alice's socket then produces on it, and bob's socket, which never
    authenticates either, creates a transport of its own. *)
Definition bob_has_transport : Server :=
  run_requests
    [(world_creating "p-alice", "sock-alice", Produce "t-alice");
     (world_creating "t-bob", "sock-bob", CreateWebRtcTransport)]
    alice_has_transport.

(** Dave's socket presents the right secret and is enrolled as pending. *)
Definition dave_is_pending : Server :=
  run_requests
    [(world_creating "dave-id", "sock-dave",
      Authenticate "dave" (JString "wire"))]
    initial_server.

(** A server state in which bob and carol are registered members of
    [main], the router is up, each has a transport and alice's producer is
    registered in [main]. *)
Definition main_channel : Channel :=
  {| channel_id := "main";
     channel_name := "Main";
     channel_description := "";
     channel_clients := {[ "bob-id"; "carol-id"; "alice-id" ]};
     channel_producers := {[ "p-alice" ]};
     channel_createdAt := "t0" |}.

Definition sample_media : MediasoupManager.t :=
  {| MediasoupManager.router := Some "caps";
     MediasoupManager.transports :=
       {[ "t-bob" := {| transport_id := "t-bob" |};
          "t-carol" := {| transport_id := "t-carol" |} ]};
     MediasoupManager.producers :=
       {[ "p-alice" := {| producer_id := "p-alice";
                         producer_transportId := "t-alice" |} ]};
     MediasoupManager.consumers := ∅ |}.

Definition sample_server : Server :=
  {| channelManager :=
       {| ChannelManager.channels :=
            <[ "main" := main_channel ]>
              (ChannelManager.channels (ChannelManager.new "sys" "t0")) |};
     clientManager := sample_two_clients;
     mediasoupManager := sample_media |}.

Definition sample_world : World := world_creating "obj-1".

(** The state of the HTTP routes when bob is registered in [main] and the
    channel lists him. *)
Definition admin_user : option User :=
  Some {| user_clientId := "admin-id"; user_isAdmin := true |}.

Definition bob_user : User :=
  {| user_clientId := "bob-id"; user_isAdmin := false |}.

Definition bob_channel : Channel :=
  {| channel_id := "main";
     channel_name := "Main";
     channel_description := "";
     channel_clients := {[ "bob-id" ]};
     channel_producers := ∅;
     channel_createdAt := "t0" |}.

Definition sample_api : Api :=
  {| api_clientManager := sample_clients;
     api_channelManager :=
       {| ChannelManager.channels :=
            <[ "main" := bob_channel ]>
              (ChannelManager.channels (ChannelManager.new "sys" "t0")) |} |}.

(** The state of the HTTP routes when dave waits for authorization. *)
Definition pending_api : Api :=
  {| api_clientManager := sample_pending;
     api_channelManager := ChannelManager.new "sys" "t0" |}.

(** The client registry at startup with an admin client configured. *)
Definition admin_configured : ClientManager.t :=
  ClientManager.new (Some "true") (Some "root") "admin-id" "t0".

(** The module state of the mixer routes at startup. *)
Definition mixer_at_startup (chm : ChannelManager.t) (cm : ClientManager.t)
    : Mixer :=
  {| mixerState := mixer_default;
     mixer_channelManager := chm;
     mixer_clientManager := cm |}.

Definition sample_mixer : Mixer :=
  mixer_at_startup (ChannelManager.new "sys" "t0") no_clients.

(** The admin client of the constructor, once bound to a socket, added to
    [main] and with [speakToAll] switched off: its permissions have no
    [speakTo] dictionary. *)
Definition revoke_speakToAll : PermissionsInput :=
  {| in_isAdmin := None; in_speakToAll := Some false; in_listenToAll := None;
     in_speakTo := None; in_listenTo := None |}.

Definition root_revoked : ClientManager.t :=
  (ClientManager.updateClientPermissions "admin-id" revoke_speakToAll
     (ClientManager.addClientToChannel "admin-id" "main"
        (ClientManager.updateClientSocketId "admin-id" "sock-root"
           admin_configured).2).2).2.

Definition root_server : Server :=
  {| channelManager := channelManager sample_server;
     clientManager := root_revoked;
     mediasoupManager :=
       {| MediasoupManager.router := Some "caps";
          MediasoupManager.transports :=
            {[ "t-root" := {| transport_id := "t-root" |} ]};
          MediasoupManager.producers := ∅;
          MediasoupManager.consumers := ∅ |} |}.

(** * Properties *)

(** ** Insertion-ordered maps *)

Module JsMapFacts.
Section Facts.
Context {V : Type}.
Implicit Types (m : list (string * V)) (k : string) (v : V).

Lemma get_set_eq k v m : JsMap.get k (JsMap.set k v m) = Some v.
Proof.
  induction m as [|[k' v'] m IH]; simpl.
  - by rewrite decide_True.
  - destruct (decide (k' = k)) as [->|Hne]; simpl.
    + by rewrite decide_True.
    + by rewrite decide_False.
Qed.

Lemma get_set_ne k k' v m :
  k ≠ k' → JsMap.get k' (JsMap.set k v m) = JsMap.get k' m.
Proof.
  intros Hne. induction m as [|[k0 v0] m IH]; simpl.
  - by rewrite decide_False.
  - destruct (decide (k0 = k)) as [->|Hne0]; simpl.
    + by rewrite !decide_False.
    + destruct (decide (k0 = k')); [done | apply IH].
Qed.

Lemma get_set k k' v m :
  JsMap.get k' (JsMap.set k v m)
  = if decide (k = k') then Some v else JsMap.get k' m.
Proof.
  destruct (decide (k = k')) as [->|Hne];
    [apply get_set_eq | by apply get_set_ne].
Qed.

Lemma get_delete_ne k k' m :
  k ≠ k' → JsMap.get k' (JsMap.delete k m) = JsMap.get k' m.
Proof.
  intros Hne. induction m as [|[k0 v0] m IH]; simpl; [done|].
  destruct (decide (k0 = k)) as [->|Hne0]; simpl.
  - by rewrite decide_False.
  - destruct (decide (k0 = k')); [done | apply IH].
Qed.

Lemma get_None_not_in k m : JsMap.get k m = None ↔ k ∉ JsMap.keys m.
Proof.
  unfold JsMap.keys. induction m as [|[k0 v0] m IH]; simpl.
  - split; [intros _; apply not_elem_of_nil | done].
  - rewrite not_elem_of_cons. destruct (decide (k0 = k)) as [->|Hne].
    + split; [done | by intros [? _]].
    + rewrite IH. split; [by intros ? | by intros [_ ?]].
Qed.

Lemma get_delete_eq k m :
  NoDup (JsMap.keys m) → JsMap.get k (JsMap.delete k m) = None.
Proof.
  unfold JsMap.keys. induction m as [|[k0 v0] m IH]; simpl; [done|].
  intros [Hnin Hnd]%NoDup_cons.
  destruct (decide (k0 = k)) as [->|Hne]; simpl.
  - by apply get_None_not_in.
  - rewrite decide_False by done. by apply IH.
Qed.

Lemma keys_set_in k v m :
  is_Some (JsMap.get k m) → JsMap.keys (JsMap.set k v m) = JsMap.keys m.
Proof.
  unfold JsMap.keys. induction m as [|[k0 v0] m IH]; simpl.
  - by intros [? ?].
  - destruct (decide (k0 = k)) as [->|Hne]; simpl; [done|].
    intros H. f_equal. by apply IH.
Qed.

Lemma keys_set_fresh k v m :
  JsMap.get k m = None → JsMap.keys (JsMap.set k v m) = JsMap.keys m ++ [k].
Proof.
  unfold JsMap.keys. induction m as [|[k0 v0] m IH]; simpl; [done|].
  destruct (decide (k0 = k)) as [->|Hne]; simpl; [done|].
  intros H. f_equal. by apply IH.
Qed.
End Facts.
End JsMapFacts.

(** ** Numbers: the clamp of [setChannelVolume] *)



Lemma num_lt_le x y : num_lt x y = true → num_le x y = true.
Proof.
  unfold num_lt, num_le, SFltb, SFleb. by destruct (SFcompare x y) as [[]|].
Qed.

Lemma Math_min_one v :
  Math_min [num_one; v] =
    if is_nan v then S754_nan else if num_lt v num_one then v else num_one.
Proof.
  unfold Math_min. simpl. destruct (is_nan v); [done|].
  by rewrite andb_false_r.
Qed.

Lemma Math_max_zero x :
  Math_max [pos_zero; x] =
    if is_nan x then S754_nan else if num_lt pos_zero x then x else pos_zero.
Proof.
  unfold Math_max. simpl. destruct (is_nan x); [done|].
  by rewrite andb_false_r.
Qed.

Lemma normalized_eq v :
  normalized v =
    if is_nan v then S754_nan
    else if num_lt v num_one
         then if num_lt pos_zero v then v else pos_zero
         else num_one.
Proof.
  unfold normalized. rewrite Math_min_one, Math_max_zero.
  destruct (is_nan v) eqn:Hn; [done|].
  destruct (num_lt v num_one); [by rewrite Hn | done].
Qed.





Lemma normalized_range v :
  is_nan v = false →
  num_le pos_zero (normalized v) = true ∧ num_le (normalized v) num_one = true.
Proof.
  intros Hn. rewrite normalized_eq, Hn.
  destruct (num_lt v num_one) eqn:H1; [|split; reflexivity].
  destruct (num_lt pos_zero v) eqn:H0; [|split; reflexivity].
  split; by apply num_lt_le.
Qed.

(** A NaN volume is stored as NaN: the clamp does not repair it. *)
Lemma normalized_nan : normalized S754_nan = S754_nan.
Proof. reflexivity. Qed.

Example normalized_minus_half : normalized num_minus_half = pos_zero.
Proof. reflexivity. Qed.

Example normalized_three_halves : normalized num_three_halves = num_one.
Proof. reflexivity. Qed.

Example normalized_half : normalized num_half = num_half.
Proof. reflexivity. Qed.

Example normalized_neg_zero : normalized neg_zero = pos_zero.
Proof. reflexivity. Qed.

(** ** Client registry: per-channel settings *)






(** The literal values of the specification: -0.5 is stored as 0 and 1.5
    as 1. *)
Example setChannelVolume_minus_half :
  channel_volume "bob-id" "main"
    (ClientManager.setChannelVolume "bob-id" "main" num_minus_half
       sample_clients).2 = Some pos_zero.
Proof. reflexivity. Qed.

Example setChannelVolume_three_halves :
  channel_volume "bob-id" "main"
    (ClientManager.setChannelVolume "bob-id" "main" num_three_halves
       sample_clients).2 = Some num_one.
Proof. reflexivity. Qed.

(** ** Permission evaluator *)

Lemma includes_true x l : includes x l = true ↔ x ∈ l.
Proof. unfold includes. apply bool_decide_eq_true. Qed.

Lemma includes_false x l : includes x l = false ↔ x ∉ l.
Proof. unfold includes. apply bool_decide_eq_false. Qed.

Lemma prop_is_true_iff obj key :
  prop_is_true obj key = Return true ↔
  ∃ m, obj = Some m ∧ m !! key = Some true.
Proof.
  unfold prop_is_true. destruct obj as [m|].
  - split.
    + intros [= H]. apply bool_decide_eq_true in H. eauto.
    + intros (m' & [= <-] & H). f_equal. by apply bool_decide_eq_true.
  - split; [done | by intros (m' & ? & _)].
Qed.

Lemma canSpeak_known cm clientId channelId client :
  JsMap.get clientId (ClientManager.clients cm) = Some client →
  ClientManager.canSpeak clientId channelId cm = Return true ↔
  channelId ∈ client_channels client ∧
  speak_right (client_permissions client) channelId.
Proof.
  intros Hget. unfold ClientManager.canSpeak, speak_right. rewrite Hget.
  destruct (includes channelId (client_channels client)) eqn:Hin; simpl.
  - apply includes_true in Hin.
    destruct (speakToAll (client_permissions client)) eqn:Hall.
    + split; [intros _; split; [done | by left] | done].
    + rewrite prop_is_true_iff. split.
      * intros H. split; [done | by right].
      * intros [_ [? | H]]; done.
  - apply includes_false in Hin. split; [done | by intros [? _]].
Qed.

Lemma canListen_known cm clientId channelId client :
  JsMap.get clientId (ClientManager.clients cm) = Some client →
  ClientManager.canListen clientId channelId cm = Return true ↔
  channelId ∈ client_channels client ∧
  listen_right (client_permissions client) channelId.
Proof.
  intros Hget. unfold ClientManager.canListen, listen_right. rewrite Hget.
  destruct (includes channelId (client_channels client)) eqn:Hin; simpl.
  - apply includes_true in Hin.
    destruct (listenToAll (client_permissions client)) eqn:Hall.
    + split; [intros _; split; [done | by left] | done].
    + rewrite prop_is_true_iff. split.
      * intros H. split; [done | by right].
      * intros [_ [? | H]]; done.
  - apply includes_false in Hin. split; [done | by intros [? _]].
Qed.

(** With both permission dictionaries present, as in every client built by
    [authorizeClient], the evaluator never throws. *)
Lemma canSpeak_returns cm clientId channelId client m :
  JsMap.get clientId (ClientManager.clients cm) = Some client →
  speakTo (client_permissions client) = Some m →
  ∃ b, ClientManager.canSpeak clientId channelId cm = Return b.
Proof.
  intros Hget Hm. unfold ClientManager.canSpeak. rewrite Hget, Hm.
  destruct (negb _); [eauto|]. destruct (speakToAll _); simpl; eauto.
Qed.

Lemma canListen_returns cm clientId channelId client m :
  JsMap.get clientId (ClientManager.clients cm) = Some client →
  listenTo (client_permissions client) = Some m →
  ∃ b, ClientManager.canListen clientId channelId cm = Return b.
Proof.
  intros Hget Hm. unfold ClientManager.canListen. rewrite Hget, Hm.
  destruct (negb _); [eauto|]. destruct (listenToAll _); simpl; eauto.
Qed.

(** C3. For a registered client, [canSpeak] returns [true] exactly when the
    client is a member of the channel and [speakToAll] or [speakTo[C]] is
    [true], and [canListen] returns [true] exactly when the client is a
    member and [listenToAll] or [listenTo[C]] is [true]; for an unknown
    client id both return [false]. *)
Theorem canSpeak_canListen_spec cm clientId channelId :
  (∀ client,
     JsMap.get clientId (ClientManager.clients cm) = Some client →
     (ClientManager.canSpeak clientId channelId cm = Return true ↔
      channelId ∈ client_channels client ∧
      speak_right (client_permissions client) channelId) ∧
     (ClientManager.canListen clientId channelId cm = Return true ↔
      channelId ∈ client_channels client ∧
      listen_right (client_permissions client) channelId)) ∧
  (JsMap.get clientId (ClientManager.clients cm) = None →
     ClientManager.canSpeak clientId channelId cm = Return false ∧
     ClientManager.canListen clientId channelId cm = Return false).
Proof.
  split.
  - intros client Hget. split;
      [by apply canSpeak_known | by apply canListen_known].
  - intros Hnone. unfold ClientManager.canSpeak, ClientManager.canListen.
    by rewrite Hnone.
Qed.

Lemma canSpeak_canListen_spec_witness :
  (JsMap.get "bob-id" (ClientManager.clients sample_clients) = Some sample_bob ∧
   JsMap.get "nobody" (ClientManager.clients sample_clients) = None) ∧
  (ClientManager.canSpeak "bob-id" "main" sample_clients = Return true ↔
   "main" ∈ client_channels sample_bob ∧
   speak_right (client_permissions sample_bob) "main") ∧
  ClientManager.canListen "nobody" "main" sample_clients = Return false.
Proof.
  assert (H1 : JsMap.get "bob-id" (ClientManager.clients sample_clients)
               = Some sample_bob) by reflexivity.
  assert (H2 : JsMap.get "nobody" (ClientManager.clients sample_clients)
               = None) by reflexivity.
  split; [exact (conj H1 H2)|]. split.
  - exact (proj1 (proj1 (canSpeak_canListen_spec sample_clients "bob-id"
                           "main") sample_bob H1)).
  - exact (proj2 (proj2 (canSpeak_canListen_spec sample_clients "nobody"
                           "main") H2)).
Defined.

Example canSpeak_bob_main :
  ClientManager.canSpeak "bob-id" "main" sample_clients = Return true.
Proof. reflexivity. Qed.

Example canListen_bob_main :
  ClientManager.canListen "bob-id" "main" sample_clients = Return false.
Proof. reflexivity. Qed.

(** ** Permission updates *)

Lemma dict_get_spread old patch key :
  dict_get (Some (spread old patch)) key =
    match patch !! key with
    | Some b => Some b
    | None => dict_get old key
    end.
Proof.
  unfold dict_get, spread. rewrite lookup_union.
  destruct (patch !! key) as [b|] eqn:Hp; simpl.
  - by destruct (default ∅ old !! key).
  - destruct old as [m|]; simpl; [by destruct (m !! key)|].
    by rewrite lookup_empty.
Qed.

(** C10. For a registered client, [updateClientPermissions] succeeds and
    changes only the permission fields named in the patch: [speakToAll] and
    [listenToAll] take the patch's value only when it has one, the [speakTo]
    and [listenTo] dictionaries are merged key by key so that a key absent
    from the patch keeps its previous value, every other field of the client
    is unchanged, and so are the other clients and the pending queue. *)
Theorem updateClientPermissions_frame cm clientId patch client :
  JsMap.get clientId (ClientManager.clients cm) = Some client →
  (ClientManager.updateClientPermissions clientId patch cm).1 = true ∧
  ∃ client',
    JsMap.get clientId
      (ClientManager.clients
         (ClientManager.updateClientPermissions clientId patch cm).2)
    = Some client' ∧
    speakToAll (client_permissions client')
    = default (speakToAll (client_permissions client)) (in_speakToAll patch) ∧
    listenToAll (client_permissions client')
    = default (listenToAll (client_permissions client)) (in_listenToAll patch) ∧
    (in_speakTo patch = None →
       speakTo (client_permissions client')
       = speakTo (client_permissions client)) ∧
    (in_listenTo patch = None →
       listenTo (client_permissions client')
       = listenTo (client_permissions client)) ∧
    (∀ key,
       dict_get (speakTo (client_permissions client')) key
       = merged (speakTo (client_permissions client)) (in_speakTo patch) key) ∧
    (∀ key,
       dict_get (listenTo (client_permissions client')) key
       = merged (listenTo (client_permissions client)) (in_listenTo patch) key) ∧
    client' = with_permissions (client_permissions client') client ∧
    (∀ other, other ≠ clientId →
       JsMap.get other
         (ClientManager.clients
            (ClientManager.updateClientPermissions clientId patch cm).2)
       = JsMap.get other (ClientManager.clients cm)) ∧
    ClientManager.pendingClients
      (ClientManager.updateClientPermissions clientId patch cm).2
    = ClientManager.pendingClients cm.
Proof.
  intros Hget. unfold ClientManager.updateClientPermissions. rewrite Hget.
  simpl. split; [done|]. eexists. split; [apply JsMapFacts.get_set_eq|].
  destruct patch as [pa [sa|] [la|] [st|] [lt|]];
    destruct client as [? ? ? ? ? ? [osa ola ost olt] ? ? ?]; simpl;
    repeat split; try done;
    try (intros key; apply dict_get_spread);
    try (intros other Hne; by apply JsMapFacts.get_set_ne).
Qed.

(** The fields outside the permission matrix are those of the client before
    the update. *)
Lemma with_permissions_fields p client :
  client_channels (with_permissions p client) = client_channels client ∧
  client_channelSettings (with_permissions p client)
  = client_channelSettings client ∧
  client_name (with_permissions p client) = client_name client ∧
  client_isAdmin (with_permissions p client) = client_isAdmin client ∧
  client_id (with_permissions p client) = client_id client ∧
  client_socketId (with_permissions p client) = client_socketId client.
Proof. done. Qed.

Lemma updateClientPermissions_frame_witness :
  JsMap.get "bob-id" (ClientManager.clients sample_clients) = Some sample_bob ∧
  (ClientManager.updateClientPermissions "bob-id" sample_patch
     sample_clients).1 = true.
Proof.
  assert (H1 : JsMap.get "bob-id" (ClientManager.clients sample_clients)
               = Some sample_bob) by reflexivity.
  split; [exact H1|].
  exact (proj1 (updateClientPermissions_frame sample_clients "bob-id"
                  sample_patch sample_bob H1)).
Defined.

Example updateClientPermissions_sample :
  (λ p, (speakToAll p, listenToAll p,
         dict_get (speakTo p) "main", dict_get (speakTo p) "studio",
         dict_get (listenTo p) "main"))
  <$> (client_permissions
       <$> JsMap.get "bob-id"
             (ClientManager.clients
                (ClientManager.updateClientPermissions "bob-id" sample_patch
                   sample_clients).2))
  = Some (false, true, Some true, Some true, None).
Proof. reflexivity. Qed.

(** ** Channel membership of a client *)

Lemma indexOf_None x l : indexOf x l = None ↔ x ∉ l.
Proof.
  induction l as [|y l IH]; simpl.
  - split; [intros _; apply not_elem_of_nil | done].
  - rewrite not_elem_of_cons. destruct (decide (y = x)) as [->|Hne].
    + split; [done | by intros [? _]].
    + destruct (indexOf x l); simpl.
      * split; [done | intros [_ H]; by apply IH in H].
      * split; [intros _; split; [done | by apply IH] | done].
Qed.

Lemma indexOf_app_fresh x l : x ∉ l → indexOf x (l ++ [x]) = Some (length l).
Proof.
  induction l as [|y l IH]; simpl.
  - intros _. by rewrite decide_True.
  - intros [Hne Hnin]%not_elem_of_cons.
    rewrite decide_False by done. by rewrite IH.
Qed.

(** The index found by [indexOf] holds the element and nothing before it
    does. *)
Lemma indexOf_Some x l i :
  indexOf x l = Some i → l !! i = Some x ∧ x ∉ take i l.
Proof.
  revert i. induction l as [|y l IH]; simpl; [done|].
  intros i. destruct (decide (y = x)) as [->|Hne].
  - intros [= <-]. split; [done | apply not_elem_of_nil].
  - destruct (indexOf x l) as [j|]; simpl; [|done].
    intros [= <-]. destruct (IH j eq_refl) as [Hl Hnin]. simpl.
    split; [done|]. apply not_elem_of_cons. by split.
Qed.

(** Removing the element at a position of a duplicate-free list removes
    that element from the set of elements. *)
Lemma list_to_set_delete_NoDup (l : list string) i x :
  NoDup l → l !! i = Some x →
  list_to_set (delete i l) =@{gset string} list_to_set l ∖ {[x]}.
Proof.
  intros Hnd Hi. rewrite <- (take_drop_middle l i x Hi) in Hnd.
  apply NoDup_app in Hnd as (_ & Hdisj & Hnd2).
  apply NoDup_cons in Hnd2 as [Hx2 _].
  rewrite delete_take_drop.
  rewrite <- (take_drop_middle l i x Hi) at 3.
  rewrite !list_to_set_app_L, list_to_set_cons.
  assert (Hx1 : x ∉ take i l)
    by (intros Hx; by apply (Hdisj x Hx), list_elem_of_here).
  apply set_eq. intros y.
  rewrite elem_of_difference, !elem_of_union, elem_of_singleton.
  rewrite !elem_of_list_to_set. split.
  - intros [H|H]; (split; [tauto|]); intros ->; [by apply Hx1 | by apply Hx2].
  - intros [[H|[H|H]] Hne]; [by left | done | by right].
Qed.

Lemma elem_of_delete_NoDup (l : list string) i x y :
  NoDup l → l !! i = Some x → (y ∈ delete i l ↔ y ∈ l ∧ y ≠ x).
Proof.
  intros Hnd Hi.
  rewrite <- (elem_of_list_to_set (C := gset string) y (delete i l)).
  rewrite (list_to_set_delete_NoDup l i x Hnd Hi).
  rewrite elem_of_difference, elem_of_list_to_set, elem_of_singleton. tauto.
Qed.

(** C9, as stated, fails for a client that already is a member of the
    channel: [addClientToChannel] does nothing and [removeClientFromChannel]
    then removes the membership that was there before the pair of calls. *)
Lemma add_then_remove_member_counterexample :
  client_channels
    <$> JsMap.get "bob-id" (ClientManager.clients sample_clients)
  = Some ["main"] ∧
  client_channels
    <$> JsMap.get "bob-id"
          (ClientManager.clients
             (add_then_remove "bob-id" "main" sample_clients))
  = Some [].
Proof. split; reflexivity. Qed.

(** C9, amended. For a registered client that is not already a member of the
    channel, [addClientToChannel] followed by [removeClientFromChannel]
    leaves the client's channel list and permission matrix as they were; of
    the client's other fields only the settings entry of that channel can
    differ (it is absent afterwards).  For a client that already is a member,
    [addClientToChannel] answers [false] and does nothing, and
    [removeClientFromChannel] then removes the first occurrence of the
    channel from the channel list and the settings entry of the channel,
    the permission matrix staying as it was: the list is one entry shorter
    than before the pair of calls, and the client is no longer a member when
    the list held the channel once.  In both cases no other client and no
    pending entry is touched. *)
Theorem add_then_remove_restores cm clientId channelId client :
  JsMap.get clientId (ClientManager.clients cm) = Some client →
  (channelId ∉ client_channels client →
   ∃ client',
     JsMap.get clientId
       (ClientManager.clients (add_then_remove clientId channelId cm))
     = Some client' ∧
     client_channels client' = client_channels client ∧
     client_permissions client' = client_permissions client ∧
     client_channelSettings client'
     = delete channelId (client_channelSettings client) ∧
     client' = with_channelSettings (client_channelSettings client') client) ∧
  (channelId ∈ client_channels client →
   ClientManager.addClientToChannel clientId channelId cm = (false, cm) ∧
   ∃ client' i,
     JsMap.get clientId
       (ClientManager.clients (add_then_remove clientId channelId cm))
     = Some client' ∧
     client_channels client !! i = Some channelId ∧
     (channelId ∉ take i (client_channels client)) ∧
     client_channels client' = delete i (client_channels client) ∧
     S (length (client_channels client')) = length (client_channels client) ∧
     (NoDup (client_channels client) →
      channelId ∉ client_channels client') ∧
     client_permissions client' = client_permissions client ∧
     client_channelSettings client'
     = delete channelId (client_channelSettings client) ∧
     client'
     = with_channelSettings (client_channelSettings client')
         (with_channels (client_channels client') client)) ∧
  (∀ other, other ≠ clientId →
     JsMap.get other
       (ClientManager.clients (add_then_remove clientId channelId cm))
     = JsMap.get other (ClientManager.clients cm)) ∧
  ClientManager.pendingClients (add_then_remove clientId channelId cm)
  = ClientManager.pendingClients cm.
Proof.
  intros Hget. split; [|split].
  - intros Hnin.
    unfold add_then_remove, ClientManager.addClientToChannel.
    rewrite Hget. apply includes_false in Hnin as Hinc. rewrite Hinc. simpl.
    unfold ClientManager.removeClientFromChannel. simpl.
    rewrite JsMapFacts.get_set_eq.
    destruct client as [cid cname sock adm auth chans perms settings cat aat].
    simpl in *.
    destruct (settings !! channelId) as [s|] eqn:Hs; simpl;
      rewrite (indexOf_app_fresh _ _ Hnin); simpl;
      rewrite JsMapFacts.get_set_eq;
      (eexists; split; [reflexivity|]); simpl;
      rewrite (delete_middle chans [] channelId), app_nil_r.
    + repeat split; try done.
    + rewrite delete_insert_eq. rewrite (delete_id settings channelId Hs).
      repeat split; try done.
  - intros Hin.
    unfold add_then_remove, ClientManager.addClientToChannel.
    rewrite Hget. apply includes_true in Hin as Hinc. rewrite Hinc. simpl.
    split; [done|].
    unfold ClientManager.removeClientFromChannel. rewrite Hget.
    destruct (indexOf channelId (client_channels client)) as [i|] eqn:Hi;
      [|by apply indexOf_None in Hi].
    destruct (indexOf_Some _ _ _ Hi) as [Hl Hbefore].
    simpl. rewrite JsMapFacts.get_set_eq.
    eexists. exists i. split; [reflexivity|]. simpl.
    split; [exact Hl|]. split; [exact Hbefore|]. split; [done|].
    split.
    { rewrite length_delete by eauto.
      apply lookup_lt_Some in Hl. lia. }
    split; [|done].
    intros Hnd Hmem.
    by apply (elem_of_delete_NoDup _ i channelId channelId Hnd Hl) in Hmem
      as [_ ?].
  - unfold add_then_remove, ClientManager.addClientToChannel,
      ClientManager.removeClientFromChannel.
    rewrite Hget.
    destruct (negb (includes channelId (client_channels client))); simpl.
    + rewrite JsMapFacts.get_set_eq.
      match goal with
      | |- context [indexOf channelId ?l] =>
          destruct (indexOf channelId l)
      end; simpl; (split; [|done]); intros other Hne;
        by rewrite ?JsMapFacts.get_set_ne.
    + rewrite Hget.
      destruct (indexOf channelId (client_channels client)); simpl;
        (split; [|done]); intros other Hne;
        by rewrite ?JsMapFacts.get_set_ne.
Qed.

Lemma add_then_remove_restores_witness :
  (JsMap.get "carol-id" (ClientManager.clients sample_two_clients)
   = Some sample_carol ∧
   "studio" ∉ client_channels sample_carol) ∧
  ∃ client',
    JsMap.get "carol-id"
      (ClientManager.clients
         (add_then_remove "carol-id" "studio" sample_two_clients))
    = Some client' ∧
    client_channels client' = ["main"].
Proof.
  assert (H1 : JsMap.get "carol-id" (ClientManager.clients sample_two_clients)
               = Some sample_carol) by reflexivity.
  assert (H2 : "studio" ∉ client_channels sample_carol).
  { simpl. intros H. apply list_elem_of_singleton in H. discriminate H. }
  split; [exact (conj H1 H2)|].
  destruct (proj1 (add_then_remove_restores sample_two_clients "carol-id"
                     "studio" sample_carol H1) H2)
    as (client' & Hget & Hch & _).
  exists client'. split; [exact Hget | exact Hch].
Defined.

(** A member that lists the channel twice is still a member after the pair
    of calls: dave, authorized with [["main"; "main"]], keeps one [main]. *)
Example add_then_remove_member_listed_twice :
  client_channels
    <$> JsMap.get "dave-id" (ClientManager.clients dave_authorized)
  = Some ["main"; "main"] ∧
  client_channels
    <$> JsMap.get "dave-id"
          (ClientManager.clients
             (add_then_remove "dave-id" "main" dave_authorized))
  = Some ["main"].
Proof. split; reflexivity. Qed.

(** ** The settings-domain invariant *)

Lemma seed_settings_fold (l : list string) (m0 : gmap string ChannelSettings) :
  dom (foldl (λ m channelId, <[channelId := default_settings]> m) m0 l)
  =@{gset string} dom m0 ∪ list_to_set l.
Proof.
  revert m0. induction l as [|c l IH]; intros m0; simpl.
  - by rewrite union_empty_r_L.
  - rewrite IH, dom_insert_L. apply set_eq. intros x.
    rewrite !elem_of_union. tauto.
Qed.

Lemma seed_settings_dom (l : list string) :
  dom (ClientManager.seed_settings l) =@{gset string} list_to_set l.
Proof.
  unfold ClientManager.seed_settings. rewrite seed_settings_fold.
  rewrite dom_empty_L. by rewrite union_empty_l_L.
Qed.

Lemma seed_settings_fold_lookup (l : list string)
    (m0 : gmap string ChannelSettings) channelId :
  channelId ∈ l →
  foldl (λ m c, <[c := default_settings]> m) m0 l !! channelId
  = Some default_settings.
Proof.
  revert m0. induction l as [|c l IH]; intros m0 Hin; simpl.
  - by apply elem_of_nil in Hin.
  - destruct (decide (channelId ∈ l)) as [Hl|Hl]; [by apply IH|].
    apply elem_of_cons in Hin as [->|Hin]; [|done].
    clear IH. revert m0. induction l as [|c' l IH]; intros m0; simpl.
    + apply lookup_insert_eq.
    + apply not_elem_of_cons in Hl as [Hne Hl].
      rewrite insert_insert_ne by done. by apply IH.
Qed.

(** [authorizeClient] gives the new client a settings entry, muted = false
    and volume = 1, for exactly the channels it is assigned. *)
Lemma authorizeClient_seeds cm clientId now channels permissions pending :
  ClientManager.pendingClients cm !! clientId = Some pending →
  ∃ client,
    JsMap.get clientId
      (ClientManager.clients
         (ClientManager.authorizeClient clientId now channels permissions
            cm).2) = Some client ∧
    client_channels client = default [] channels ∧
    settings_domain_ok client ∧
    (∀ channelId, channelId ∈ client_channels client →
       client_channelSettings client !! channelId = Some default_settings).
Proof.
  intros Hp. unfold ClientManager.authorizeClient. rewrite Hp. simpl.
  rewrite JsMapFacts.get_set_eq. eexists. split; [reflexivity|]. simpl.
  split; [done|]. split.
  - unfold settings_domain_ok. simpl. apply seed_settings_dom.
  - intros channelId Hin. by apply seed_settings_fold_lookup.
Qed.

Lemma addClientToChannel_preserves_domain cm clientId channelId client :
  JsMap.get clientId (ClientManager.clients cm) = Some client →
  settings_domain_ok client →
  ∃ client',
    JsMap.get clientId
      (ClientManager.clients
         (ClientManager.addClientToChannel clientId channelId cm).2)
    = Some client' ∧
    settings_domain_ok client' ∧
    channelId ∈ client_channels client' ∧
    (NoDup (client_channels client) → NoDup (client_channels client')).
Proof.
  intros Hget Hdom. unfold ClientManager.addClientToChannel. rewrite Hget.
  destruct (includes channelId (client_channels client)) eqn:Hinc; simpl.
  - apply includes_true in Hinc. exists client. by rewrite Hget.
  - apply includes_false in Hinc. rewrite JsMapFacts.get_set_eq.
    eexists. split; [reflexivity|].
    unfold settings_domain_ok in *.
    destruct (client_channelSettings client !! channelId) eqn:Hs; simpl.
    + exfalso. apply Hinc. apply (elem_of_list_to_set (C:=gset string)).
      rewrite <- Hdom. apply elem_of_dom. by rewrite Hs.
    + rewrite dom_insert_L, Hdom, list_to_set_app_L. simpl.
      split.
      { apply set_eq. intros x.
        rewrite !elem_of_union, elem_of_empty. tauto. }
      split; [apply elem_of_app; right; apply list_elem_of_here|].
      intros Hnd. apply NoDup_app. split; [done|].
      split; [|apply NoDup_singleton].
      intros x Hx Hx'. apply list_elem_of_singleton in Hx' as ->. done.
Qed.

Lemma removeClientFromChannel_preserves_domain cm clientId channelId client :
  JsMap.get clientId (ClientManager.clients cm) = Some client →
  settings_domain_ok client →
  NoDup (client_channels client) →
  ∃ client',
    JsMap.get clientId
      (ClientManager.clients
         (ClientManager.removeClientFromChannel clientId channelId cm).2)
    = Some client' ∧
    settings_domain_ok client' ∧
    (channelId ∉ client_channels client') ∧
    NoDup (client_channels client').
Proof.
  intros Hget Hdom Hnd. unfold ClientManager.removeClientFromChannel.
  rewrite Hget.
  destruct (indexOf channelId (client_channels client)) as [i|] eqn:Hi; simpl.
  - rewrite JsMapFacts.get_set_eq. eexists. split; [reflexivity|].
    destruct (indexOf_Some _ _ _ Hi) as [Hl _].
    unfold settings_domain_ok in *. simpl.
    pose proof (list_to_set_delete_NoDup _ _ _ Hnd Hl) as Hset.
    rewrite dom_delete_L, Hdom, Hset. split; [done|]. split.
    + intros Hin. apply (elem_of_list_to_set (C:=gset string)) in Hin.
      rewrite Hset in Hin. apply elem_of_difference in Hin as [_ Hn].
      apply Hn. by apply elem_of_singleton.
    + rewrite delete_take_drop.
      rewrite <- (take_drop_middle _ i channelId Hl) in Hnd.
      apply NoDup_app in Hnd as (Hnd1 & Hdisj & Hnd2).
      apply NoDup_cons in Hnd2 as [_ Hnd2].
      apply NoDup_app. split; [done|]. split; [|done].
      intros x Hx Hx'. apply (Hdisj x Hx). by apply list_elem_of_further.
  - apply indexOf_None in Hi. exists client. by rewrite Hget.
Qed.

(** C8. [authorizeClient] stores a channel list with a repeated id as it is;
    [removeClientFromChannel] then drops one occurrence and the settings
    entry: the client is still a member of [main] and has no settings for
    it, so the domain of the settings no longer is the membership set. *)
Theorem removeClientFromChannel_breaks_domain :
  ∃ before after,
    JsMap.get "dave-id" (ClientManager.clients dave_authorized) = Some before ∧
    settings_domain_ok before ∧
    JsMap.get "dave-id" (ClientManager.clients dave_removed) = Some after ∧
    client_channels after = ["main"] ∧
    client_channelSettings after = ∅ ∧
    ¬ settings_domain_ok after.
Proof.
  eexists _, _. split; [reflexivity|]. split.
  { unfold settings_domain_ok. simpl. apply seed_settings_dom. }
  split; [reflexivity|]. split; [reflexivity|]. split.
  { simpl. apply map_eq. intros k.
    rewrite lookup_delete, lookup_empty. case_decide; [done|].
    unfold ClientManager.seed_settings. simpl.
    by rewrite !lookup_insert_ne, lookup_empty. }
  unfold settings_domain_ok. simpl. rewrite dom_delete_L. intros Hdom.
  assert (Hin : "main" ∈ ({[ "main" ]} ∪ ∅ : gset string)).
  { apply elem_of_union_l. by apply elem_of_singleton. }
  rewrite <- Hdom in Hin. apply elem_of_difference in Hin as [_ Hin].
  apply Hin. by apply elem_of_singleton.
Qed.

(** ** Authentication with the shared secret *)

Lemma reject_without_secret (serverPassword : jsval) :
  negb (truthy serverPassword) || strict_neq_env serverPassword None = true.
Proof.
  destruct serverPassword as [| |b|x|s]; simpl;
    try reflexivity; apply orb_true_r.
Qed.

(** C5. With [SERVER_PASSWORD] unset, the [authenticate] request fails with
    an error, leaving the server state as it was, whatever password value is
    supplied, and [authenticateClient] answers [false]. *)
Theorem authenticate_fails_closed w socket_id clientName serverPassword srv :
  SERVER_PASSWORD w = None →
  socketHandler w socket_id (Authenticate clientName serverPassword) srv
  = (Failure "Invalid server password", srv) ∧
  authenticateClient (SERVER_PASSWORD w) serverPassword = false.
Proof.
  intros Henv. simpl. unfold on_authenticate, authenticateClient.
  rewrite Henv. by rewrite reject_without_secret.
Qed.

Lemma authenticate_fails_closed_witness :
  SERVER_PASSWORD world_no_secret = None ∧
  socketHandler world_no_secret "sock-1"
    (Authenticate "bob" (JString "wire")) initial_server
  = (Failure "Invalid server password", initial_server).
Proof.
  split; [reflexivity|].
  exact (proj1 (authenticate_fails_closed world_no_secret "sock-1" "bob"
                  (JString "wire") initial_server eq_refl)).
Defined.

(** With a secret configured, the handler accepts exactly that string. *)
Lemma authenticate_accepts w socket_id clientName serverPassword srv secret :
  SERVER_PASSWORD w = Some secret →
  (∃ p srv',
     socketHandler w socket_id (Authenticate clientName serverPassword) srv
     = (Success p, srv')) ↔
  serverPassword = JString secret ∧ secret ≠ "".
Proof.
  intros Henv. simpl. unfold on_authenticate. rewrite Henv.
  destruct serverPassword as [| |b|x|s]; simpl;
    try (split; [by intros (? & ? & ?) | by intros [? _]]).
  - destruct b; simpl; (split; [by intros (? & ? & ?) | by intros [? _]]).
  - destruct (negb _); simpl; (split; [by intros (? & ? & ?) | by intros [? _]]).
  - destruct (String.eqb_spec s "") as [->|Hs]; simpl.
    + split; [by intros (? & ? & ?)|]. intros [[= <-] Hne]. done.
    + destruct (String.eqb_spec s secret) as [->|Hne]; simpl.
      * split; [done | eauto].
      * split; [by intros (? & ? & ?)|]. intros [[= ->] _]. done.
Qed.

(** ** The protected channel *)

(** [deleteChannel] refuses a channel named ['System'] and leaves the
    registry as it is. *)
Lemma deleteChannel_System cm channelId :
  ChannelManager.is_named_System channelId cm = true →
  ChannelManager.deleteChannel channelId cm = (false, cm).
Proof. intros H. unfold ChannelManager.deleteChannel. by rewrite H. Qed.

(** The registry starts with the System channel and nothing else. *)
Lemma new_has_System channelId now :
  ChannelManager.is_named_System channelId (ChannelManager.new channelId now)
  = true ∧
  size (ChannelManager.channels (ChannelManager.new channelId now)) = 1.
Proof.
  unfold ChannelManager.new, ChannelManager.is_named_System. simpl. split.
  - by rewrite lookup_insert_eq.
  - by rewrite insert_empty, map_size_singleton.
Qed.

Lemma apply_keeps_System cm o sysId :
  ChannelManager.is_named_System sysId cm = true →
  keeps_System cm o →
  ChannelManager.is_named_System sysId (ChannelManager.apply cm o) = true.
Proof.
  intros Hsys Hok. unfold ChannelManager.is_named_System in Hsys |- *.
  destruct (ChannelManager.channels cm !! sysId) as [sys|] eqn:Hlk; [|done].
  destruct o as [channelId now name description|channelId updates|channelId];
    simpl in *.
  - rewrite lookup_insert_ne; [by rewrite Hlk|].
    intros ->. by rewrite Hok in Hlk.
  - unfold ChannelManager.updateChannel.
    destruct (ChannelManager.channels cm !! channelId) as [ch|] eqn:Hch; simpl.
    + destruct (decide (channelId = sysId)) as [->|Hne].
      * rewrite lookup_insert_eq. rewrite Hlk in Hch. injection Hch as <-.
        rewrite Hok
          by (unfold ChannelManager.is_named_System; by rewrite Hlk).
        by destruct (truthy_string (updates_description updates)).
      * rewrite lookup_insert_ne by done. by rewrite Hlk.
    + by rewrite Hlk.
  - unfold ChannelManager.deleteChannel, ChannelManager.is_named_System.
    destruct (ChannelManager.channels cm !! channelId) as [ch|] eqn:Hch.
    + destruct (String.eqb (channel_name ch) "System") eqn:Hname; simpl.
      * by rewrite Hlk.
      * rewrite lookup_delete_ne; [by rewrite Hlk|].
        intros ->. rewrite Hlk in Hch. injection Hch as <-.
        by rewrite Hsys in Hname.
    + simpl. by rewrite Hlk.
Qed.

(** As long as no update renames a channel named ['System'] (and created
    ids are fresh), the System channel is still there after any sequence of
    operations, so the registry is not empty. *)
Lemma run_keeps_System ops cm sysId :
  ChannelManager.is_named_System sysId cm = true →
  all_keep_System cm ops →
  ChannelManager.is_named_System sysId (ChannelManager.run ops cm) = true ∧
  (1 ≤ size (ChannelManager.channels (ChannelManager.run ops cm)))%nat.
Proof.
  unfold ChannelManager.run. revert cm.
  induction ops as [|o ops IH]; intros cm Hsys Hok; simpl.
  - split; [done|].
    unfold ChannelManager.is_named_System in Hsys.
    destruct (ChannelManager.channels cm !! sysId) as [sys|] eqn:Hlk; [|done].
    destruct (decide (size (ChannelManager.channels cm) = 0)) as [Hz|Hz];
      [|lia].
    apply map_size_empty_inv in Hz. rewrite Hz in Hlk.
    by rewrite lookup_empty in Hlk.
  - destruct Hok as [Ho Hrest]. apply IH; [|done].
    by apply apply_keeps_System.
Qed.

(** C6. On the initial registry, deleting the System channel is refused and
    changes nothing; after [updateChannel] has renamed that channel, which
    nothing prevents, [deleteChannel] removes it and the registry is empty. *)
Theorem renamed_System_channel_is_deleted :
  ChannelManager.deleteChannel "sys" (ChannelManager.new "sys" "t0")
  = (false, ChannelManager.new "sys" "t0") ∧
  ChannelManager.channels
    (ChannelManager.run
       [ChannelManager.Update "sys" rename_to_Main; ChannelManager.Delete "sys"]
       (ChannelManager.new "sys" "t0")) = ∅ ∧
  size (ChannelManager.channels
          (ChannelManager.run
             [ChannelManager.Update "sys" rename_to_Main;
              ChannelManager.Delete "sys"]
             (ChannelManager.new "sys" "t0"))) = 0.
Proof.
  split; [|split].
  - apply deleteChannel_System. apply new_has_System.
  - vm_compute. reflexivity.
  - vm_compute. reflexivity.
Qed.

(** ** The [consume] request *)

Lemma set_mediasoupManager_same srv :
  set_mediasoupManager (mediasoupManager srv) srv = srv.
Proof. by destruct srv. Qed.

Lemma canListen_unregistered cm clientId channelId :
  ClientManager.clients cm = [] →
  ClientManager.canListen clientId channelId cm = Return false.
Proof. intros H. unfold ClientManager.canListen. by rewrite H. Qed.

Lemma canSpeak_unregistered cm clientId channelId :
  ClientManager.clients cm = [] →
  ClientManager.canSpeak clientId channelId cm = Return false.
Proof. intros H. unfold ClientManager.canSpeak. by rewrite H. Qed.

(** C1, as stated, fails.  From the initial server, alice's socket creates
    a transport and produces on it, and bob's socket creates a transport;
    nobody is registered, so the evaluator grants no listen right to
    anybody in any channel, and the producer is registered in no channel.
    Bob's [consume] request for alice's producer nevertheless succeeds and
    leaves a consumer of it on his transport. *)
Lemma consume_without_listen_counterexample :
  (∀ clientId channelId,
     ClientManager.canListen clientId channelId
       (clientManager bob_has_transport) = Return false) ∧
  (∀ channelId,
     ChannelManager.getChannelProducers channelId
       (channelManager bob_has_transport) = ∅) ∧
  (socketHandler (world_creating "k-bob") "sock-bob"
     (Consume "t-bob" "p-alice") bob_has_transport).1
  = Success (PConsumer "p-alice" "k-bob") ∧
  MediasoupManager.consumers
    (mediasoupManager
       (socketHandler (world_creating "k-bob") "sock-bob"
          (Consume "t-bob" "p-alice") bob_has_transport).2) !! "k-bob"
  = Some {| consumer_id := "k-bob"; consumer_producerId := "p-alice";
            consumer_transportId := "t-bob" |}.
Proof.
  split; [intros; by apply canListen_unregistered|]. split.
  - intros channelId. unfold ChannelManager.getChannelProducers.
    change (ChannelManager.channels (channelManager bob_has_transport))
      with (ChannelManager.channels (ChannelManager.new "sys" "t0")).
    unfold ChannelManager.new. simpl.
    destruct (decide (channelId = "sys")) as [->|Hne].
    + by rewrite lookup_insert_eq.
    + by rewrite lookup_insert_ne, lookup_empty.
  - split; reflexivity.
Qed.

(** The same happens to a registered client: bob, a member of [main]
    without any listen right, obtains a consumer of the producer registered
    in [main]. *)
Lemma canListen_bob channelId :
  ClientManager.canListen "bob-id" channelId sample_two_clients
  ≠ Return true.
Proof.
  intros H.
  apply (canListen_known sample_two_clients "bob-id" channelId sample_bob
           eq_refl) in H as [_ [Hall | (m & [= <-] & Hm)]].
  - discriminate Hall.
  - by rewrite lookup_empty in Hm.
Qed.

Example consume_by_member_without_listen :
  (cinfo_id
     <$> ClientManager.getClientBySocketId "sock-bob"
           (clientManager sample_server)) = Some "bob-id" ∧
  (socketHandler sample_world "sock-bob" (Consume "t-bob" "p-alice")
     sample_server).1 = Success (PConsumer "p-alice" "obj-1").
Proof. split; reflexivity. Qed.

(** C1, amended. A [consume] request is decided by the Media Worker alone:
    when the transport and the producer are known, the router can consume
    the producer with the supplied capabilities and the transport accepts,
    the request succeeds and stores a consumer of that producer on that
    transport; otherwise it fails and changes nothing.  The permission
    evaluator is not consulted: the answer is the same for every requesting
    socket and for every content of the client and channel registries, which
    the request leaves as they are. *)
Theorem consume_decided_by_media_worker w socket_id transportId producerId srv :
  let r := socketHandler w socket_id (Consume transportId producerId) srv in
  channelManager r.2 = channelManager srv ∧
  clientManager r.2 = clientManager srv ∧
  (consumable w transportId producerId (mediasoupManager srv) →
   ∃ consumerId,
     lib_created w = Return consumerId ∧
     r.1 = Success (PConsumer producerId consumerId) ∧
     MediasoupManager.consumers (mediasoupManager r.2)
     = <[consumerId := {| consumer_id := consumerId;
                          consumer_producerId := producerId;
                          consumer_transportId := transportId |}]>
         (MediasoupManager.consumers (mediasoupManager srv))) ∧
  (¬ consumable w transportId producerId (mediasoupManager srv) →
   ∃ e, r = (Failure e, srv)) ∧
  (∀ socket_id' chm cm,
     (socketHandler w socket_id' (Consume transportId producerId)
        {| channelManager := chm; clientManager := cm;
           mediasoupManager := mediasoupManager srv |}).1 = r.1).
Proof.
  simpl. unfold on_consume, MediasoupManager.consume, consumable.
  destruct srv as [chm cm m]. simpl.
  destruct (MediasoupManager.transports m !! transportId) as [t|] eqn:Ht;
    [|repeat split; try done;
      [by intros ([? ?] & _) | intros _; eauto]].
  destruct (MediasoupManager.producers m !! producerId) as [p|] eqn:Hp;
    [|repeat split; try done;
      [by intros (_ & [? ?] & _) | intros _; eauto]].
  destruct (MediasoupManager.router m) as [caps|] eqn:Hr;
    [|repeat split; try done;
      [by intros (_ & _ & [? ?] & _) | intros _; destruct m; simpl in *;
        subst; eauto]].
  destruct (lib_canConsume w) eqn:Hc; simpl;
    [|repeat split; try done;
      [by intros (_ & _ & _ & ? & _) | intros _; destruct m; simpl in *;
        subst; eauto]].
  destruct (lib_created w) as [kid|e] eqn:Hk; simpl.
  - repeat split; try done.
    + intros _. exists kid. by repeat split.
    + intros Hn. exfalso. apply Hn. repeat split; eauto.
  - repeat split; try done.
    + by intros (_ & _ & _ & _ & ? & ?).
    + intros _. destruct m; simpl in *; subst; eauto.
Qed.

Lemma sample_consumable :
  consumable sample_world "t-bob" "p-alice" (mediasoupManager sample_server).
Proof.
  split; [exact (ex_intro _ _ eq_refl)|].
  split; [exact (ex_intro _ _ eq_refl)|].
  split; [exact (ex_intro _ _ eq_refl)|].
  split; [reflexivity | exact (ex_intro _ _ eq_refl)].
Defined.

Lemma consume_decided_by_media_worker_witness :
  consumable sample_world "t-bob" "p-alice" (mediasoupManager sample_server) ∧
  ∃ consumerId,
    lib_created sample_world = Return consumerId ∧
    (socketHandler sample_world "sock-bob" (Consume "t-bob" "p-alice")
       sample_server).1 = Success (PConsumer "p-alice" consumerId).
Proof.
  split; [exact sample_consumable|].
  destruct (consume_decided_by_media_worker sample_world "sock-bob" "t-bob"
              "p-alice" sample_server) as (_ & _ & Hok & _).
  destruct (Hok sample_consumable) as (consumerId & Hk & Hr & _).
  exists consumerId. split; [exact Hk | exact Hr].
Defined.

(** ** The [produce] request *)

Lemma addProducerToChannel_producers channelId producerId chm C x :
  x ∈ ChannelManager.getChannelProducers C
        (ChannelManager.addProducerToChannel channelId producerId chm).2 ↔
  x ∈ ChannelManager.getChannelProducers C chm ∨
  (x = producerId ∧ C = channelId ∧
   is_Some (ChannelManager.channels chm !! channelId)).
Proof.
  unfold ChannelManager.addProducerToChannel,
    ChannelManager.getChannelProducers.
  destruct (ChannelManager.channels chm !! channelId) as [ch|] eqn:Hch; simpl.
  - destruct (decide (C = channelId)) as [->|Hne].
    + rewrite lookup_insert_eq, Hch. simpl.
      rewrite elem_of_union, elem_of_singleton. split.
      * intros [->|Hx]; [right; eauto | by left].
      * intros [Hx|(-> & _ & _)]; [by right | by left].
    + rewrite lookup_insert_ne by done. split; [by left|].
      by intros [Hx|(_ & ? & _)].
  - split; [by left|]. intros [Hx|(_ & _ & [? ?])]; done.
Qed.

Lemma addProducerToChannel_registered channelId producerId chm C :
  is_Some (ChannelManager.channels
             (ChannelManager.addProducerToChannel channelId producerId chm).2
           !! C) ↔
  is_Some (ChannelManager.channels chm !! C).
Proof.
  unfold ChannelManager.addProducerToChannel.
  destruct (ChannelManager.channels chm !! channelId) as [ch|] eqn:Hch;
    simpl; [|done].
  destruct (decide (C = channelId)) as [->|Hne].
  - rewrite lookup_insert_eq, Hch. split; eauto.
  - by rewrite lookup_insert_ne.
Qed.

(** When [canSpeak] throws for a client in some channel, the client has
    neither [speakToAll] nor a [speakTo] dictionary: it answers [true] in no
    channel. *)
Lemma canSpeak_throw_never_true cm clientId channelId e :
  ClientManager.canSpeak clientId channelId cm = Throw e →
  ∀ C, ClientManager.canSpeak clientId C cm ≠ Return true.
Proof.
  unfold ClientManager.canSpeak.
  destruct (JsMap.get clientId (ClientManager.clients cm)) as [client|];
    [|done].
  destruct (negb (includes channelId (client_channels client))); [done|].
  destruct (speakToAll (client_permissions client)); [done|].
  unfold prop_is_true.
  destruct (speakTo (client_permissions client)); [done|].
  intros _ C. by destruct (negb (includes C (client_channels client))).
Qed.

(** The registration loop adds the producer to the registered channels of
    the list in which [canSpeak] answers [true], and to no other, whether
    it runs to its end or is stopped by an exception of the evaluator; it
    is stopped exactly when [canSpeak] throws for a channel of the list. *)
Lemma register_producer_spec clientId producerId channels srv :
  clientManager (register_producer clientId producerId channels srv).2
  = clientManager srv ∧
  mediasoupManager (register_producer clientId producerId channels srv).2
  = mediasoupManager srv ∧
  (∀ C,
     is_Some (ChannelManager.channels
                (channelManager
                   (register_producer clientId producerId channels srv).2)
              !! C) ↔
     is_Some (ChannelManager.channels (channelManager srv) !! C)) ∧
  (∀ C x,
     x ∈ ChannelManager.getChannelProducers C
           (channelManager
              (register_producer clientId producerId channels srv).2) ↔
     x ∈ ChannelManager.getChannelProducers C (channelManager srv) ∨
     (x = producerId ∧
      is_Some (ChannelManager.channels (channelManager srv) !! C) ∧
      C ∈ channels ∧
      ClientManager.canSpeak clientId C (clientManager srv) = Return true)) ∧
  (((register_producer clientId producerId channels srv).1 = Return tt ∧
    ∀ C, C ∈ channels →
         ∃ b, ClientManager.canSpeak clientId C (clientManager srv)
              = Return b) ∨
   (∃ e C,
      (register_producer clientId producerId channels srv).1 = Throw e ∧
      C ∈ channels ∧
      ClientManager.canSpeak clientId C (clientManager srv) = Throw e)).
Proof.
  revert srv. induction channels as [|c rest IH]; intros srv;
    cbn [register_producer].
  - split; [done|]. split; [done|]. split; [done|]. split.
    + intros C x. split; [by left|].
      intros [?|(_ & _ & Hin & _)]; [done | by apply elem_of_nil in Hin].
    + left. split; [done|]. by intros C ?%elem_of_nil.
  - destruct (ClientManager.canSpeak clientId c (clientManager srv))
      as [[|]|e] eqn:Hb.
    + destruct (IH (set_channelManager
                      (ChannelManager.addProducerToChannel c producerId
                         (channelManager srv)).2 srv))
        as (Hcm & Hm & Hreg & Hprod & Hres).
      cbn [clientManager mediasoupManager channelManager set_channelManager]
        in Hcm, Hm, Hreg, Hprod, Hres.
      split; [exact Hcm|]. split; [exact Hm|]. split; [|split].
      * intros C. rewrite Hreg. apply addProducerToChannel_registered.
      * intros C x. rewrite Hprod, addProducerToChannel_producers.
        rewrite addProducerToChannel_registered, elem_of_cons.
        split.
        -- intros [[Hx|(-> & -> & Hc)]|(-> & Hc & Hin & Hs)].
           ++ by left.
           ++ right. eauto.
           ++ right. eauto.
        -- intros [Hx|(-> & Hc & [->|Hin] & Hs)].
           ++ by left; left.
           ++ left; right. eauto.
           ++ right. eauto.
      * destruct Hres as [[Hr Hall]|(e & C & Hr & Hin & Ht)].
        -- left. split; [exact Hr|].
           intros C [->|Hin]%elem_of_cons; [eauto | by apply Hall].
        -- right. exists e, C. split; [exact Hr|].
           split; [by apply elem_of_cons; right | exact Ht].
    + destruct (IH srv) as (Hcm & Hm & Hreg & Hprod & Hres).
      split; [exact Hcm|]. split; [exact Hm|]. split; [exact Hreg|]. split.
      * intros C x. rewrite Hprod, elem_of_cons. split.
        -- intros [Hx|(-> & Hc & Hin & Hs)]; [by left | right; eauto].
        -- intros [Hx|(-> & Hc & [->|Hin] & Hs)];
             [by left | | right; eauto].
           rewrite Hb in Hs. discriminate Hs.
      * destruct Hres as [[Hr Hall]|(e & C & Hr & Hin & Ht)].
        -- left. split; [exact Hr|].
           intros C [->|Hin]%elem_of_cons; [eauto | by apply Hall].
        -- right. exists e, C. split; [exact Hr|].
           split; [by apply elem_of_cons; right | exact Ht].
    + cbn [fst snd]. split; [done|]. split; [done|]. split; [done|]. split.
      * intros C x. split; [by left|].
        intros [Hx|(_ & _ & _ & Hs)]; [done|].
        by apply (canSpeak_throw_never_true _ _ _ _ Hb) in Hs.
      * right. exists e, c. split; [done|].
        split; [apply list_elem_of_here | exact Hb].
Qed.

(** C2, as stated, fails.  From the initial server, alice's socket creates
    a transport; nobody is registered, so nobody has speak permission in any
    channel.  Her [produce] request nevertheless succeeds and the producer
    exists in the Media Worker afterwards. *)
Lemma produce_without_speak_counterexample :
  (∀ clientId channelId,
     ClientManager.canSpeak clientId channelId
       (clientManager alice_has_transport) = Return false) ∧
  (socketHandler (world_creating "p-alice") "sock-alice" (Produce "t-alice")
     alice_has_transport).1 = Success (PProducer "p-alice") ∧
  MediasoupManager.producers
    (mediasoupManager
       (socketHandler (world_creating "p-alice") "sock-alice"
          (Produce "t-alice") alice_has_transport).2) !! "p-alice"
  = Some {| producer_id := "p-alice"; producer_transportId := "t-alice" |}.
Proof.
  split; [intros; by apply canSpeak_unregistered|]. split; reflexivity.
Qed.

(** The same happens to a registered client: carol, a member of [main]
    without any speak right, obtains a producer. *)
Lemma canSpeak_carol channelId :
  ClientManager.canSpeak "carol-id" channelId sample_two_clients
  ≠ Return true.
Proof.
  intros H.
  apply (canSpeak_known sample_two_clients "carol-id" channelId sample_carol
           eq_refl) in H as [_ [Hall | (m & [= <-] & Hm)]].
  - discriminate Hall.
  - by rewrite lookup_empty in Hm.
Qed.

Example produce_by_member_without_speak :
  (cinfo_id
     <$> ClientManager.getClientBySocketId "sock-carol"
           (clientManager sample_server)) = Some "carol-id" ∧
  (socketHandler sample_world "sock-carol" (Produce "t-carol")
     sample_server).1 = Success (PProducer "obj-1") ∧
  MediasoupManager.producers
    (mediasoupManager
       (socketHandler sample_world "sock-carol" (Produce "t-carol")
          sample_server).2) !! "obj-1"
  = Some {| producer_id := "obj-1"; producer_transportId := "t-carol" |}.
Proof. split; [|split]; reflexivity. Qed.

(** The registration loop touches the channel registry only, also when the
    evaluator throws in the middle of it. *)
Lemma register_producer_frame clientId producerId channels srv :
  clientManager (register_producer clientId producerId channels srv).2
  = clientManager srv ∧
  mediasoupManager (register_producer clientId producerId channels srv).2
  = mediasoupManager srv.
Proof.
  revert srv. induction channels as [|c rest IH]; intros srv; simpl; [done|].
  destruct (ClientManager.canSpeak clientId c (clientManager srv)) as [[]|e];
    [|apply IH|done].
  destruct (IH (set_channelManager
                  (ChannelManager.addProducerToChannel c producerId
                     (channelManager srv)).2 srv)) as [H1 H2].
  by rewrite H1, H2.
Qed.

Lemma on_produce_created w socket_id transportId srv t producerId :
  MediasoupManager.transports (mediasoupManager srv) !! transportId = Some t →
  lib_created w = Return producerId →
  on_produce w socket_id transportId srv =
    match ClientManager.getClientBySocketId socket_id (clientManager srv) with
    | None =>
        (Success (PProducer producerId),
         with_producer producerId transportId srv)
    | Some client =>
        match register_producer (cinfo_id client) producerId
                (cinfo_channels client)
                (with_producer producerId transportId srv) with
        | (Return _, srv') => (Success (PProducer producerId), srv')
        | (Throw e, srv') => (Failure e, srv')
        end
    end.
Proof.
  intros Ht Hk. unfold on_produce, MediasoupManager.produce.
  by rewrite Ht, Hk.
Qed.

(** C2, amended. A [produce] request creates a producer whenever the
    transport is known and its [produce] call succeeds, whatever the
    permissions of the requesting client; otherwise it fails and changes
    nothing.  The id of the new producer is then added to the producers set
    of exactly those registered channels of the requesting client in which
    the client has speak permission; when it has speak permission in no
    channel the producer exists and is added to no channel.  The request is
    answered with the producer id, unless the evaluator throws for a channel
    of the client: it is then answered with that error, the producer staying
    where it is.  The client registry is never changed. *)
Theorem produce_registers_where_speak w socket_id transportId srv :
  let r := socketHandler w socket_id (Produce transportId) srv in
  clientManager r.2 = clientManager srv ∧
  ((MediasoupManager.transports (mediasoupManager srv) !! transportId = None ∨
    ∃ e, lib_created w = Throw e) →
   ∃ e, r = (Failure e, srv)) ∧
  (∀ producerId,
     is_Some (MediasoupManager.transports (mediasoupManager srv)
              !! transportId) →
     lib_created w = Return producerId →
     MediasoupManager.producers (mediasoupManager r.2)
     = <[producerId := {| producer_id := producerId;
                          producer_transportId := transportId |}]>
         (MediasoupManager.producers (mediasoupManager srv)) ∧
     match ClientManager.getClientBySocketId socket_id (clientManager srv) with
     | None =>
         r.1 = Success (PProducer producerId) ∧
         channelManager r.2 = channelManager srv
     | Some client =>
         (∀ C x,
            x ∈ ChannelManager.getChannelProducers C (channelManager r.2) ↔
            x ∈ ChannelManager.getChannelProducers C (channelManager srv) ∨
            (x = producerId ∧
             is_Some (ChannelManager.channels (channelManager srv) !! C) ∧
             C ∈ cinfo_channels client ∧
             ClientManager.canSpeak (cinfo_id client) C (clientManager srv)
             = Return true)) ∧
         ((r.1 = Success (PProducer producerId) ∧
           ∀ C, C ∈ cinfo_channels client →
                ∃ b, ClientManager.canSpeak (cinfo_id client) C
                       (clientManager srv) = Return b) ∨
          (∃ e C,
             r.1 = Failure e ∧
             C ∈ cinfo_channels client ∧
             ClientManager.canSpeak (cinfo_id client) C (clientManager srv)
             = Throw e))
     end).
Proof.
  simpl.
  destruct (MediasoupManager.transports (mediasoupManager srv) !! transportId)
    as [t|] eqn:Ht.
  2:{ unfold on_produce, MediasoupManager.produce. rewrite Ht.
      rewrite set_mediasoupManager_same. simpl.
      split; [done|]. split; [eauto|]. by intros pid [? ?]. }
  destruct (lib_created w) as [pid|e] eqn:Hk.
  2:{ unfold on_produce, MediasoupManager.produce. rewrite Ht, Hk.
      rewrite set_mediasoupManager_same. simpl.
      split; [done|]. split; [eauto|]. by intros pid _ ?. }
  rewrite (on_produce_created w socket_id transportId srv t pid Ht Hk).
  pose proof (register_producer_spec) as Hspec.
  set (srv1 := with_producer pid transportId srv) in *.
  assert (Hcm1 : clientManager srv1 = clientManager srv) by done.
  assert (Hchm1 : channelManager srv1 = channelManager srv) by done.
  destruct (ClientManager.getClientBySocketId socket_id (clientManager srv))
    as [client|] eqn:Hclient.
  2:{ simpl. split; [done|]. split; [by intros [?|[? ?]]|].
      intros ? _ [= <-]. done. }
  destruct (Hspec (cinfo_id client) pid (cinfo_channels client) srv1)
    as (Hfcm & Hfm & _ & Hprod & Hres).
  rewrite Hcm1 in Hfcm, Hprod, Hres. rewrite Hchm1 in Hprod.
  destruct (register_producer (cinfo_id client) pid (cinfo_channels client)
              srv1) as [[u|e] srv'] eqn:Hrun; simpl in *.
  - split; [exact Hfcm|]. split; [by intros [?|[? ?]]|].
    intros ? _ [= <-]. split; [by rewrite Hfm|]. split; [exact Hprod|].
    destruct Hres as [[_ Hall]|(e & C & Hr & _)]; [|done].
    left. by split.
  - split; [exact Hfcm|]. split; [by intros [?|[? ?]]|].
    intros ? _ [= <-]. split; [by rewrite Hfm|]. split; [exact Hprod|].
    destruct Hres as [[Hr _]|(e' & C & [= <-] & Hin & Ht')]; [done|].
    right. by exists e, C.
Qed.

Lemma produce_registers_where_speak_witness :
  (socketHandler sample_world "sock-carol" (Produce "t-carol")
     sample_server).1 = Success (PProducer "obj-1") ∧
  ("obj-1" ∈ ChannelManager.getChannelProducers "main"
               (channelManager
                  (socketHandler sample_world "sock-carol" (Produce "t-carol")
                     sample_server).2) ↔
   "obj-1" ∈ ChannelManager.getChannelProducers "main"
               (channelManager sample_server) ∨
   ("obj-1" = "obj-1" ∧
    is_Some (ChannelManager.channels (channelManager sample_server)
             !! "main") ∧
    "main" ∈ client_channels sample_carol ∧
    ClientManager.canSpeak "carol-id" "main" (clientManager sample_server)
    = Return true)).
Proof.
  split; [reflexivity|].
  destruct (produce_registers_where_speak sample_world "sock-carol" "t-carol"
              sample_server) as (_ & _ & H).
  destruct (H "obj-1" (ex_intro _ _ eq_refl) eq_refl) as [_ Hc].
  exact (proj1 Hc "main" "obj-1").
Defined.

(** The admin client of the constructor has no [speakTo] dictionary: bound
    to a socket, added to [main] and with [speakToAll] switched off, its
    [produce] request is answered with the evaluator's exception, and the
    producer is stored in the Media Worker and registered in no channel. *)
Example produce_by_admin_without_dictionary :
  (socketHandler (world_creating "p-root") "sock-root" (Produce "t-root")
     root_server).1
  = Failure "Cannot read properties of undefined" ∧
  MediasoupManager.producers
    (mediasoupManager
       (socketHandler (world_creating "p-root") "sock-root" (Produce "t-root")
          root_server).2) !! "p-root"
  = Some {| producer_id := "p-root"; producer_transportId := "t-root" |} ∧
  channelManager
    (socketHandler (world_creating "p-root") "sock-root" (Produce "t-root")
       root_server).2
  = channelManager root_server.
Proof. split; [|split]; reflexivity. Qed.

(** Bob may speak in [main]: his producer is registered there; carol may
    not speak anywhere: hers exists and is registered nowhere. *)
Example produce_bob_registered :
  ChannelManager.getChannelProducers "main"
    (channelManager
       (socketHandler sample_world "sock-bob" (Produce "t-bob")
          sample_server).2)
  = {[ "obj-1"; "p-alice" ]}.
Proof. vm_compute. reflexivity. Qed.

Example produce_carol_not_registered :
  ChannelManager.getChannelProducers "main"
    (channelManager
       (socketHandler sample_world "sock-carol" (Produce "t-carol")
          sample_server).2)
  = {[ "p-alice" ]} ∧
  ChannelManager.getChannelProducers "sys"
    (channelManager
       (socketHandler sample_world "sock-carol" (Produce "t-carol")
          sample_server).2)
  = ∅.
Proof. split; vm_compute; reflexivity. Qed.

(** ** Requests from sessions that are not authorized *)

Lemma not_active_no_client socket_id srv :
  session_state_of socket_id srv = NEW ∨
  session_state_of socket_id srv = PENDING →
  ClientManager.getClientBySocketId socket_id (clientManager srv) = None.
Proof.
  unfold session_state_of.
  destruct (ClientManager.getClientBySocketId socket_id (clientManager srv));
    [by intros [?|?] | done].
Qed.

(** Whoever sends it, a [produce] request acts on the Media Worker as
    [MediasoupManager.produce] does. *)
Lemma on_produce_media w socket_id transportId srv :
  mediasoupManager (on_produce w socket_id transportId srv).2
  = (MediasoupManager.produce transportId (lib_created w)
       (mediasoupManager srv)).2.
Proof.
  unfold on_produce.
  destruct (MediasoupManager.produce transportId (lib_created w)
              (mediasoupManager srv)) as [[pid|e] m']; simpl; [|done].
  destruct (ClientManager.getClientBySocketId socket_id (clientManager srv))
    as [client|]; [|done].
  pose proof (register_producer_frame (cinfo_id client) pid
                (cinfo_channels client) (set_mediasoupManager m' srv))
    as [_ Hm].
  by destruct (register_producer _ _ _ _) as [[u|e] srv'].
Qed.

(** C4, as stated, fails: on the initial server a socket that never
    authenticated (state NEW), and dave's socket once enrolled and waiting
    for an administrator (state PENDING), have their [createWebRtcTransport]
    request served, and the new transport is stored by the Media Worker. *)
Lemma unauthorized_transport_counterexample :
  session_state_of "sock-alice" initial_server = NEW ∧
  (socketHandler (world_creating "t-alice") "sock-alice"
     CreateWebRtcTransport initial_server).1
  = Success (PTransport "t-alice") ∧
  MediasoupManager.transports (mediasoupManager initial_server) !! "t-alice"
  = None ∧
  MediasoupManager.transports
    (mediasoupManager
       (socketHandler (world_creating "t-alice") "sock-alice"
          CreateWebRtcTransport initial_server).2) !! "t-alice"
  = Some {| transport_id := "t-alice" |} ∧
  session_state_of "sock-dave" dave_is_pending = PENDING ∧
  (socketHandler (world_creating "t-dave") "sock-dave"
     CreateWebRtcTransport dave_is_pending).1
  = Success (PTransport "t-dave") ∧
  MediasoupManager.transports
    (mediasoupManager
       (socketHandler (world_creating "t-dave") "sock-dave"
          CreateWebRtcTransport dave_is_pending).2) !! "t-dave"
  = Some {| transport_id := "t-dave" |}.
Proof.
  split; [vm_compute; reflexivity|]. split; [reflexivity|].
  split; [reflexivity|]. split; [reflexivity|].
  split; [vm_compute; reflexivity|]. split; reflexivity.
Qed.

(** C4, amended. For a session in state NEW or PENDING: the admin requests
    [authorizeClient] and [createChannel] fail with ['Unauthorized'], and
    [toggleChannelMute] and [adjustChannelVolume] fail with
    ['Client not found'], all without any effect on the server; the media
    requests are not gated on the session: they leave the client and
    channel registries as they are and act on the Media Worker exactly as
    for any other socket, so that with the router up
    [getRouterRtpCapabilities] answers the capabilities and
    [createWebRtcTransport] stores the transport the library creates. *)
Theorem unregistered_session_requests w socket_id srv :
  session_state_of socket_id srv = NEW ∨
  session_state_of socket_id srv = PENDING →
  (∀ clientId authorized channels permissions,
     socketHandler w socket_id
       (AuthorizeClient clientId authorized channels permissions) srv
     = (Failure "Unauthorized", srv)) ∧
  (∀ channelName description,
     socketHandler w socket_id (CreateChannel channelName description) srv
     = (Failure "Unauthorized", srv)) ∧
  (∀ channelId m,
     socketHandler w socket_id (ToggleChannelMute channelId m) srv
     = (Failure "Client not found", srv)) ∧
  (∀ channelId v,
     socketHandler w socket_id (AdjustChannelVolume channelId v) srv
     = (Failure "Client not found", srv)) ∧
  (∀ req, is_media_request req = true →
     channelManager (socketHandler w socket_id req srv).2
     = channelManager srv ∧
     clientManager (socketHandler w socket_id req srv).2
     = clientManager srv ∧
     ∀ socket_id',
       mediasoupManager (socketHandler w socket_id' req srv).2
       = mediasoupManager (socketHandler w socket_id req srv).2) ∧
  (∀ caps,
     MediasoupManager.router (mediasoupManager srv) = Some caps →
     socketHandler w socket_id GetRouterRtpCapabilities srv
     = (Success (PRtpCapabilities caps), srv) ∧
     ∀ transportId,
       lib_created w = Return transportId →
       (socketHandler w socket_id CreateWebRtcTransport srv).1
       = Success (PTransport transportId) ∧
       MediasoupManager.transports
         (mediasoupManager
            (socketHandler w socket_id CreateWebRtcTransport srv).2)
       = <[transportId := {| transport_id := transportId |}]>
           (MediasoupManager.transports (mediasoupManager srv))).
Proof.
  intros Hstate. pose proof (not_active_no_client _ _ Hstate) as Hnone.
  assert (Hadmin : ClientManager.isAdmin socket_id (clientManager srv) = false)
    by (unfold ClientManager.isAdmin; by rewrite Hnone).
  split; [|split; [|split; [|split; [|split]]]].
  - intros. simpl. unfold on_authorizeClient. by rewrite Hadmin.
  - intros. simpl. unfold on_createChannel. by rewrite Hadmin.
  - intros. simpl. unfold on_toggleChannelMute. by rewrite Hnone.
  - intros. simpl. unfold on_adjustChannelVolume. by rewrite Hnone.
  - intros req Hreq.
    destruct req as [| | | | | | |transportId|transportId
                     |transportId producerId]; try discriminate Hreq; simpl.
    + unfold on_getRouterRtpCapabilities.
      by destruct (MediasoupManager.getRtpCapabilities _).
    + unfold on_createWebRtcTransport.
      by destruct (MediasoupManager.createWebRtcTransport _ _) as [[?|?] ?].
    + unfold on_connectWebRtcTransport.
      by destruct (MediasoupManager.connectWebRtcTransport _ _ _).
    + split; [|split].
      * unfold on_produce.
        destruct (MediasoupManager.produce _ _ _) as [[?|?] ?]; simpl;
          [by rewrite Hnone | done].
      * unfold on_produce.
        destruct (MediasoupManager.produce _ _ _) as [[?|?] ?]; simpl;
          [by rewrite Hnone | done].
      * intros socket_id'. by rewrite !on_produce_media.
    + unfold on_consume.
      by destruct (MediasoupManager.consume _ _ _ _ _) as [[?|?] ?].
  - intros caps Hr. simpl. split.
    + unfold on_getRouterRtpCapabilities, MediasoupManager.getRtpCapabilities.
      by rewrite Hr.
    + intros transportId Hk.
      unfold on_createWebRtcTransport, MediasoupManager.createWebRtcTransport.
      by rewrite Hr, Hk.
Qed.

Lemma unregistered_session_requests_witness :
  (session_state_of "sock-dave" dave_is_pending = NEW ∨
   session_state_of "sock-dave" dave_is_pending = PENDING) ∧
  socketHandler sample_world "sock-dave" (CreateChannel "News" None)
    dave_is_pending = (Failure "Unauthorized", dave_is_pending).
Proof.
  assert (H : session_state_of "sock-dave" dave_is_pending = NEW ∨
              session_state_of "sock-dave" dave_is_pending = PENDING).
  { right. vm_compute. reflexivity. }
  split; [exact H|].
  destruct (unregistered_session_requests sample_world "sock-dave"
              dave_is_pending H) as (_ & Hc & _).
  exact (Hc "News" None).
Defined.

(** * Further properties of the code *)

(** ** Channel registry *)

Lemma channel_registry_eta (chm : ChannelManager.t) :
  {| ChannelManager.channels := ChannelManager.channels chm |} = chm.
Proof. by destruct chm. Qed.

(** X1. For a registered channel and a client that is not one of its
    members, [addClientToChannel] followed by [removeClientFromChannel]
    succeeds twice and gives back the registry it started from. *)
Theorem channel_add_then_remove_client chm channelId clientId channel :
  ChannelManager.channels chm !! channelId = Some channel →
  clientId ∉ channel_clients channel →
  (ChannelManager.addClientToChannel channelId clientId chm).1 = true ∧
  ChannelManager.removeClientFromChannel channelId clientId
    (ChannelManager.addClientToChannel channelId clientId chm).2
  = (true, chm).
Proof.
  intros Hch Hnin.
  unfold ChannelManager.addClientToChannel,
    ChannelManager.removeClientFromChannel.
  rewrite Hch. simpl. split; [done|]. rewrite lookup_insert_eq. simpl.
  rewrite insert_insert_eq. f_equal.
  - apply bool_decide_eq_true. apply elem_of_union_l.
    by apply elem_of_singleton.
  - rewrite <- (channel_registry_eta chm) at 2. f_equal.
    apply insert_id. rewrite Hch. f_equal.
    destruct channel as [cid cname cdesc cclients cprod cat]. simpl in *.
    f_equal. apply set_eq. intros x.
    rewrite elem_of_difference, elem_of_union, elem_of_singleton. split.
    + intros Hx. split; [by right|]. intros ->. done.
    + intros [[->|Hx] Hne]; done.
Qed.

Lemma channel_add_then_remove_client_witness :
  (ChannelManager.channels (channelManager sample_server) !! "main"
   = Some main_channel ∧
   "dave-id" ∉ channel_clients main_channel) ∧
  ChannelManager.removeClientFromChannel "main" "dave-id"
    (ChannelManager.addClientToChannel "main" "dave-id"
       (channelManager sample_server)).2
  = (true, channelManager sample_server).
Proof.
  assert (H1 : ChannelManager.channels (channelManager sample_server)
               !! "main" = Some main_channel) by reflexivity.
  assert (H2 : "dave-id" ∉ channel_clients main_channel).
  { simpl. rewrite !not_elem_of_union, !not_elem_of_singleton.
    repeat split; discriminate. }
  split; [exact (conj H1 H2)|].
  exact (proj2 (channel_add_then_remove_client (channelManager sample_server)
                  "main" "dave-id" main_channel H1 H2)).
Defined.

(** X2. On a registered channel, [removeProducerFromChannel] reports
    whether the producer was registered there and removes that producer
    from that channel only: the other producers, the other channels and all
    member sets are as before. *)
Theorem removeProducerFromChannel_spec chm channelId producerId channel :
  ChannelManager.channels chm !! channelId = Some channel →
  (ChannelManager.removeProducerFromChannel channelId producerId chm).1
  = bool_decide (producerId ∈ channel_producers channel) ∧
  (∀ C x,
     x ∈ ChannelManager.getChannelProducers C
           (ChannelManager.removeProducerFromChannel channelId producerId
              chm).2 ↔
     x ∈ ChannelManager.getChannelProducers C chm ∧
     ¬ (C = channelId ∧ x = producerId)) ∧
  (∀ C,
     ChannelManager.getChannelClients C
       (ChannelManager.removeProducerFromChannel channelId producerId chm).2
     = ChannelManager.getChannelClients C chm) ∧
  (∀ C,
     is_Some (ChannelManager.channels
                (ChannelManager.removeProducerFromChannel channelId
                   producerId chm).2 !! C) ↔
     is_Some (ChannelManager.channels chm !! C)).
Proof.
  intros Hch.
  unfold ChannelManager.removeProducerFromChannel,
    ChannelManager.getChannelProducers, ChannelManager.getChannelClients.
  rewrite Hch. simpl. split; [done|]. split; [|split].
  - intros C x. destruct (decide (C = channelId)) as [->|Hne].
    + rewrite lookup_insert_eq, Hch. simpl.
      rewrite elem_of_difference, elem_of_singleton. split.
      * intros [Hx Hne]. split; [done|]. by intros [_ ?].
      * intros [Hx Hn]. split; [done|]. intros ->. by apply Hn.
    + rewrite lookup_insert_ne by done. split.
      * intros Hx. split; [done|]. by intros [? _].
      * by intros [Hx _].
  - intros C. destruct (decide (C = channelId)) as [->|Hne].
    + by rewrite lookup_insert_eq, Hch.
    + by rewrite lookup_insert_ne.
  - intros C. destruct (decide (C = channelId)) as [->|Hne].
    + rewrite lookup_insert_eq, Hch. split; eauto.
    + by rewrite lookup_insert_ne.
Qed.

Lemma removeProducerFromChannel_spec_witness :
  ChannelManager.channels (channelManager sample_server) !! "main"
  = Some main_channel ∧
  (ChannelManager.removeProducerFromChannel "main" "p-alice"
     (channelManager sample_server)).1
  = bool_decide ("p-alice" ∈ channel_producers main_channel).
Proof.
  assert (H1 : ChannelManager.channels (channelManager sample_server)
               !! "main" = Some main_channel) by reflexivity.
  split; [exact H1|].
  exact (proj1 (removeProducerFromChannel_spec (channelManager sample_server)
                  "main" "p-alice" main_channel H1)).
Defined.

(** X3. [deleteChannel] answers [true] exactly for a registered channel
    whose name is not ['System']; it then removes that channel and no
    other, and when it answers [false] the registry is unchanged. *)
Theorem deleteChannel_spec chm channelId :
  ((ChannelManager.deleteChannel channelId chm).1 = true ↔
   ∃ channel,
     ChannelManager.channels chm !! channelId = Some channel ∧
     channel_name channel ≠ "System") ∧
  ((ChannelManager.deleteChannel channelId chm).1 = true →
   ChannelManager.channels (ChannelManager.deleteChannel channelId chm).2
   = delete channelId (ChannelManager.channels chm)) ∧
  ((ChannelManager.deleteChannel channelId chm).1 = false →
   (ChannelManager.deleteChannel channelId chm).2 = chm).
Proof.
  unfold ChannelManager.deleteChannel, ChannelManager.is_named_System.
  destruct (ChannelManager.channels chm !! channelId) as [ch|] eqn:Hch.
  - destruct (String.eqb_spec (channel_name ch) "System") as [Hn|Hn]; simpl.
    + split; [|done]. split; [done|]. intros (ch' & [= <-] & Hne). done.
    + split; [|done]. split; [eauto | done].
  - simpl. split; [|done]. split; [done | by intros (ch' & ? & _)].
Qed.

Lemma deleteChannel_spec_witness :
  (ChannelManager.deleteChannel "main" (channelManager sample_server)).1
  = true ∧
  ChannelManager.channels
    (ChannelManager.deleteChannel "main" (channelManager sample_server)).2
  = delete "main" (ChannelManager.channels (channelManager sample_server)).
Proof.
  assert (H : (ChannelManager.deleteChannel "main"
                 (channelManager sample_server)).1 = true) by reflexivity.
  split; [exact H|].
  exact (proj1 (proj2 (deleteChannel_spec (channelManager sample_server)
                         "main")) H).
Defined.

(** X4. [updateChannel] on a registered channel never touches its id, its
    members, its producers or its creation time; the name and the
    description change only to a non-empty string given in the update (a
    missing or empty property is ignored, so a description cannot be
    cleared); the other channels are untouched. *)
Theorem updateChannel_frame chm channelId updates channel :
  ChannelManager.channels chm !! channelId = Some channel →
  ∃ channel',
    ChannelManager.channels
      (ChannelManager.updateChannel channelId updates chm).2 !! channelId
    = Some channel' ∧
    channel_id channel' = channel_id channel ∧
    channel_clients channel' = channel_clients channel ∧
    channel_producers channel' = channel_producers channel ∧
    channel_createdAt channel' = channel_createdAt channel ∧
    channel_name channel'
    = default (channel_name channel) (truthy_string (updates_name updates)) ∧
    channel_description channel'
    = default (channel_description channel)
        (truthy_string (updates_description updates)) ∧
    (∀ other, other ≠ channelId →
       ChannelManager.channels
         (ChannelManager.updateChannel channelId updates chm).2 !! other
       = ChannelManager.channels chm !! other).
Proof.
  intros Hch. unfold ChannelManager.updateChannel. rewrite Hch. simpl.
  eexists. split; [apply lookup_insert_eq|].
  destruct (truthy_string (updates_name updates)),
    (truthy_string (updates_description updates)); simpl;
    repeat split; try done; intros other Hne; by rewrite lookup_insert_ne.
Qed.

Lemma updateChannel_frame_witness :
  ChannelManager.channels (channelManager sample_server) !! "main"
  = Some main_channel ∧
  ∃ channel',
    ChannelManager.channels
      (ChannelManager.updateChannel "main"
         {| updates_name := Some "Stage"; updates_description := Some "" |}
         (channelManager sample_server)).2 !! "main" = Some channel' ∧
    channel_name channel' = "Stage" ∧
    channel_description channel' = channel_description main_channel.
Proof.
  assert (H1 : ChannelManager.channels (channelManager sample_server)
               !! "main" = Some main_channel) by reflexivity.
  split; [exact H1|].
  destruct (updateChannel_frame (channelManager sample_server) "main"
              {| updates_name := Some "Stage"; updates_description := Some "" |}
              main_channel H1)
    as (channel' & Hl & _ & _ & _ & _ & Hn & Hd & _).
  exists channel'. split; [exact Hl|]. split; [exact Hn | exact Hd].
Defined.



(** ** Client registry: settings and the evaluator *)

Lemma JsMap_set_set {V : Type} (k : string) (v1 v2 : V) m :
  JsMap.set k v2 (JsMap.set k v1 m) = JsMap.set k v2 m.
Proof.
  induction m as [|[k' v'] m IH]; simpl.
  - by rewrite decide_True.
  - destruct (decide (k' = k)) as [->|Hne]; simpl.
    + by rewrite decide_True.
    + rewrite decide_False by done. by rewrite IH.
Qed.

Lemma normalized_idempotent v : normalized (normalized v) = normalized v.
Proof.
  rewrite (normalized_eq v).
  destruct (is_nan v) eqn:Hn; [reflexivity|].
  destruct (num_lt v num_one) eqn:H1; [|reflexivity].
  destruct (num_lt pos_zero v) eqn:H0; [|reflexivity].
  by rewrite normalized_eq, Hn, H1, H0.
Qed.

(** X6. [setChannelMuteStatus] is idempotent: a second call with the same
    arguments answers the same and leaves the registry as the first call
    left it (also when the call fails).  It never changes a stored
    volume. *)
Theorem setChannelMuteStatus_idempotent cm clientId channelId m :
  ClientManager.setChannelMuteStatus clientId channelId m
    (ClientManager.setChannelMuteStatus clientId channelId m cm).2
  = ClientManager.setChannelMuteStatus clientId channelId m cm ∧
  ∀ clientId' channelId',
    channel_volume clientId' channelId'
      (ClientManager.setChannelMuteStatus clientId channelId m cm).2
    = channel_volume clientId' channelId' cm.
Proof.
  unfold ClientManager.setChannelMuteStatus.
  destruct (JsMap.get clientId (ClientManager.clients cm))
    as [client|] eqn:Hget; simpl; [|by rewrite Hget].
  destruct (client_channelSettings client !! channelId)
    as [settings|] eqn:Hs; simpl; [|by rewrite Hget, Hs].
  rewrite JsMapFacts.get_set_eq. simpl. rewrite lookup_insert_eq. simpl.
  split.
  - rewrite JsMap_set_set, insert_insert_eq. by destruct client.
  - intros clientId' channelId'. unfold channel_volume. simpl.
    rewrite JsMapFacts.get_set.
    destruct (decide (clientId = clientId')) as [<-|Hne]; [|done].
    rewrite Hget. simpl.
    destruct (decide (channelId = channelId')) as [<-|Hne].
    + by rewrite lookup_insert_eq, Hs.
    + by rewrite lookup_insert_ne.
Qed.

(** X7. [setChannelVolume] is idempotent as well, and storing again the
    value it has stored changes nothing: the clamp of a clamped value is
    that value. *)
Theorem setChannelVolume_idempotent cm clientId channelId v :
  normalized (normalized v) = normalized v ∧
  ClientManager.setChannelVolume clientId channelId (normalized v)
    (ClientManager.setChannelVolume clientId channelId v cm).2
  = ClientManager.setChannelVolume clientId channelId v cm.
Proof.
  split; [apply normalized_idempotent|].
  unfold ClientManager.setChannelVolume.
  destruct (JsMap.get clientId (ClientManager.clients cm))
    as [client|] eqn:Hget; simpl; [|by rewrite Hget].
  destruct (client_channelSettings client !! channelId)
    as [settings|] eqn:Hs; simpl; [|by rewrite Hget, Hs].
  rewrite JsMapFacts.get_set_eq. simpl. rewrite lookup_insert_eq. simpl.
  rewrite JsMap_set_set, insert_insert_eq.
  fold (normalized v). fold (normalized (normalized v)).
  rewrite normalized_idempotent. by destruct client.
Qed.

(** Replacing a client by one with the same channels and permissions does
    not change what the evaluator answers, for any client and channel. *)
Lemma evaluator_after_set cm clientId client client' clientId' channelId' :
  JsMap.get clientId (ClientManager.clients cm) = Some client →
  client_channels client' = client_channels client →
  client_permissions client' = client_permissions client →
  ClientManager.canSpeak clientId' channelId'
    {| ClientManager.clients :=
         JsMap.set clientId client' (ClientManager.clients cm);
       ClientManager.pendingClients := ClientManager.pendingClients cm |}
  = ClientManager.canSpeak clientId' channelId' cm ∧
  ClientManager.canListen clientId' channelId'
    {| ClientManager.clients :=
         JsMap.set clientId client' (ClientManager.clients cm);
       ClientManager.pendingClients := ClientManager.pendingClients cm |}
  = ClientManager.canListen clientId' channelId' cm.
Proof.
  intros Hget Hch Hp. unfold ClientManager.canSpeak, ClientManager.canListen.
  simpl. rewrite JsMapFacts.get_set.
  destruct (decide (clientId = clientId')) as [<-|Hne]; [|done].
  by rewrite Hget, Hch, Hp.
Qed.

(** X8. The mute flag and the volume are listening preferences only:
    [setChannelMuteStatus] and [setChannelVolume] never change what
    [canSpeak] and [canListen] answer, for any client and any channel. *)
Theorem settings_do_not_change_evaluator cm clientId channelId m v
    clientId' channelId' :
  ClientManager.canSpeak clientId' channelId'
    (ClientManager.setChannelMuteStatus clientId channelId m cm).2
  = ClientManager.canSpeak clientId' channelId' cm ∧
  ClientManager.canListen clientId' channelId'
    (ClientManager.setChannelMuteStatus clientId channelId m cm).2
  = ClientManager.canListen clientId' channelId' cm ∧
  ClientManager.canSpeak clientId' channelId'
    (ClientManager.setChannelVolume clientId channelId v cm).2
  = ClientManager.canSpeak clientId' channelId' cm ∧
  ClientManager.canListen clientId' channelId'
    (ClientManager.setChannelVolume clientId channelId v cm).2
  = ClientManager.canListen clientId' channelId' cm.
Proof.
  unfold ClientManager.setChannelMuteStatus, ClientManager.setChannelVolume.
  destruct (JsMap.get clientId (ClientManager.clients cm))
    as [client|] eqn:Hget; simpl; [|done].
  destruct (client_channelSettings client !! channelId)
    as [settings|] eqn:Hs; simpl; [|done].
  split; [|split; [|split]];
    by apply (evaluator_after_set cm clientId client).
Qed.

(** X9. Once [authorizeClient] has accepted a pending client, the client is
    registered and no longer pending: [rejectClient] on the same id answers
    [false] and a second [authorizeClient] answers [null], both leaving the
    registry as it is.  Conversely, a client rejected by [rejectClient]
    cannot be authorized any more and never enters the registry through
    that call. *)
Theorem authorize_and_reject_exclude_each_other cm clientId now channels
    permissions pending :
  ClientManager.pendingClients cm !! clientId = Some pending →
  let authorized :=
    (ClientManager.authorizeClient clientId now channels permissions cm).2 in
  let rejected := (ClientManager.rejectClient clientId cm).2 in
  is_Some (JsMap.get clientId (ClientManager.clients authorized)) ∧
  ClientManager.rejectClient clientId authorized = (false, authorized) ∧
  (∀ now' channels' permissions',
     ClientManager.authorizeClient clientId now' channels' permissions'
       authorized = (None, authorized)) ∧
  (ClientManager.rejectClient clientId cm).1 = true ∧
  ClientManager.clients rejected = ClientManager.clients cm ∧
  (∀ now' channels' permissions',
     ClientManager.authorizeClient clientId now' channels' permissions'
       rejected = (None, rejected)).
Proof.
  intros Hp. simpl.
  unfold ClientManager.authorizeClient, ClientManager.rejectClient.
  rewrite Hp. simpl. rewrite !lookup_delete_eq, JsMapFacts.get_set_eq.
  repeat split; eauto.
Qed.

Lemma authorize_and_reject_exclude_each_other_witness :
  is_Some (ClientManager.pendingClients sample_pending !! "dave-id") ∧
  ClientManager.rejectClient "dave-id" dave_authorized
  = (false, dave_authorized).
Proof.
  assert (H : ClientManager.pendingClients sample_pending !! "dave-id"
              = Some {| pending_id := "dave-id"; pending_name := "dave";
                        pending_socketId := Some "sock-dave";
                        pending_createdAt := "t0" |}) by reflexivity.
  split; [by rewrite H|].
  exact (proj1 (proj2 (authorize_and_reject_exclude_each_other sample_pending
                         "dave-id" "t1" (Some ["main"; "main"])
                         no_permissions _ H))).
Defined.

(** The record [updateClientPermissions] stores for a registered client. *)
Lemma updateClientPermissions_stored cm clientId patch client :
  JsMap.get clientId (ClientManager.clients cm) = Some client →
  ∃ client',
    JsMap.get clientId
      (ClientManager.clients
         (ClientManager.updateClientPermissions clientId patch cm).2)
    = Some client' ∧
    client_channels client' = client_channels client ∧
    speakToAll (client_permissions client')
    = default (speakToAll (client_permissions client)) (in_speakToAll patch) ∧
    listenToAll (client_permissions client')
    = default (listenToAll (client_permissions client)) (in_listenToAll patch) ∧
    (∀ pm, in_speakTo patch = Some pm →
       speakTo (client_permissions client')
       = Some (spread (speakTo (client_permissions client)) pm)) ∧
    (∀ pm, in_listenTo patch = Some pm →
       listenTo (client_permissions client')
       = Some (spread (listenTo (client_permissions client)) pm)).
Proof.
  intros Hget. unfold ClientManager.updateClientPermissions. rewrite Hget.
  simpl. eexists. split; [apply JsMapFacts.get_set_eq|].
  destruct patch as [pa [sa|] [la|] [st|] [lt|]];
    destruct client as [? ? ? ? ? ? [osa ola ost olt] ? ? ?]; simpl;
    repeat split; try done; intros pm [= <-]; done.
Qed.

(** X10. A permission update takes effect in the evaluator at once: for a
    member of a channel whose global flag is off after the update, an
    update that carries [speakTo[C] = b] makes [canSpeak] answer [b], and
    one that carries [listenTo[C] = b] makes [canListen] answer [b]; this
    also repairs a client whose dictionaries were missing. *)
Theorem updateClientPermissions_then_evaluator cm clientId patch client
    channelId :
  JsMap.get clientId (ClientManager.clients cm) = Some client →
  channelId ∈ client_channels client →
  (∀ pm b,
     in_speakTo patch = Some pm → pm !! channelId = Some b →
     default (speakToAll (client_permissions client)) (in_speakToAll patch)
     = false →
     ClientManager.canSpeak clientId channelId
       (ClientManager.updateClientPermissions clientId patch cm).2
     = Return b) ∧
  (∀ pm b,
     in_listenTo patch = Some pm → pm !! channelId = Some b →
     default (listenToAll (client_permissions client)) (in_listenToAll patch)
     = false →
     ClientManager.canListen clientId channelId
       (ClientManager.updateClientPermissions clientId patch cm).2
     = Return b).
Proof.
  intros Hget Hin. apply includes_true in Hin.
  destruct (updateClientPermissions_stored cm clientId patch client Hget)
    as (client' & Hget' & Hch & Hsa & Hla & Hst & Hlt).
  split.
  - intros pm b Hpm Hb Hall.
    unfold ClientManager.canSpeak. rewrite Hget', Hch, Hin. simpl.
    rewrite Hsa, Hall, (Hst pm Hpm). unfold prop_is_true. f_equal.
    pose proof (dict_get_spread (speakTo (client_permissions client)) pm
                  channelId) as Hd.
    simpl in Hd. rewrite Hd, Hb. by destruct b.
  - intros pm b Hpm Hb Hall.
    unfold ClientManager.canListen. rewrite Hget', Hch, Hin. simpl.
    rewrite Hla, Hall, (Hlt pm Hpm). unfold prop_is_true. f_equal.
    pose proof (dict_get_spread (listenTo (client_permissions client)) pm
                  channelId) as Hd.
    simpl in Hd. rewrite Hd, Hb. by destruct b.
Qed.

Lemma updateClientPermissions_then_evaluator_witness :
  ClientManager.canSpeak "bob-id" "main" sample_clients = Return true ∧
  ClientManager.canSpeak "bob-id" "main"
    (ClientManager.updateClientPermissions "bob-id" revoke_speak_main
       sample_clients).2
  = Return false.
Proof.
  split; [reflexivity|].
  assert (Hget : JsMap.get "bob-id" (ClientManager.clients sample_clients)
                 = Some sample_bob) by reflexivity.
  assert (Hin : "main" ∈ client_channels sample_bob) by constructor.
  exact (proj1 (updateClientPermissions_then_evaluator sample_clients
                  "bob-id" revoke_speak_main sample_bob "main" Hget Hin)
           {[ "main" := false ]} false eq_refl eq_refl eq_refl).
Defined.

(** ** The socket server *)

Lemma no_socket_bound_find cm socket_id :
  no_socket_bound cm →
  ClientManager.find_by_socket socket_id (ClientManager.clients cm) = None.
Proof.
  unfold no_socket_bound. induction 1 as [|[k c] l Hc _ IH]; simpl; [done|].
  simpl in Hc. rewrite Hc. by rewrite decide_False.
Qed.

Lemma no_socket_bound_lookup cm socket_id :
  no_socket_bound cm →
  ClientManager.getClientBySocketId socket_id cm = None.
Proof.
  intros H. unfold ClientManager.getClientBySocketId.
  by rewrite no_socket_bound_find.
Qed.

Lemma no_socket_bound_new create_admin admin_name adminId t0 :
  no_socket_bound (ClientManager.new create_admin admin_name adminId t0).
Proof.
  unfold no_socket_bound, ClientManager.new.
  destruct (truthy_string create_admin); [|constructor].
  destruct (truthy_string admin_name); simpl; repeat constructor.
Qed.

(** While no client record carries a socket id, no event changes the
    client records or the channel registry. *)
Lemma handle_event_no_socket socket_id ev srv :
  no_socket_bound (clientManager srv) →
  ClientManager.clients (clientManager (handle_event socket_id ev srv))
  = ClientManager.clients (clientManager srv) ∧
  channelManager (handle_event socket_id ev srv) = channelManager srv.
Proof.
  intros Hno.
  pose proof (no_socket_bound_lookup _ socket_id Hno) as Hnone.
  assert (Hadmin : ClientManager.isAdmin socket_id (clientManager srv) = false)
    by (unfold ClientManager.isAdmin; by rewrite Hnone).
  destruct ev as [w req|]; simpl.
  - destruct req; simpl.
    + unfold on_authenticate. by destruct (_ || _).
    + unfold on_authorizeClient. by rewrite Hadmin.
    + unfold on_createChannel. by rewrite Hadmin.
    + unfold on_toggleChannelMute. by rewrite Hnone.
    + unfold on_adjustChannelVolume. by rewrite Hnone.
    + unfold on_getRouterRtpCapabilities.
      by destruct (MediasoupManager.getRtpCapabilities _).
    + unfold on_createWebRtcTransport.
      by destruct (MediasoupManager.createWebRtcTransport _ _) as [[?|?] ?].
    + unfold on_connectWebRtcTransport.
      by destruct (MediasoupManager.connectWebRtcTransport _ _ _).
    + unfold on_produce.
      destruct (MediasoupManager.produce _ _ _) as [[?|?] ?]; simpl; [|done].
      by rewrite Hnone.
    + unfold on_consume.
      by destruct (MediasoupManager.consume _ _ _ _ _) as [[?|?] ?].
  - unfold on_disconnect. by rewrite Hnone.
Qed.

Lemma run_events_no_socket events srv :
  no_socket_bound (clientManager srv) →
  ClientManager.clients (clientManager (run_events events srv))
  = ClientManager.clients (clientManager srv) ∧
  channelManager (run_events events srv) = channelManager srv.
Proof.
  revert srv. induction events as [|[socket_id ev] events IH]; intros srv Hno;
    [done|].
  change (run_events ((socket_id, ev) :: events) srv)
    with (run_events events (handle_event socket_id ev srv)).
  destruct (handle_event_no_socket socket_id ev srv Hno) as [Hc Hch].
  destruct (IH (handle_event socket_id ev srv)) as [Hc' Hch'].
  - unfold no_socket_bound. by rewrite Hc.
  - split; [by rewrite Hc' | by rewrite Hch'].
Qed.

(** X11. The socket server, as its modules construct it, never registers
    anybody: the admin client of the constructor has no socket id and
    nothing ever gives it one, so [isAdmin] is false for every socket and
    the admin requests always fail.  Whatever events arrive, on whatever
    sockets and in whatever worlds, the client records and the channel
    registry stay as constructed, no socket is an admin, no session is
    ACTIVE, and [startSpeaking] and [stopSpeaking] notify nobody. *)
Theorem socket_server_registers_nobody create_admin admin_name adminId sysId
    t0 m events :
  ClientManager.clients
    (clientManager
       (run_events events
          (server_at_startup create_admin admin_name adminId sysId t0 m)))
  = ClientManager.clients
      (ClientManager.new create_admin admin_name adminId t0) ∧
  channelManager
    (run_events events
       (server_at_startup create_admin admin_name adminId sysId t0 m))
  = ChannelManager.new sysId t0 ∧
  ∀ socket_id,
    ClientManager.isAdmin socket_id
      (clientManager
         (run_events events
            (server_at_startup create_admin admin_name adminId sysId t0 m)))
    = false ∧
    session_state_of socket_id
      (run_events events
         (server_at_startup create_admin admin_name adminId sysId t0 m))
    ≠ ACTIVE ∧
    ∀ channelId,
      on_startSpeaking socket_id channelId
        (run_events events
           (server_at_startup create_admin admin_name adminId sysId t0 m))
      = None ∧
      on_stopSpeaking socket_id channelId
        (run_events events
           (server_at_startup create_admin admin_name adminId sysId t0 m))
      = None.
Proof.
  set (srv0 := server_at_startup create_admin admin_name adminId sysId t0 m).
  assert (Hno0 : no_socket_bound (clientManager srv0))
    by apply no_socket_bound_new.
  destruct (run_events_no_socket events srv0 Hno0) as [Hc Hch].
  set (srv := run_events events srv0) in *.
  assert (Hno : no_socket_bound (clientManager srv))
    by (unfold no_socket_bound; by rewrite Hc).
  split; [done|]. split; [done|]. intros socket_id.
  pose proof (no_socket_bound_lookup _ socket_id Hno) as Hnone.
  split; [unfold ClientManager.isAdmin; by rewrite Hnone|].
  split.
  - unfold session_state_of. rewrite Hnone. by destruct (decide _).
  - intros channelId. unfold on_startSpeaking, on_stopSpeaking.
    by rewrite Hnone.
Qed.

Lemma authenticateClient_true env serverPassword :
  authenticateClient env serverPassword = true →
  negb (truthy serverPassword) || strict_neq_env serverPassword env = false.
Proof.
  unfold authenticateClient, truthy_string.
  destruct env as [secret|]; [|done].
  destruct (String.eqb_spec secret "") as [->|Hs]; [done|].
  destruct serverPassword as [| |b|x|s]; simpl; try done.
  destruct (String.eqb_spec s secret) as [->|Hne]; simpl; [|done].
  intros _. by destruct (String.eqb_spec secret "").
Qed.

(** X12. The [authenticate] handler and [authenticateClient] implement the
    same check: the handler enrolls the caller exactly when
    [authenticateClient] answers [true] for the password it was given. *)
Theorem authenticate_agrees_with_authenticateClient w socket_id clientName
    serverPassword srv :
  (∃ p srv',
     socketHandler w socket_id (Authenticate clientName serverPassword) srv
     = (Success p, srv')) ↔
  authenticateClient (SERVER_PASSWORD w) serverPassword = true.
Proof.
  destruct (SERVER_PASSWORD w) as [secret|] eqn:Henv.
  - rewrite (authenticate_accepts w socket_id clientName serverPassword srv
               secret Henv).
    unfold authenticateClient. simpl.
    destruct (String.eqb_spec secret "") as [->|Hs].
    + split; [by intros [_ ?] | done].
    + destruct serverPassword as [| |b|x|s]; simpl;
        try (split; [by intros [? _] | done]).
      destruct (String.eqb_spec s secret) as [->|Hne]; simpl.
      * split; [done | by intros _].
      * split; [intros [[= ->] _]; done | done].
  - simpl. unfold on_authenticate, authenticateClient. rewrite Henv.
    rewrite reject_without_secret. simpl.
    split; [by intros (? & ? & ?) | done].
Qed.

Lemma authenticate_agrees_with_authenticateClient_witness :
  ∃ p srv',
    socketHandler (world_creating "dave-id") "sock-dave"
      (Authenticate "dave" (JString "wire")) initial_server
    = (Success p, srv').
Proof.
  apply (proj2 (authenticate_agrees_with_authenticateClient
                  (world_creating "dave-id") "sock-dave" "dave"
                  (JString "wire") initial_server)).
  reflexivity.
Defined.

(** X13. A successful [authenticate] enrolls the caller in the pending
    queue under the drawn id, with the socket it came from; nothing else in
    the server changes, and a session that was not ACTIVE is PENDING
    afterwards. *)
Theorem authenticate_enrolls w socket_id clientName serverPassword srv :
  authenticateClient (SERVER_PASSWORD w) serverPassword = true →
  (socketHandler w socket_id (Authenticate clientName serverPassword) srv).1
  = Success (PPending (uuid w) clientName) ∧
  ClientManager.pendingClients
    (clientManager
       (socketHandler w socket_id (Authenticate clientName serverPassword)
          srv).2) !! uuid w
  = Some {| pending_id := uuid w; pending_name := clientName;
            pending_socketId := Some socket_id;
            pending_createdAt := now w |} ∧
  (∀ other, other ≠ uuid w →
     ClientManager.pendingClients
       (clientManager
          (socketHandler w socket_id (Authenticate clientName serverPassword)
             srv).2) !! other
     = ClientManager.pendingClients (clientManager srv) !! other) ∧
  ClientManager.clients
    (clientManager
       (socketHandler w socket_id (Authenticate clientName serverPassword)
          srv).2)
  = ClientManager.clients (clientManager srv) ∧
  channelManager
    (socketHandler w socket_id (Authenticate clientName serverPassword) srv).2
  = channelManager srv ∧
  mediasoupManager
    (socketHandler w socket_id (Authenticate clientName serverPassword) srv).2
  = mediasoupManager srv ∧
  (session_state_of socket_id srv ≠ ACTIVE →
   session_state_of socket_id
     (socketHandler w socket_id (Authenticate clientName serverPassword)
        srv).2
   = PENDING).
Proof.
  intros Hauth. apply authenticateClient_true in Hauth.
  simpl. unfold on_authenticate. rewrite Hauth. simpl.
  split; [done|]. split; [by rewrite lookup_insert_eq|].
  split; [intros other Hne; by rewrite lookup_insert_ne|].
  repeat (split; [done|]).
  unfold session_state_of, ClientManager.getClientBySocketId. simpl.
  destruct (ClientManager.find_by_socket socket_id
              (ClientManager.clients (clientManager srv))) as [k|].
  - unfold ClientManager.getClientInfo. simpl.
    destruct (JsMap.get k (ClientManager.clients (clientManager srv)));
      [done|].
    intros _. rewrite decide_True; [done|].
    exists (uuid w), {| pending_id := uuid w; pending_name := clientName;
                        pending_socketId := Some socket_id;
                        pending_createdAt := now w |}.
    split; [by rewrite lookup_insert_eq | done].
  - intros _. rewrite decide_True; [done|].
    exists (uuid w), {| pending_id := uuid w; pending_name := clientName;
                        pending_socketId := Some socket_id;
                        pending_createdAt := now w |}.
    split; [by rewrite lookup_insert_eq | done].
Qed.

Lemma authenticate_enrolls_witness :
  authenticateClient (SERVER_PASSWORD (world_creating "dave-id"))
    (JString "wire") = true ∧
  session_state_of "sock-dave" dave_is_pending = PENDING.
Proof.
  split; [reflexivity|].
  refine (proj2 (proj2 (proj2 (proj2 (proj2 (proj2
            (authenticate_enrolls (world_creating "dave-id") "sock-dave"
               "dave" (JString "wire") initial_server eq_refl)))))) _).
  by vm_compute.
Defined.

(** X14. After [close()] the Media Worker has no router and no objects:
    every media request then fails, whatever its arguments, its socket and
    the outcomes the library would give, and leaves the server as it is. *)
Theorem media_requests_fail_after_close w socket_id req srv :
  is_media_request req = true →
  ∃ e, socketHandler w socket_id req (closed srv) = (Failure e, closed srv).
Proof.
  intros Hreq. destruct req; try discriminate Hreq; simpl.
  - exists MediasoupManager.null_router. reflexivity.
  - exists MediasoupManager.null_router. by destruct srv.
  - exists (MediasoupManager.transport_not_found transportId). reflexivity.
  - exists (MediasoupManager.transport_not_found transportId).
    by destruct srv.
  - exists (MediasoupManager.transport_not_found transportId).
    by destruct srv.
Qed.

Lemma media_requests_fail_after_close_witness :
  ∃ e,
    socketHandler sample_world "sock-bob" (Consume "t-bob" "p-alice")
      (closed sample_server)
    = (Failure e, closed sample_server).
Proof.
  exact (media_requests_fail_after_close sample_world "sock-bob"
           (Consume "t-bob" "p-alice") sample_server eq_refl).
Defined.

(** ** Disconnection *)

(** One [removeClientFromChannel] of the channel registry, seen through its
    getters. *)
Lemma removeClientFromChannel_getters chm c clientId :
  (∀ channelId,
     ChannelManager.getChannelClients channelId
       (ChannelManager.removeClientFromChannel c clientId chm).2
     = if decide (channelId = c)
       then ChannelManager.getChannelClients channelId chm ∖ {[clientId]}
       else ChannelManager.getChannelClients channelId chm) ∧
  (∀ channelId,
     ChannelManager.getChannelProducers channelId
       (ChannelManager.removeClientFromChannel c clientId chm).2
     = ChannelManager.getChannelProducers channelId chm) ∧
  dom (ChannelManager.channels
         (ChannelManager.removeClientFromChannel c clientId chm).2)
  =@{gset string} dom (ChannelManager.channels chm).
Proof.
  unfold ChannelManager.removeClientFromChannel,
    ChannelManager.getChannelClients, ChannelManager.getChannelProducers.
  destruct (ChannelManager.channels chm !! c) as [channel|] eqn:Hc; simpl.
  - split; [|split].
    + intros channelId. destruct (decide (channelId = c)) as [->|Hne].
      * by rewrite lookup_insert_eq, Hc.
      * by rewrite lookup_insert_ne.
    + intros channelId. destruct (decide (channelId = c)) as [->|Hne].
      * by rewrite lookup_insert_eq, Hc.
      * by rewrite lookup_insert_ne.
    + rewrite dom_insert_L. apply set_eq. intros x.
      rewrite elem_of_union, elem_of_singleton, !elem_of_dom.
      split; [intros [->|?]; [by rewrite Hc | done] | by right].
  - split; [|done]. intros channelId.
    destruct (decide (channelId = c)) as [->|Hne]; [|done].
    rewrite Hc. apply set_eq. intros x.
    rewrite elem_of_difference, elem_of_empty. tauto.
Qed.

(** The loop of the [disconnect] handler over the client's channels. *)
Lemma disconnect_loop clientId l chm :
  (∀ channelId,
     ChannelManager.getChannelClients channelId
       (foldl (λ chm channelId,
                 (ChannelManager.removeClientFromChannel channelId clientId
                    chm).2) chm l)
     = if bool_decide (channelId ∈ l)
       then ChannelManager.getChannelClients channelId chm ∖ {[clientId]}
       else ChannelManager.getChannelClients channelId chm) ∧
  (∀ channelId,
     ChannelManager.getChannelProducers channelId
       (foldl (λ chm channelId,
                 (ChannelManager.removeClientFromChannel channelId clientId
                    chm).2) chm l)
     = ChannelManager.getChannelProducers channelId chm) ∧
  dom (ChannelManager.channels
         (foldl (λ chm channelId,
                   (ChannelManager.removeClientFromChannel channelId clientId
                      chm).2) chm l))
  =@{gset string} dom (ChannelManager.channels chm).
Proof.
  revert chm. induction l as [|c l IH]; intros chm; cbn [foldl].
  - split; [|done]. intros channelId.
    by rewrite bool_decide_eq_false_2 by apply not_elem_of_nil.
  - destruct (IH (ChannelManager.removeClientFromChannel c clientId chm).2)
      as (Hcl & Hpr & Hdom).
    destruct (removeClientFromChannel_getters chm c clientId)
      as (Hcl1 & Hpr1 & Hdom1).
    split; [|split].
    + intros channelId. rewrite Hcl, Hcl1.
      destruct (decide (channelId = c)) as [->|Hne].
      * rewrite (bool_decide_eq_true_2 (c ∈ c :: l))
          by apply list_elem_of_here.
        destruct (bool_decide (c ∈ l)); [|done].
        apply set_eq. intros x. rewrite !elem_of_difference. tauto.
      * destruct (bool_decide_reflect (channelId ∈ l)) as [Hin|Hnin].
        -- by rewrite bool_decide_eq_true_2 by (by apply elem_of_cons; right).
        -- rewrite bool_decide_eq_false_2; [done|].
           by intros [?|?]%elem_of_cons.
    + intros channelId. by rewrite Hpr, Hpr1.
    + by rewrite Hdom, Hdom1.
Qed.

(** X15. When the socket of a registered client disconnects, the client is
    removed from the client registry and from the member set of each
    channel it listed; the other clients, the pending queue and the set of
    registered channels stay as they are.  The handler does not release
    media: the producers registered in the channels and the whole Media
    Worker state (transports, producers, consumers) are left untouched. *)
Theorem on_disconnect_spec socket_id srv client :
  ClientManager.getClientBySocketId socket_id (clientManager srv)
  = Some client →
  NoDup (JsMap.keys (ClientManager.clients (clientManager srv))) →
  JsMap.get (cinfo_id client)
    (ClientManager.clients (clientManager (on_disconnect socket_id srv)))
  = None ∧
  (∀ other, other ≠ cinfo_id client →
     JsMap.get other
       (ClientManager.clients (clientManager (on_disconnect socket_id srv)))
     = JsMap.get other (ClientManager.clients (clientManager srv))) ∧
  ClientManager.pendingClients (clientManager (on_disconnect socket_id srv))
  = ClientManager.pendingClients (clientManager srv) ∧
  (∀ channelId,
     ChannelManager.getChannelClients channelId
       (channelManager (on_disconnect socket_id srv))
     = if bool_decide (channelId ∈ cinfo_channels client)
       then ChannelManager.getChannelClients channelId (channelManager srv)
            ∖ {[cinfo_id client]}
       else ChannelManager.getChannelClients channelId (channelManager srv)) ∧
  dom (ChannelManager.channels (channelManager (on_disconnect socket_id srv)))
  =@{gset string} dom (ChannelManager.channels (channelManager srv)) ∧
  (∀ channelId,
     ChannelManager.getChannelProducers channelId
       (channelManager (on_disconnect socket_id srv))
     = ChannelManager.getChannelProducers channelId (channelManager srv)) ∧
  mediasoupManager (on_disconnect socket_id srv) = mediasoupManager srv.
Proof.
  intros Hget Hnd. unfold on_disconnect. rewrite Hget. simpl.
  destruct (disconnect_loop (cinfo_id client) (cinfo_channels client)
              (channelManager srv)) as (Hcl & Hpr & Hdom).
  split; [by apply JsMapFacts.get_delete_eq|].
  split; [intros other Hne; by apply JsMapFacts.get_delete_ne|].
  done.
Qed.

Lemma on_disconnect_spec_witness :
  NoDup (JsMap.keys (ClientManager.clients (clientManager sample_server))) ∧
  ChannelManager.getChannelClients "main"
    (channelManager (on_disconnect "sock-bob" sample_server))
  = ChannelManager.getChannelClients "main" (channelManager sample_server)
    ∖ {[ "bob-id" ]} ∧
  ChannelManager.getChannelProducers "main"
    (channelManager (on_disconnect "sock-bob" sample_server))
  = {[ "p-alice" ]}.
Proof.
  assert (Hnd : NoDup (JsMap.keys
                         (ClientManager.clients (clientManager sample_server))))
    by (apply (NoDup_cons_2 "bob-id" ["carol-id"]);
        [by intros [?|?%elem_of_nil]%elem_of_cons
        | apply NoDup_singleton]).
  assert (Hget : ClientManager.getClientBySocketId "sock-bob"
                   (clientManager sample_server)
                 = ClientManager.getClientInfo "bob-id"
                     (clientManager sample_server)) by reflexivity.
  unfold ClientManager.getClientInfo in Hget.
  change (JsMap.get "bob-id"
            (ClientManager.clients (clientManager sample_server)))
    with (Some sample_bob) in Hget.
  destruct (on_disconnect_spec "sock-bob" sample_server _ Hget Hnd)
    as (_ & _ & _ & Hcl & _ & Hpr & _).
  split; [exact Hnd|]. split.
  - exact (Hcl "main").
  - rewrite (Hpr "main"). reflexivity.
Defined.

(** ** Speaking notifications *)

Lemma keyed_by_id_get cm k c :
  keyed_by_id cm →
  JsMap.get k (ClientManager.clients cm) = Some c → client_id c = k.
Proof.
  unfold keyed_by_id. induction 1 as [|[k0 c0] l Hc _ IH]; simpl; [done|].
  destruct (decide (k0 = k)) as [->|Hne]; [by intros [= <-] | done].
Qed.

(** The record behind the answer of [getClientBySocketId]. *)
Lemma getClientBySocketId_record cm socket_id info :
  keyed_by_id cm →
  ClientManager.getClientBySocketId socket_id cm = Some info →
  ∃ c,
    JsMap.get (cinfo_id info) (ClientManager.clients cm) = Some c ∧
    cinfo_channels info = client_channels c ∧
    cinfo_permissions info = client_permissions c.
Proof.
  intros Hk. unfold ClientManager.getClientBySocketId.
  destruct (ClientManager.find_by_socket socket_id (ClientManager.clients cm))
    as [k|]; [|done].
  unfold ClientManager.getClientInfo.
  destruct (JsMap.get k (ClientManager.clients cm)) as [c|] eqn:Hget; [|done].
  intros [= <-]. simpl. exists c.
  by rewrite (keyed_by_id_get cm k c Hk Hget).
Qed.

(** X16. [startSpeaking] is gated by the permission evaluator and
    [stopSpeaking] is not: for the registered client behind the socket, the
    first notifies the room exactly when the client is a member of the
    channel with the right to speak there, the second notifies the room of
    any channel id it is given. *)
Theorem speaking_notifications socket_id channelId srv client :
  keyed_by_id (clientManager srv) →
  ClientManager.getClientBySocketId socket_id (clientManager srv)
  = Some client →
  (on_startSpeaking socket_id channelId srv
   = Some (ClientSpeaking (cinfo_id client) (cinfo_name client) channelId) ↔
   channelId ∈ cinfo_channels client ∧
   speak_right (cinfo_permissions client) channelId) ∧
  (on_startSpeaking socket_id channelId srv = None ↔
   ¬ (channelId ∈ cinfo_channels client ∧
      speak_right (cinfo_permissions client) channelId)) ∧
  on_stopSpeaking socket_id channelId srv
  = Some (ClientStoppedSpeaking (cinfo_id client) (cinfo_name client)
            channelId).
Proof.
  intros Hk Hget.
  destruct (getClientBySocketId_record _ _ _ Hk Hget) as (c & Hc & -> & ->).
  pose proof (canSpeak_known (clientManager srv) (cinfo_id client) channelId
                c Hc) as Hspec.
  unfold on_startSpeaking, on_stopSpeaking. rewrite Hget.
  destruct (ClientManager.canSpeak (cinfo_id client) channelId
              (clientManager srv)) as [[|]|e].
  - split; [|split]; [| |done].
    + split; [intros _; by apply Hspec | done].
    + split; [done | intros H; by destruct H; apply Hspec].
  - split; [|split]; [| |done].
    + split; [done | intros H; by apply Hspec in H].
    + split; [intros _ H; by apply Hspec in H | done].
  - split; [|split]; [| |done].
    + split; [done | intros H; by apply Hspec in H].
    + split; [intros _ H; by apply Hspec in H | done].
Qed.

Lemma speaking_notifications_witness :
  keyed_by_id (clientManager sample_server) ∧
  on_stopSpeaking "sock-carol" "studio" sample_server
  = Some (ClientStoppedSpeaking "carol-id" "carol" "studio").
Proof.
  assert (Hk : keyed_by_id (clientManager sample_server))
    by (repeat constructor).
  assert (Hget : ClientManager.getClientBySocketId "sock-carol"
                   (clientManager sample_server)
                 = ClientManager.getClientInfo "carol-id"
                     (clientManager sample_server)) by reflexivity.
  unfold ClientManager.getClientInfo in Hget.
  change (JsMap.get "carol-id"
            (ClientManager.clients (clientManager sample_server)))
    with (Some sample_carol) in Hget.
  split; [exact Hk|].
  exact (proj2 (proj2 (speaking_notifications "sock-carol" "studio"
                         sample_server _ Hk Hget))).
Defined.

(** ** HTTP routes on clients *)

Lemma client_addClientToChannel_true cm clientId channelId cm' :
  ClientManager.addClientToChannel clientId channelId cm = (true, cm') →
  ∃ client client',
    JsMap.get clientId (ClientManager.clients cm) = Some client ∧
    (channelId ∉ client_channels client) ∧
    ClientManager.clients cm'
    = JsMap.set clientId client' (ClientManager.clients cm) ∧
    client_channels client' = client_channels client ++ [channelId].
Proof.
  unfold ClientManager.addClientToChannel.
  destruct (JsMap.get clientId (ClientManager.clients cm)) as [client|];
    [|done].
  destruct (includes channelId (client_channels client)) eqn:Hin; simpl;
    [done|].
  intros [= <-]. exists client. eexists. split; [done|].
  split; [by apply includes_false|]. split; [reflexivity|].
  by destruct (client_channelSettings client !! channelId).
Qed.

Lemma client_removeClientFromChannel_true cm clientId channelId cm' :
  ClientManager.removeClientFromChannel clientId channelId cm = (true, cm') →
  ∃ client client' i,
    JsMap.get clientId (ClientManager.clients cm) = Some client ∧
    client_channels client !! i = Some channelId ∧
    ClientManager.clients cm'
    = JsMap.set clientId client' (ClientManager.clients cm) ∧
    client_channels client' = delete i (client_channels client).
Proof.
  unfold ClientManager.removeClientFromChannel.
  destruct (JsMap.get clientId (ClientManager.clients cm)) as [client|];
    [|done].
  destruct (indexOf channelId (client_channels client)) as [i|] eqn:Hi;
    [|done].
  intros [= <-]. exists client. eexists. exists i. split; [done|].
  split; [by apply indexOf_Some in Hi as [? _]|]. by split.
Qed.

(** X17. The routes that add a client to a channel and remove it keep the
    client registry and the channel registry in step: if, before the
    request, every registered client lists a registered channel exactly when
    the channel lists the client, and no client lists a channel twice, the
    same holds after [POST /:id/channels] and after
    [DELETE /:id/channels/:channelId], whoever sends them and whatever the
    ids. *)
Theorem channel_routes_keep_registries_in_step user id body_channelId
    channelId st :
  membership_consistent st →
  channels_distinct st →
  (membership_consistent (route_addToChannel user id body_channelId st).2 ∧
   channels_distinct (route_addToChannel user id body_channelId st).2) ∧
  (membership_consistent (route_removeFromChannel user id channelId st).2 ∧
   channels_distinct (route_removeFromChannel user id channelId st).2).
Proof.
  intros Hcons Hdist. split.
  - unfold route_addToChannel.
    destruct (negb (requireAdmin user)); [done|].
    destruct (truthy_string body_channelId) as [c|]; [|done].
    unfold ChannelManager.getChannel.
    destruct (ChannelManager.channels (api_channelManager st) !! c)
      as [ch|] eqn:Hch; [|done].
    destruct (ChannelManager.getChannelInfo c (api_channelManager st));
      [|done].
    destruct (ClientManager.addClientToChannel id c (api_clientManager st))
      as [[|] cm'] eqn:Hadd; [|done].
    apply client_addClientToChannel_true in Hadd
      as (client & client' & Hget & Hnin & Hcl & Hchans).
    unfold ChannelManager.addClientToChannel. rewrite Hch. simpl. split.
    + intros k cl C chn. simpl. rewrite Hcl, JsMapFacts.get_set.
      destruct (decide (id = k)) as [<-|Hk].
      * intros [= <-]. rewrite Hchans, elem_of_app, list_elem_of_singleton.
        destruct (decide (c = C)) as [<-|HC].
        -- rewrite lookup_insert_eq. intros [= <-]. simpl.
           rewrite elem_of_union, elem_of_singleton. tauto.
        -- rewrite lookup_insert_ne by done. intros HchC.
           rewrite <- (Hcons id client C chn Hget HchC).
           split; [intros [?|?]; [done | by subst] | by left].
      * intros Hk'. destruct (decide (c = C)) as [<-|HC].
        -- rewrite lookup_insert_eq. intros [= <-]. simpl.
           rewrite elem_of_union, elem_of_singleton.
           rewrite (Hcons k cl c ch Hk' Hch).
           split; [by right | intros [?|?]; [by subst | done]].
        -- rewrite lookup_insert_ne by done. by apply Hcons.
    + intros k cl. simpl. rewrite Hcl, JsMapFacts.get_set.
      destruct (decide (id = k)) as [<-|Hk]; [|by apply Hdist].
      intros [= <-]. rewrite Hchans. apply NoDup_app.
      split; [by apply (Hdist id)|]. split; [|apply NoDup_singleton].
      intros x Hx ->%list_elem_of_singleton. done.
  - unfold route_removeFromChannel.
    destruct (negb (requireAdmin user)); [done|].
    destruct (ClientManager.removeClientFromChannel id channelId
                (api_clientManager st)) as [[|] cm'] eqn:Hrem; [|done].
    apply client_removeClientFromChannel_true in Hrem
      as (client & client' & i & Hget & Hi & Hcl & Hchans).
    pose proof (Hdist id client Hget) as Hnd.
    simpl. split.
    + intros k cl C chn. simpl. rewrite Hcl, JsMapFacts.get_set.
      unfold ChannelManager.removeClientFromChannel.
      destruct (ChannelManager.channels (api_channelManager st) !! channelId)
        as [ch|] eqn:Hch; simpl.
      * destruct (decide (id = k)) as [<-|Hk].
        -- intros [= <-]. rewrite Hchans.
           rewrite (elem_of_delete_NoDup _ i channelId C Hnd Hi).
           destruct (decide (channelId = C)) as [<-|HC].
           ++ rewrite lookup_insert_eq. intros [= <-]. simpl.
              rewrite elem_of_difference, elem_of_singleton. tauto.
           ++ rewrite lookup_insert_ne by done. intros HchC.
              rewrite <- (Hcons id client C chn Hget HchC).
              split; [by intros [? _] | by split].
        -- intros Hk'. destruct (decide (channelId = C)) as [<-|HC].
           ++ rewrite lookup_insert_eq. intros [= <-]. simpl.
              rewrite elem_of_difference, elem_of_singleton.
              rewrite (Hcons k cl channelId ch Hk' Hch).
              split; [by split | by intros [? _]].
           ++ rewrite lookup_insert_ne by done. by apply Hcons.
      * destruct (decide (id = k)) as [<-|Hk]; [|by apply Hcons].
        intros [= <-] HchC. rewrite Hchans.
        rewrite (elem_of_delete_NoDup _ i channelId C Hnd Hi).
        rewrite <- (Hcons id client C chn Hget HchC).
        split; [by intros [? _]|]. intros HC. split; [done|].
        intros ->. by rewrite Hch in HchC.
    + intros k cl. simpl. rewrite Hcl, JsMapFacts.get_set.
      destruct (decide (id = k)) as [<-|Hk]; [|by apply Hdist].
      intros [= <-]. rewrite Hchans.
      exact (sublist_NoDup _ _ Hnd (sublist_delete _ i)).
Qed.

Lemma sample_api_consistent : membership_consistent sample_api.
Proof.
  intros k cl C chn Hk HC.
  change (ClientManager.clients (api_clientManager sample_api))
    with [("bob-id", sample_bob)] in Hk.
  simpl in Hk. destruct (decide ("bob-id" = k)) as [<-|]; [|done].
  injection Hk as <-.
  unfold sample_api in HC. simpl in HC.
  apply lookup_insert_Some in HC as [[<- <-]|[Hne HC]].
  - unfold bob_channel, sample_bob. cbn [channel_clients client_channels].
    split; intros _; [by apply elem_of_singleton | apply list_elem_of_here].
  - unfold ChannelManager.new, ChannelManager.createChannel in HC.
    simpl in HC.
    apply lookup_insert_Some in HC as [[<- <-]|[_ HC]]; [|done].
    unfold sample_bob. cbn [channel_clients client_channels].
    split; [by intros ?%list_elem_of_singleton | by intros ?%elem_of_empty].
Qed.

Lemma sample_api_distinct : channels_distinct sample_api.
Proof.
  intros k cl Hk.
  change (ClientManager.clients (api_clientManager sample_api))
    with [("bob-id", sample_bob)] in Hk.
  simpl in Hk. destruct (decide ("bob-id" = k)) as [<-|]; [|done].
  injection Hk as <-. apply NoDup_singleton.
Qed.

Lemma channel_routes_keep_registries_in_step_witness :
  membership_consistent sample_api ∧
  channels_distinct sample_api ∧
  membership_consistent
    (route_addToChannel admin_user "bob-id" (Some "sys") sample_api).2 ∧
  membership_consistent
    (route_removeFromChannel admin_user "bob-id" "main" sample_api).2.
Proof.
  split; [exact sample_api_consistent|].
  split; [exact sample_api_distinct|].
  destruct (channel_routes_keep_registries_in_step admin_user "bob-id"
              (Some "sys") "main" sample_api sample_api_consistent
              sample_api_distinct) as [[Hadd _] [Hrem _]].
  split; [exact Hadd | exact Hrem].
Defined.

Lemma setChannelMuteStatus_result cm clientId channelId m :
  (∃ client settings,
     JsMap.get clientId (ClientManager.clients cm) = Some client ∧
     client_channelSettings client !! channelId = Some settings ∧
     ClientManager.setChannelMuteStatus clientId channelId m cm
     = (true,
        {| ClientManager.clients :=
             JsMap.set clientId
               (with_channelSettings
                  (<[channelId := {| muted := m; volume := volume settings |}]>
                     (client_channelSettings client)) client)
               (ClientManager.clients cm);
           ClientManager.pendingClients := ClientManager.pendingClients cm |}))
  ∨ ((JsMap.get clientId (ClientManager.clients cm) = None ∨
      ∃ client,
        JsMap.get clientId (ClientManager.clients cm) = Some client ∧
        client_channelSettings client !! channelId = None) ∧
     ClientManager.setChannelMuteStatus clientId channelId m cm = (false, cm)).
Proof.
  unfold ClientManager.setChannelMuteStatus.
  destruct (JsMap.get clientId (ClientManager.clients cm)) as [client|];
    [|right; split; [by left | done]].
  destruct (client_channelSettings client !! channelId) as [settings|] eqn:Hs.
  - left. by exists client, settings.
  - right. split; [right; by exists client | done].
Qed.

Lemma setChannelVolume_result cm clientId channelId v :
  (∃ client settings,
     JsMap.get clientId (ClientManager.clients cm) = Some client ∧
     client_channelSettings client !! channelId = Some settings ∧
     ClientManager.setChannelVolume clientId channelId v cm
     = (true,
        {| ClientManager.clients :=
             JsMap.set clientId
               (with_channelSettings
                  (<[channelId := {| muted := muted settings;
                                     volume := normalized v |}]>
                     (client_channelSettings client)) client)
               (ClientManager.clients cm);
           ClientManager.pendingClients := ClientManager.pendingClients cm |}))
  ∨ ((JsMap.get clientId (ClientManager.clients cm) = None ∨
      ∃ client,
        JsMap.get clientId (ClientManager.clients cm) = Some client ∧
        client_channelSettings client !! channelId = None) ∧
     ClientManager.setChannelVolume clientId channelId v cm = (false, cm)).
Proof.
  unfold ClientManager.setChannelVolume.
  destruct (JsMap.get clientId (ClientManager.clients cm)) as [client|];
    [|right; split; [by left | done]].
  destruct (client_channelSettings client !! channelId) as [settings|] eqn:Hs.
  - left. by exists client, settings.
  - right. split; [right; by exists client | done].
Qed.

(** X18. [PUT /:id/channel-settings/:channelId]: a caller who is neither
    an admin nor the client itself is refused with 403; a body with neither
    [muted] nor [volume] is never answered 200; a request that is not
    answered 200 leaves the state as it was; a request answered 200 came
    from an admin or the client itself and named a client that has settings
    for the channel; and no request touches the channel registry or another
    client's record. *)
Theorem route_channelSettings_spec user id channelId m v st :
  (user_isAdmin user = false → user_clientId user ≠ id →
   route_channelSettings user id channelId m v st
   = (Status 403 "Unauthorized access to client settings", st)) ∧
  (m = None → v = None →
   status_of (route_channelSettings user id channelId m v st).1 ≠ 200) ∧
  (status_of (route_channelSettings user id channelId m v st).1 ≠ 200 →
   (route_channelSettings user id channelId m v st).2 = st) ∧
  (status_of (route_channelSettings user id channelId m v st).1 = 200 →
   (user_isAdmin user = true ∨ user_clientId user = id) ∧
   ∃ client,
     JsMap.get id (ClientManager.clients (api_clientManager st))
     = Some client ∧
     is_Some (client_channelSettings client !! channelId)) ∧
  api_channelManager (route_channelSettings user id channelId m v st).2
  = api_channelManager st ∧
  (∀ other, other ≠ id →
     JsMap.get other
       (ClientManager.clients
          (api_clientManager
             (route_channelSettings user id channelId m v st).2))
     = JsMap.get other (ClientManager.clients (api_clientManager st))).
Proof.
  split.
  { intros Ha Hne. unfold route_channelSettings. rewrite Ha. simpl.
    by destruct (String.eqb_spec (user_clientId user) id). }
  unfold route_channelSettings.
  destruct (negb (user_isAdmin user)
            && negb (String.eqb (user_clientId user) id)) eqn:Hb.
  { simpl. repeat split; try done; intros; lia. }
  assert (Hwho : user_isAdmin user = true ∨ user_clientId user = id).
  { destruct (user_isAdmin user); [by left|]. right.
    by destruct (String.eqb_spec (user_clientId user) id). }
  destruct st as [cm chm]. simpl.
  destruct m as [mv|], v as [vv|].
  - destruct (setChannelMuteStatus_result cm id channelId mv)
      as [(client & s & Hg & Hs & ->)|[_ ->]].
    + match goal with
      | |- context [ClientManager.setChannelVolume id channelId vv ?cm1] =>
          destruct (setChannelVolume_result cm1 id channelId vv)
            as [(client1 & s1 & Hg1 & Hs1 & ->)|[Hfail ->]]
      end.
      * simpl. repeat split; try done; try (intros; lia); eauto.
        intros other Hne. by rewrite !JsMapFacts.get_set_ne.
      * exfalso. simpl in Hfail. rewrite JsMapFacts.get_set_eq in Hfail.
        destruct Hfail as [?|(c & [= <-] & Hnone)]; [done|].
        simpl in Hnone. by rewrite lookup_insert_eq in Hnone.
    + destruct (setChannelVolume_result cm id channelId vv)
        as [(client & s & Hg & Hs & ->)|[_ ->]]; simpl.
      * repeat split; try done; try (intros; lia); eauto.
        intros other Hne. by rewrite JsMapFacts.get_set_ne.
      * repeat split; try done; intros; lia.
  - destruct (setChannelMuteStatus_result cm id channelId mv)
      as [(client & s & Hg & Hs & ->)|[_ ->]]; simpl.
    + repeat split; try done; try (intros; lia); eauto.
      intros other Hne. by rewrite JsMapFacts.get_set_ne.
    + repeat split; try done; intros; lia.
  - destruct (setChannelVolume_result cm id channelId vv)
      as [(client & s & Hg & Hs & ->)|[_ ->]]; simpl.
    + repeat split; try done; try (intros; lia); eauto.
      intros other Hne. by rewrite JsMapFacts.get_set_ne.
    + repeat split; try done; intros; lia.
  - simpl. repeat split; try done; intros; lia.
Qed.

Lemma route_channelSettings_spec_witness :
  route_channelSettings bob_user "carol-id" "main" (Some true) None sample_api
  = (Status 403 "Unauthorized access to client settings", sample_api).
Proof.
  refine (proj1 (route_channelSettings_spec bob_user "carol-id" "main"
                   (Some true) None sample_api) eq_refl _).
  discriminate.
Defined.

(** One [addClientToChannel] of the channel registry, seen through its
    getter. *)
Lemma addClientToChannel_getters chm c clientId :
  (is_Some (ChannelManager.channels chm !! c) →
   ChannelManager.getChannelClients c
     (ChannelManager.addClientToChannel c clientId chm).2
   = {[clientId]} ∪ ChannelManager.getChannelClients c chm) ∧
  (∀ channelId, channelId ≠ c →
     ChannelManager.getChannelClients channelId
       (ChannelManager.addClientToChannel c clientId chm).2
     = ChannelManager.getChannelClients channelId chm) ∧
  dom (ChannelManager.channels
         (ChannelManager.addClientToChannel c clientId chm).2)
  =@{gset string} dom (ChannelManager.channels chm).
Proof.
  unfold ChannelManager.addClientToChannel, ChannelManager.getChannelClients.
  destruct (ChannelManager.channels chm !! c) as [channel|] eqn:Hc; simpl.
  - split; [|split].
    + intros _. by rewrite lookup_insert_eq.
    + intros channelId Hne. by rewrite lookup_insert_ne.
    + rewrite dom_insert_L. apply set_eq. intros x.
      rewrite elem_of_union, elem_of_singleton, !elem_of_dom.
      split; [intros [->|?]; [by rewrite Hc | done] | by right].
  - split; [by intros [? ?]|]. done.
Qed.

(** The loop of the authorize route over the submitted channels. *)
Lemma authorize_loop clientId l chm :
  (∀ channelId,
     channelId ∈ l →
     is_Some (ChannelManager.channels chm !! channelId) →
     ChannelManager.getChannelClients channelId
       (foldl (λ chm channelId,
                 (ChannelManager.addClientToChannel channelId clientId chm).2)
          chm l)
     = {[clientId]} ∪ ChannelManager.getChannelClients channelId chm) ∧
  (∀ channelId,
     channelId ∉ l →
     ChannelManager.getChannelClients channelId
       (foldl (λ chm channelId,
                 (ChannelManager.addClientToChannel channelId clientId chm).2)
          chm l)
     = ChannelManager.getChannelClients channelId chm) ∧
  dom (ChannelManager.channels
         (foldl (λ chm channelId,
                   (ChannelManager.addClientToChannel channelId clientId
                      chm).2) chm l))
  =@{gset string} dom (ChannelManager.channels chm).
Proof.
  revert chm. induction l as [|c l IH]; intros chm; cbn [foldl].
  - split; [by intros ? ?%elem_of_nil | done].
  - destruct (IH (ChannelManager.addClientToChannel c clientId chm).2)
      as (Hin & Hout & Hdom).
    destruct (addClientToChannel_getters chm c clientId)
      as (Hc & Hother & Hdom1).
    split; [|split].
    + intros channelId Hmem Hsome.
      assert (Hsome1 : is_Some
                (ChannelManager.channels
                   (ChannelManager.addClientToChannel c clientId chm).2
                 !! channelId))
        by (apply elem_of_dom; rewrite Hdom1; by apply elem_of_dom).
      destruct (decide (channelId ∈ l)) as [Hl|Hl].
      * rewrite (Hin channelId Hl Hsome1).
        destruct (decide (channelId = c)) as [->|Hne].
        -- rewrite (Hc Hsome). apply set_eq. intros x.
           rewrite !elem_of_union. tauto.
        -- by rewrite (Hother channelId Hne).
      * rewrite (Hout channelId Hl).
        apply elem_of_cons in Hmem as [->|?]; [|done]. by apply Hc.
    + intros channelId [Hne Hl]%not_elem_of_cons.
      by rewrite (Hout channelId Hl), (Hother channelId Hne).
    + by rewrite Hdom, Hdom1.
Qed.

(** X19. [POST /:id/authorize] by an admin for a pending client: the
    request is answered 200, the client leaves the pending queue and is
    registered under its id with the submitted channel list and a settings
    entry for each of those channels, and it is added to the member set of
    every registered channel of the list.  The set of registered channels
    does not change: a channel id of the list that names no registered
    channel ends up in the client's list without a channel to match. *)
Theorem route_authorize_spec user now id chans perms st pending :
  requireAdmin user = true →
  ClientManager.pendingClients (api_clientManager st) !! id = Some pending →
  status_of (route_authorize user now id (Some chans) (Some perms) st).1
  = 200 ∧
  ClientManager.pendingClients
    (api_clientManager
       (route_authorize user now id (Some chans) (Some perms) st).2) !! id
  = None ∧
  (∃ client,
     JsMap.get id
       (ClientManager.clients
          (api_clientManager
             (route_authorize user now id (Some chans) (Some perms) st).2))
     = Some client ∧
     client_id client = id ∧
     client_name client = pending_name pending ∧
     client_socketId client = pending_socketId pending ∧
     client_authorized client = true ∧
     client_channels client = chans ∧
     settings_domain_ok client) ∧
  (∀ channelId,
     channelId ∈ chans →
     is_Some (ChannelManager.channels (api_channelManager st) !! channelId) →
     ChannelManager.getChannelClients channelId
       (api_channelManager
          (route_authorize user now id (Some chans) (Some perms) st).2)
     = {[id]} ∪ ChannelManager.getChannelClients channelId
                  (api_channelManager st)) ∧
  (∀ channelId,
     channelId ∉ chans →
     ChannelManager.getChannelClients channelId
       (api_channelManager
          (route_authorize user now id (Some chans) (Some perms) st).2)
     = ChannelManager.getChannelClients channelId (api_channelManager st)) ∧
  dom (ChannelManager.channels
         (api_channelManager
            (route_authorize user now id (Some chans) (Some perms) st).2))
  =@{gset string} dom (ChannelManager.channels (api_channelManager st)).
Proof.
  intros Hadmin Hp. unfold route_authorize. rewrite Hadmin. simpl.
  unfold ClientManager.authorizeClient. rewrite Hp. simpl.
  unfold ClientManager.getClientInfo. simpl.
  rewrite JsMapFacts.get_set_eq. simpl.
  destruct (authorize_loop id chans (api_channelManager st))
    as (Hin & Hout & Hdom).
  split; [done|]. split; [by rewrite lookup_delete_eq|].
  split; [|done].
  eexists. split; [apply JsMapFacts.get_set_eq|]. simpl. repeat split.
  unfold settings_domain_ok. simpl. apply seed_settings_dom.
Qed.

Lemma route_authorize_spec_witness :
  requireAdmin admin_user = true ∧
  is_Some (ClientManager.pendingClients (api_clientManager pending_api)
           !! "dave-id") ∧
  status_of (route_authorize admin_user "t1" "dave-id"
               (Some ["sys"; "nowhere"]) (Some no_permissions)
               pending_api).1 = 200 ∧
  dom (ChannelManager.channels
         (api_channelManager
            (route_authorize admin_user "t1" "dave-id"
               (Some ["sys"; "nowhere"]) (Some no_permissions)
               pending_api).2))
  =@{gset string} dom (ChannelManager.channels (api_channelManager pending_api)).
Proof.
  assert (Hp : ClientManager.pendingClients (api_clientManager pending_api)
               !! "dave-id"
               = Some {| pending_id := "dave-id"; pending_name := "dave";
                         pending_socketId := Some "sock-dave";
                         pending_createdAt := "t0" |}) by reflexivity.
  split; [reflexivity|]. split; [by rewrite Hp|].
  destruct (route_authorize_spec admin_user "t1" "dave-id" ["sys"; "nowhere"]
              no_permissions pending_api _ eq_refl Hp)
    as (Hs & _ & _ & _ & _ & Hdom).
  split; [exact Hs | exact Hdom].
Defined.

(** ** Binding a socket to a client *)

Lemma find_by_socket_after_bind socketId clientId client l :
  ClientManager.find_by_socket socketId l = None →
  JsMap.get clientId l = Some client →
  ClientManager.find_by_socket socketId
    (JsMap.set clientId (with_socketId (Some socketId) client) l)
  = Some clientId.
Proof.
  induction l as [|[k c] l IH]; simpl; [done|].
  destruct (decide (client_socketId c = Some socketId)) as [|Hc]; [done|].
  intros Hnone. destruct (decide (k = clientId)) as [->|Hne]; simpl.
  - intros _. by rewrite decide_True.
  - intros Hget. rewrite decide_False by done. by apply IH.
Qed.

(** X20. [updateClientSocketId] is what makes a client reachable from a
    socket: once it has bound a socket that no record carried to a
    registered client, [getClientBySocketId] answers that client for the
    socket and [isAdmin] answers the client's admin flag; the pending queue
    and the other clients are left as they are.  For an unknown client id
    it answers [false] and changes nothing. *)
Theorem updateClientSocketId_binds cm clientId socketId client :
  JsMap.get clientId (ClientManager.clients cm) = Some client →
  ClientManager.find_by_socket socketId (ClientManager.clients cm) = None →
  (ClientManager.updateClientSocketId clientId socketId cm).1 = true ∧
  ClientManager.getClientBySocketId socketId
    (ClientManager.updateClientSocketId clientId socketId cm).2
  = ClientManager.getClientInfo clientId cm ∧
  ClientManager.isAdmin socketId
    (ClientManager.updateClientSocketId clientId socketId cm).2
  = client_isAdmin client ∧
  (∀ other, other ≠ clientId →
     JsMap.get other
       (ClientManager.clients
          (ClientManager.updateClientSocketId clientId socketId cm).2)
     = JsMap.get other (ClientManager.clients cm)) ∧
  ClientManager.pendingClients
    (ClientManager.updateClientSocketId clientId socketId cm).2
  = ClientManager.pendingClients cm ∧
  (∀ unknown, JsMap.get unknown (ClientManager.clients cm) = None →
     ClientManager.updateClientSocketId unknown socketId cm = (false, cm)).
Proof.
  intros Hget Hnone.
  assert (Hby : ClientManager.getClientBySocketId socketId
                  (ClientManager.updateClientSocketId clientId socketId cm).2
                = ClientManager.getClientInfo clientId cm).
  { unfold ClientManager.updateClientSocketId,
      ClientManager.getClientBySocketId. rewrite Hget. simpl.
    rewrite (find_by_socket_after_bind _ _ _ _ Hnone Hget).
    unfold ClientManager.getClientInfo. simpl.
    by rewrite JsMapFacts.get_set_eq, Hget. }
  split; [unfold ClientManager.updateClientSocketId; by rewrite Hget|].
  split; [exact Hby|]. split.
  - unfold ClientManager.isAdmin. rewrite Hby.
    unfold ClientManager.getClientInfo. by rewrite Hget.
  - unfold ClientManager.updateClientSocketId. rewrite Hget. simpl.
    split; [intros other Hne; by apply JsMapFacts.get_set_ne|].
    split; [done|]. intros unknown Hu. by rewrite Hu.
Qed.

Lemma updateClientSocketId_binds_witness :
  ClientManager.isAdmin "sock-root" admin_configured = false ∧
  ClientManager.isAdmin "sock-root"
    (ClientManager.updateClientSocketId "admin-id" "sock-root"
       admin_configured).2
  = true.
Proof.
  split; [reflexivity|].
  pose proof (updateClientSocketId_binds admin_configured "admin-id"
                "sock-root" _ eq_refl eq_refl) as (_ & _ & H & _).
  exact H.
Defined.

(** ** HTTP routes on channels *)

Lemma truthy_string_nonempty o s : truthy_string o = Some s → s ≠ "".
Proof.
  unfold truthy_string. destruct o as [x|]; [|done].
  destruct (String.eqb_spec x "") as [->|Hne]; [done|]. by intros [= <-].
Qed.

Lemma route_channels_keeps_unused user req chm :
  map_Forall (λ _ channel, named_and_unused channel)
    (ChannelManager.channels chm) →
  map_Forall (λ _ channel, named_and_unused channel)
    (ChannelManager.channels (route_channels user req chm).2).
Proof.
  intros Hok. unfold route_channels.
  destruct (negb (requireAdmin user)); [done|].
  destruct req as [uuid now name description|id name description|id].
  - destruct (truthy_string name) as [n|] eqn:Hn; [|done].
    assert (Hnew : map_Forall (λ _ channel, named_and_unused channel)
              (ChannelManager.channels
                 (ChannelManager.createChannel uuid now n description chm).2)).
    { simpl. apply map_Forall_insert_2; [|done].
      split; [by apply truthy_string_nonempty in Hn | done]. }
    by destruct (ChannelManager.createChannel uuid now n description chm)
      as [[info|] chm'].
  - unfold ChannelManager.updateChannel.
    destruct (ChannelManager.channels chm !! id) as [channel|] eqn:Hc;
      [|done].
    cbn [updates_name updates_description].
    match goal with
    | |- context [ChannelManager.getChannelInfo id ?c] =>
        assert (Hnew : map_Forall (λ _ channel, named_and_unused channel)
                         (ChannelManager.channels c));
        [|by destruct (ChannelManager.getChannelInfo id c)]
    end.
    simpl. apply map_Forall_insert_2; [|done].
    destruct (Hok id channel Hc) as (Hname & Hcl & Hpr).
    destruct (truthy_string (truthy_string name)) as [n|] eqn:Hn;
      destruct (truthy_string (truthy_string description)) as [d|];
      simpl; (split; [|done]); try done;
      by apply truthy_string_nonempty in Hn.
  - unfold ChannelManager.deleteChannel.
    destruct (ChannelManager.is_named_System id chm); [done|].
    destruct (ChannelManager.channels chm !! id); [|done].
    simpl. by apply map_Forall_delete.
Qed.

(** X21. The channel registry behind the channel routes is a registry of
    its own, and the routes only create, update and delete: whatever
    requests arrive, from whatever callers, every channel it holds has a
    non-empty name and has neither members nor producers, so every channel
    the routes report has [clientCount] 0. *)
Theorem channel_routes_report_no_members requests sysId t0 :
  map_Forall (λ _ channel, named_and_unused channel)
    (ChannelManager.channels
       (run_channel_routes requests (ChannelManager.new sysId t0))) ∧
  ∀ id info,
    ChannelManager.getChannel id
      (run_channel_routes requests (ChannelManager.new sysId t0))
    = Some info →
    info_name info ≠ "" ∧ info_clientCount info = 0.
Proof.
  assert (Hrun : ∀ chm,
            map_Forall (λ _ channel, named_and_unused channel)
              (ChannelManager.channels chm) →
            map_Forall (λ _ channel, named_and_unused channel)
              (ChannelManager.channels (run_channel_routes requests chm))).
  { induction requests as [|[user req] requests IH]; intros chm Hok; [done|].
    apply (IH (route_channels user req chm).2).
    by apply route_channels_keeps_unused. }
  assert (H0 : map_Forall (λ _ channel, named_and_unused channel)
                 (ChannelManager.channels (ChannelManager.new sysId t0))).
  { unfold ChannelManager.new. simpl.
    apply map_Forall_insert_2; [done | apply map_Forall_empty]. }
  pose proof (Hrun _ H0) as Hok. split; [exact Hok|].
  intros id info. unfold ChannelManager.getChannel,
    ChannelManager.getChannelInfo.
  destruct (ChannelManager.channels
              (run_channel_routes requests (ChannelManager.new sysId t0))
            !! id) as [channel|] eqn:Hc; [|done].
  intros [= <-]. simpl. destruct (Hok id channel Hc) as (Hname & Hcl & _).
  split; [done|]. by rewrite Hcl.
Qed.

Lemma channel_routes_report_no_members_witness :
  ∃ info,
    ChannelManager.getChannel "c1"
      (run_channel_routes
         [(admin_user, PostChannel "c1" "t1" (Some "Stage") None)]
         (ChannelManager.new "sys" "t0"))
    = Some info ∧
    info_name info ≠ "" ∧ info_clientCount info = 0.
Proof.
  eexists. split; [reflexivity|].
  exact (proj2 (channel_routes_report_no_members
                  [(admin_user, PostChannel "c1" "t1" (Some "Stage") None)]
                  "sys" "t0") "c1" _ eq_refl).
Defined.

(** ** HTTP routes of the mixer *)

Lemma clamp_ok v : stored_volume_ok (clamp v).
Proof.
  change (clamp v) with (normalized v). unfold stored_volume_ok.
  destruct (is_nan v) eqn:Hn.
  - left. by rewrite normalized_eq, Hn.
  - right. by apply normalized_range.
Qed.

Lemma obj_set_ok key v obj :
  stored_volume_ok v →
  map_Forall (λ _ v, stored_volume_ok v) obj →
  map_Forall (λ _ v, stored_volume_ok v) (obj_set key v obj).
Proof.
  intros Hv Hobj. unfold obj_set.
  destruct (String.eqb key "__proto__"); [done|].
  by apply map_Forall_insert_2.
Qed.

Lemma route_mixer_step user req mx :
  mixer_volumes_ok (mixerState mx) →
  mixer_volumes_ok (mixerState (route_mixer user req mx).2) ∧
  mixer_channelManager (route_mixer user req mx).2 = mixer_channelManager mx ∧
  mixer_clientManager (route_mixer user req mx).2 = mixer_clientManager mx.
Proof.
  intros (Hch & Hcl & Hm). unfold route_mixer.
  destruct (negb (requireAdmin user)); [done|].
  destruct req as [channelId volume|id|id volume|clientId volume|id
                  |id volume|volume|active|].
  - destruct (truthy_string channelId) as [c|]; [|done].
    destruct (ChannelManager.getChannel c (mixer_channelManager mx)); [|done].
    simpl. repeat split; try done. apply obj_set_ok; [apply clamp_ok | done].
  - destruct (negb (obj_in id (mixer_channels (mixerState mx)))); [done|].
    simpl. repeat split; try done. by apply map_Forall_delete.
  - destruct volume as [v|]; [|done].
    destruct (negb (obj_in id (mixer_channels (mixerState mx)))); [done|].
    simpl. repeat split; try done. apply obj_set_ok; [apply clamp_ok | done].
  - destruct (truthy_string clientId) as [c|]; [|done].
    destruct (ClientManager.getClient c (mixer_clientManager mx)); [|done].
    simpl. repeat split; try done. apply obj_set_ok; [apply clamp_ok | done].
  - destruct (negb (obj_in id (mixer_clients (mixerState mx)))); [done|].
    simpl. repeat split; try done. by apply map_Forall_delete.
  - destruct volume as [v|]; [|done].
    destruct (negb (obj_in id (mixer_clients (mixerState mx)))); [done|].
    simpl. repeat split; try done. apply obj_set_ok; [apply clamp_ok | done].
  - destruct volume as [v|]; [|done].
    simpl. repeat split; try done. apply clamp_ok.
  - destruct active as [a|]; [|done]. done.
  - simpl. repeat split; try apply map_Forall_empty. right. by split.
Qed.

(** X22. Every volume the mixer holds has gone through the clamp: whatever
    requests arrive, from whatever callers, each channel volume, each client
    volume and the master volume is within [[0, 1]] (or NaN, if NaN was
    submitted), and the channel and client registries of the mixer module
    are never changed. *)
Theorem mixer_volumes_stay_clamped requests chm cm :
  mixer_volumes_ok
    (mixerState (run_mixer requests (mixer_at_startup chm cm))) ∧
  mixer_channelManager (run_mixer requests (mixer_at_startup chm cm)) = chm ∧
  mixer_clientManager (run_mixer requests (mixer_at_startup chm cm)) = cm.
Proof.
  assert (Hrun : ∀ mx,
            mixer_volumes_ok (mixerState mx) →
            mixer_volumes_ok (mixerState (run_mixer requests mx)) ∧
            mixer_channelManager (run_mixer requests mx)
            = mixer_channelManager mx ∧
            mixer_clientManager (run_mixer requests mx)
            = mixer_clientManager mx).
  { induction requests as [|[user req] requests IH]; intros mx Hok; [done|].
    destruct (route_mixer_step user req mx Hok) as (Hok1 & Hchm & Hcm).
    destruct (IH (route_mixer user req mx).2 Hok1) as (Hok2 & Hchm2 & Hcm2).
    change (run_mixer ((user, req) :: requests) mx)
      with (run_mixer requests (route_mixer user req mx).2).
    split; [done|]. split; [by rewrite Hchm2 | by rewrite Hcm2]. }
  apply (Hrun (mixer_at_startup chm cm)).
  split; [apply map_Forall_empty|]. split; [apply map_Forall_empty|].
  right. by split.
Qed.

(** X23. The mixer tests [id in mixerState.channels] on a plain object, so
    the test also holds for the names a plain object inherits.  For an
    admin, [DELETE /channels/:id] is answered 404 exactly when [id] is
    neither a channel of the mixer nor an inherited name; otherwise it is
    answered 200 and the mixer has no volume for [id] afterwards, the other
    entries being untouched.  [PUT /channels/:id/volume] passes the same
    test: for an inherited name other than [__proto__] it is answered 200
    and stores the clamped volume although the channel was never added. *)
Theorem mixer_channel_membership_test user id v mx :
  requireAdmin user = true →
  (status_of (route_mixer user (MixerRemoveChannel id) mx).1 = 404 ↔
   mixer_channels (mixerState mx) !! id = None ∧
   (id ∉ Object_prototype_keys)) ∧
  (status_of (route_mixer user (MixerRemoveChannel id) mx).1 = 200 ↔
   is_Some (mixer_channels (mixerState mx) !! id) ∨
   id ∈ Object_prototype_keys) ∧
  mixer_channels
    (mixerState (route_mixer user (MixerRemoveChannel id) mx).2) !! id
  = None ∧
  (∀ other, other ≠ id →
     mixer_channels
       (mixerState (route_mixer user (MixerRemoveChannel id) mx).2) !! other
     = mixer_channels (mixerState mx) !! other) ∧
  (id ∈ Object_prototype_keys → id ≠ "__proto__" →
   route_mixer user (MixerChannelVolume id (Some v)) mx
   = (Status 200 "Channel volume updated",
      set_mixerState
        {| mixer_channels := <[id := clamp v]> (mixer_channels (mixerState mx));
           mixer_clients := mixer_clients (mixerState mx);
           masterVolume := masterVolume (mixerState mx);
           broadcastActive := broadcastActive (mixerState mx) |} mx)).
Proof.
  intros Hadmin. unfold route_mixer. rewrite Hadmin. simpl. unfold obj_in.
  destruct (bool_decide_reflect
              (is_Some (mixer_channels (mixerState mx) !! id))) as [Hown|Hown];
    destruct (bool_decide_reflect (id ∈ Object_prototype_keys)) as [Hin|Hin];
    simpl.
  - split; [split; [intros; lia | by intros [_ ?]]|].
    split; [split; [by left | done]|].
    split; [apply lookup_delete_eq|].
    split; [intros other Hne; by apply lookup_delete_ne|].
    intros _ Hp. unfold obj_set.
    by destruct (String.eqb_spec id "__proto__").
  - split; [split; [intros; lia|]|].
    { intros [Hnone _]. rewrite Hnone in Hown. by destruct Hown. }
    split; [split; [by left | done]|].
    split; [apply lookup_delete_eq|].
    split; [intros other Hne; by apply lookup_delete_ne | done].
  - split; [split; [intros; lia | by intros [_ ?]]|].
    split; [split; [by right | done]|].
    split; [apply lookup_delete_eq|].
    split; [intros other Hne; by apply lookup_delete_ne|].
    intros _ Hp. unfold obj_set.
    by destruct (String.eqb_spec id "__proto__").
  - assert (Hnone : mixer_channels (mixerState mx) !! id = None)
      by (by apply eq_None_not_Some).
    split; [split; [done | done]|].
    split; [split; [intros; lia | by intros [?|?]]|].
    split; [done|]. done.
Qed.

Lemma mixer_channel_membership_test_witness :
  requireAdmin admin_user = true ∧
  mixer_channels (mixerState sample_mixer) !! "toString" = None ∧
  status_of (route_mixer admin_user (MixerRemoveChannel "toString")
               sample_mixer).1
  = 200.
Proof.
  split; [reflexivity|]. split; [reflexivity|].
  apply (proj1 (proj2 (mixer_channel_membership_test admin_user "toString"
                         num_half sample_mixer eq_refl))).
  right. unfold Object_prototype_keys.
  do 8 apply list_elem_of_further. apply list_elem_of_here.
Defined.

(** ** HTTP routes of authentication *)

Lemma authenticateClient_truthy env serverPassword :
  authenticateClient env serverPassword = true →
  truthy serverPassword = true ∧ strict_neq_env serverPassword env = false ∧
  is_Some (truthy_string env).
Proof.
  intros H. pose proof (authenticateClient_true _ _ H) as Hc.
  apply orb_false_elim in Hc as [Ht Hs].
  split; [by destruct (truthy serverPassword)|]. split; [done|].
  unfold authenticateClient in H. by destruct (truthy_string env).
Qed.

(** X24. [POST /login] never issues an admin token.  It issues a token
    exactly when a client name is given and [authenticateClient] accepts the
    password; the token is then for the drawn id, under which the caller is
    enrolled in the pending queue without a socket, and the registered
    clients are untouched.  Every error answer leaves the registry as it
    was. *)
Theorem route_login_spec server_password uuid now clientName serverPassword
    cm :
  (∀ id,
     (route_login server_password uuid now clientName serverPassword cm).1
     ≠ AuthToken id true) ∧
  ((∃ id,
      (route_login server_password uuid now clientName serverPassword cm).1
      = AuthToken id false) ↔
   is_Some (truthy_string clientName) ∧
   authenticateClient server_password serverPassword = true) ∧
  (∀ code e,
     (route_login server_password uuid now clientName serverPassword cm).1
     = AuthError code e →
     (route_login server_password uuid now clientName serverPassword cm).2
     = cm) ∧
  (∀ id,
     (route_login server_password uuid now clientName serverPassword cm).1
     = AuthToken id false →
     id = uuid ∧
     (∃ name,
        truthy_string clientName = Some name ∧
        ClientManager.pendingClients
          (route_login server_password uuid now clientName serverPassword
             cm).2 !! uuid
        = Some {| pending_id := uuid; pending_name := name;
                  pending_socketId := None; pending_createdAt := now |}) ∧
     ClientManager.clients
       (route_login server_password uuid now clientName serverPassword cm).2
     = ClientManager.clients cm).
Proof.
  unfold route_login.
  destruct (truthy_string clientName) as [name|].
  2:{ split; [done|]. split; [|by split].
      split; [by intros [? ?] | by intros [[? ?] _]]. }
  destruct (authenticateClient server_password serverPassword) eqn:Ha.
  - destruct (authenticateClient_truthy _ _ Ha) as (-> & _ & _). simpl.
    split; [done|]. split; [|split; [done|]].
    + split; [done | eauto].
    + intros id [= <-]. split; [done|]. split; [|done].
      exists name. split; [done|]. by rewrite lookup_insert_eq.
  - assert (Herr : ∃ code e,
              (if negb (truthy serverPassword)
               then (AuthError 400
                       "Client name and server password are required", cm)
               else if negb false
               then (AuthError 401
                       "Authentication failed: Invalid server password", cm)
               else
                 let '(clientId, _, cm') :=
                   ClientManager.addPendingClient uuid now None name cm in
                 (AuthToken clientId false, cm'))
              = (AuthError code e, cm))
      by (destruct (truthy serverPassword); simpl; eauto).
    destruct Herr as (code & e & ->). simpl.
    split; [done|]. split; [|by split].
    split; [by intros [? ?] | by intros [_ ?]].
Qed.

Lemma route_login_spec_witness :
  (route_login (Some "wire") "u1" "t1" (Some "dave") (JString "wire")
     no_clients).1
  = AuthToken "u1" false.
Proof.
  destruct (proj1 (proj2 (route_login_spec (Some "wire") "u1" "t1"
                            (Some "dave") (JString "wire") no_clients)))
    as [_ Hissue].
  destruct (Hissue (conj (mk_is_Some _ _ eq_refl) eq_refl)) as [id Hid].
  destruct (proj2 (proj2 (proj2 (route_login_spec (Some "wire") "u1" "t1"
                                   (Some "dave") (JString "wire")
                                   no_clients))) id Hid) as [-> _].
  exact Hid.
Defined.

(** X25. [POST /admin-login] fails closed on both secrets and never issues
    a token that is not an admin token.  It issues an admin token exactly
    when an admin name is given, [authenticateClient] accepts the server
    password, and the admin key equals a configured, non-empty
    [ADMIN_KEY] (the same test, applied to [ADMIN_KEY]); the token is then
    for the drawn id, under which an admin client without a socket is
    registered.  Every error answer leaves the registry as it was. *)
Theorem route_adminLogin_spec server_password admin_key uuid now adminName
    serverPassword adminKey cm :
  (∀ id,
     (route_adminLogin server_password admin_key uuid now adminName
        serverPassword adminKey cm).1
     ≠ AuthToken id false) ∧
  ((∃ id,
      (route_adminLogin server_password admin_key uuid now adminName
         serverPassword adminKey cm).1
      = AuthToken id true) ↔
   is_Some (truthy_string adminName) ∧
   authenticateClient server_password serverPassword = true ∧
   authenticateClient admin_key adminKey = true) ∧
  (∀ code e,
     (route_adminLogin server_password admin_key uuid now adminName
        serverPassword adminKey cm).1
     = AuthError code e →
     (route_adminLogin server_password admin_key uuid now adminName
        serverPassword adminKey cm).2
     = cm) ∧
  (∀ id,
     (route_adminLogin server_password admin_key uuid now adminName
        serverPassword adminKey cm).1
     = AuthToken id true →
     id = uuid ∧
     ∃ client,
       JsMap.get uuid
         (ClientManager.clients
            (route_adminLogin server_password admin_key uuid now adminName
               serverPassword adminKey cm).2)
       = Some client ∧
       client_isAdmin client = true ∧
       client_socketId client = None ∧
       client_channels client = []).
Proof.
  assert (Hfail : ∀ r : auth_reply * ClientManager.t,
            (∃ code e, r = (AuthError code e, cm)) →
            ¬ (is_Some (truthy_string adminName) ∧
               authenticateClient server_password serverPassword = true ∧
               authenticateClient admin_key adminKey = true) →
            (∀ id, r.1 ≠ AuthToken id false) ∧
            ((∃ id, r.1 = AuthToken id true) ↔
             is_Some (truthy_string adminName) ∧
             authenticateClient server_password serverPassword = true ∧
             authenticateClient admin_key adminKey = true) ∧
            (∀ code e, r.1 = AuthError code e → r.2 = cm) ∧
            (∀ id, r.1 = AuthToken id true →
               id = uuid ∧
               ∃ client,
                 JsMap.get uuid (ClientManager.clients r.2) = Some client ∧
                 client_isAdmin client = true ∧
                 client_socketId client = None ∧
                 client_channels client = [])).
  { intros r (code & e & ->) Hno. simpl.
    split; [done|]. split; [|by split].
    split; [by intros [? ?] | done]. }
  unfold route_adminLogin.
  destruct (truthy_string adminName) as [name|];
    [|apply Hfail; [eauto | by intros [[? ?] _]]].
  destruct (authenticateClient server_password serverPassword) eqn:Ha.
  2:{ apply Hfail; [|by intros (_ & ? & _)].
      destruct (negb (truthy serverPassword) || negb (truthy adminKey));
        simpl; eauto. }
  destruct (authenticateClient_truthy _ _ Ha) as (-> & _ & _). simpl.
  destruct (authenticateClient admin_key adminKey) eqn:Hk.
  - clear Hfail.
    destruct (authenticateClient_truthy _ _ Hk) as (-> & -> & [key ->]).
    simpl. unfold ClientManager.getClientInfo. simpl.
    rewrite JsMapFacts.get_set_eq. simpl.
    split; [done|]. split; [|split; [done|]].
    + split; [done | eauto].
    + intros id [= <-]. split; [done|].
      eexists. split; [apply JsMapFacts.get_set_eq|]. done.
  - apply Hfail; [|by intros (_ & _ & ?)].
    unfold authenticateClient in Hk.
    destruct (truthy adminKey); simpl; [|eauto].
    destruct (truthy_string admin_key) as [key|]; simpl; [|eauto].
    apply negb_false_iff in Hk. rewrite Hk. eauto.
Qed.

Lemma route_adminLogin_spec_witness :
  (route_adminLogin (Some "wire") (Some "key") "u1" "t1" (Some "root")
     (JString "wire") (JString "key") no_clients).1
  = AuthToken "u1" true.
Proof.
  destruct (proj1 (proj2 (route_adminLogin_spec (Some "wire") (Some "key")
                            "u1" "t1" (Some "root") (JString "wire")
                            (JString "key") no_clients)))
    as [_ Hissue].
  destruct (Hissue (conj (mk_is_Some _ _ eq_refl) (conj eq_refl eq_refl)))
    as [id Hid].
  destruct (proj2 (proj2 (proj2 (route_adminLogin_spec (Some "wire")
                                   (Some "key") "u1" "t1" (Some "root")
                                   (JString "wire") (JString "key")
                                   no_clients))) id Hid) as [-> _].
  exact Hid.
Defined.
